(** * Vertigo micro-controller gateway: a shallow embedding

    The development follows two files of the middleware:

    - [vertigo_middleware/handlers/base.py]: the trigger headers of a request
      ([get_mc_assignation_data], [get_mc_deletion_data]);
    - [swift_vertigo/vertigo_docker_gateway.py]: the gateway that starts the
      sandbox, verifies and mirrors the handlers
      ([VertigoGatewayDocker]) and the invocation protocol that passes file
      descriptors to the sandbox ([MicroControllerInvocationProtocol],
      [MicroController]).

    Python objects that are mutated live in an explicit [state]; every method
    is a computation in a state-and-exception monad [M].  The operating
    system, the object store and the sandbox are an [environment] of oracles:
    what they answer is arbitrary, what the code does with the answer is
    modelled.

    Conventions of the model:
    - every call to the outside world leaves an [event] in the [trace] of the
      state, most recent first;
    - the store answers the same request in the same way during one call;
    - file descriptors are handed out in increasing order and never reused,
      and a descriptor is closed only by an explicit [close];
    - dictionary and list lookups raise [KeyError] and [IndexError] as in
      Python; of the file system operations, [open] on a handler file may
      fail with [IOError], while [os.makedirs] and the writes into the
      handler cache succeed;
    - [docker run --name n] fails when a container named [n] exists, and
      otherwise creates it when the image can be launched. *)

From Stdlib Require Import ZArith Ascii String.
From stdpp Require Import gmap strings list.

(** ** Python strings *)

Module PyStr.

Definition lower_ascii (c : ascii) : ascii :=
  let n := nat_of_ascii c in
  if (65 <=? n)%nat && (n <=? 90)%nat then ascii_of_nat (n + 32) else c.

(** [s.lower()] on ASCII text. *)
Fixpoint lower (s : string) : string :=
  match s with
  | EmptyString => EmptyString
  | String c r => String (lower_ascii c) (lower r)
  end.

(** [s.split(sep)] for a one-character separator: never empty, the empty
    string splits into one empty field. *)
Fixpoint split (sep : ascii) (s : string) : list string :=
  match s with
  | EmptyString => [EmptyString]
  | String c r =>
      if Ascii.eqb c sep then EmptyString :: split sep r
      else match split sep r with
           | [] => [String c EmptyString]
           | h :: t => String c h :: t
           end
  end.

(** [sep.join(parts)]. *)
Fixpoint join (sep : ascii) (parts : list string) : string :=
  match parts with
  | [] => EmptyString
  | [p] => p
  | p :: ps => p +:+ String sep (join sep ps)
  end.

(** [s.rsplit(sep, n)]: at most [n] splits, counted from the right. *)
Definition rsplit (sep : ascii) (n : nat) (s : string) : list string :=
  let parts := split sep s in
  let k := (length parts - n)%nat in
  if (k <=? 1)%nat then parts else join sep (take k parts) :: drop k parts.

(** [s.startswith(p)]. *)
Definition startswith (p s : string) : bool := String.prefix p s.

(** [s[a:b]] for [0 <= a <= b]. *)
Definition slice (a b : nat) (s : string) : string :=
  String.substring a (b - a) s.

(** [s[a:]]. *)
Definition slice_from (a : nat) (s : string) : string :=
  String.substring a (String.length s - a) s.

Definition endswith_char (c : ascii) (s : string) : bool :=
  match String.get (String.length s - 1) s with
  | Some d => Ascii.eqb c d
  | None => false
  end.

(** [os.path.join(a, b)] of posixpath, two components. *)
Definition path_join (a b : string) : string :=
  if startswith "/" b then b
  else if String.eqb a "" || endswith_char "/" a then a +:+ b
  else a +:+ "/" +:+ b.

End PyStr.

(** ** Exceptions, events, state *)

Inductive exn :=
| NameError (msg : string)
| KeyError (key : string)
| IndexError
| TypeError (msg : string)
| AttributeError (attr : string)
| IOError (path : string)
| OSError (msg : string)
| ValueError (msg : string)
| HTTPUnauthorized (body : string)
| Timeout (msg : string)
| PyException (msg : string).

(** The values stored in the metadata dictionary of one descriptor. *)
Inductive mdval :=
| MdInt (n : Z)
| MdStr (s : string)
| MdJson (req_md file_md : gmap string string).
   (* [json.dumps({'req_md': ..., 'file_md': ...})], kept structured *)

Inductive event :=
| EvLog (level msg : string)
| EvPrint (n : Z)
| EvPopen (cmd : string)
| EvShell (cmd : string)
| EvSleep (secs : Z)
| EvSwift (method account container obj : string)
| EvMakedirs (path : string)
| EvWrite (path body : string)
| EvOpen (path mode : string) (fd : nat)
| EvPipe (rfd wfd : nat)
| EvClose (fd : nat)
| EvSend (path : string) (fds : list (option nat))
         (fdmd : list (gmap string mdval)) (cmd : Z)
| EvSelect (fd : nat) (timeout : Z)
| EvRead (fd : nat) (size : Z).

Record swift_response := SwiftResponse {
  status_int : Z;
  resp_headers : gmap string string;
  resp_body : string
}.

(** What the world outside the middleware answers. *)
Record environment := Environment {
  (* [cc.make_swift_request(op, account, container, obj)] *)
  make_swift_request : string → string → string → string → swift_response;
  (* [cc.read_metadata(fd)]: [None] when the object carries no record *)
  read_metadata : nat → option (gmap string string);
  (* output of the [ps | grep | awk] pipeline *)
  ps_output : string;
  (* exit status of the shell command that starts the internal client *)
  internal_client_rc : Z;
  (* exit status of [docker run] for an image when the name is free *)
  docker_launch_rc : string → Z;
  (* whether [open(path, mode)] succeeds *)
  can_open : string → bool;
  (* [SBus.send(path, datagram)] *)
  sbus_send : string → list (option nat) → Z;
  (* whether [select] reports the descriptor readable before the timeout *)
  select_ready : nat → Z → bool;
  (* [os.read(fd, 1024)] *)
  os_read : nat → string;
  (* whether [json.loads] accepts the text *)
  json_valid : string → bool
}.

(** Mutable world: the operating system, the caller's request object (shared
    by reference with the gateway) and the gateway attributes that are
    assigned after construction. *)
Record state := State {
  trace : list event;               (* most recent event first *)
  next_fd : nat;                    (* descriptors are never reused *)
  open_fds : gset nat;
  dirs : gset string;               (* directories that exist *)
  sandboxes : list string;          (* names of the docker containers *)
  req_headers : gmap string string; (* [req.headers] of the request object *)
  file_path : option string;        (* [self.file_path] *)
  mc_list : option (list string);   (* [self.mc_list] *)
  mc_metadata : gmap string (gmap string string) (* [self.mc_metadata] *)
}.

Definition set_trace (f : list event → list event) (s : state) : state :=
  State (f (trace s)) (next_fd s) (open_fds s) (dirs s) (sandboxes s)
        (req_headers s) (file_path s) (mc_list s) (mc_metadata s).
Definition set_next_fd (n : nat) (s : state) : state :=
  State (trace s) n (open_fds s) (dirs s) (sandboxes s)
        (req_headers s) (file_path s) (mc_list s) (mc_metadata s).
Definition set_open_fds (f : gset nat → gset nat) (s : state) : state :=
  State (trace s) (next_fd s) (f (open_fds s)) (dirs s) (sandboxes s)
        (req_headers s) (file_path s) (mc_list s) (mc_metadata s).
Definition set_dirs (f : gset string → gset string) (s : state) : state :=
  State (trace s) (next_fd s) (open_fds s) (f (dirs s)) (sandboxes s)
        (req_headers s) (file_path s) (mc_list s) (mc_metadata s).
Definition set_sandboxes (f : list string → list string) (s : state) : state :=
  State (trace s) (next_fd s) (open_fds s) (dirs s) (f (sandboxes s))
        (req_headers s) (file_path s) (mc_list s) (mc_metadata s).
Definition set_req_headers
    (f : gmap string string → gmap string string) (s : state) : state :=
  State (trace s) (next_fd s) (open_fds s) (dirs s) (sandboxes s)
        (f (req_headers s)) (file_path s) (mc_list s) (mc_metadata s).
Definition set_file_path (p : option string) (s : state) : state :=
  State (trace s) (next_fd s) (open_fds s) (dirs s) (sandboxes s)
        (req_headers s) p (mc_list s) (mc_metadata s).
Definition set_mc_list (l : option (list string)) (s : state) : state :=
  State (trace s) (next_fd s) (open_fds s) (dirs s) (sandboxes s)
        (req_headers s) (file_path s) l (mc_metadata s).
Definition set_mc_metadata
    (f : gmap string (gmap string string) → gmap string (gmap string string))
    (s : state) : state :=
  State (trace s) (next_fd s) (open_fds s) (dirs s) (sandboxes s)
        (req_headers s) (file_path s) (mc_list s) (f (mc_metadata s)).

(** ** The monad *)

Inductive outcome (A : Type) :=
| Ret (a : A)
| Raise (e : exn).
Arguments Ret {A} a.
Arguments Raise {A} e.

Definition M (A : Type) : Type := state → outcome A * state.

Definition ret {A} (a : A) : M A := fun s => (Ret a, s).
Definition raise {A} (e : exn) : M A := fun s => (Raise e, s).
Definition bind {A B} (m : M A) (k : A → M B) : M B :=
  fun s => match m s with
           | (Ret a, s') => k a s'
           | (Raise e, s') => (Raise e, s')
           end.

Declare Scope py_scope.
Delimit Scope py_scope with py.
Notation "x <- m ;; k" := (bind m (fun x => k))
  (at level 100, m at next level, right associativity) : py_scope.
Notation "m ;; k" := (bind m (fun _ => k))
  (at level 100, right associativity) : py_scope.
Open Scope py_scope.

Definition get_state : M state := fun s => (Ret s, s).
Definition modify (f : state → state) : M unit := fun s => (Ret tt, f s).
Definition emit (e : event) : M unit := modify (set_trace (cons e)).

(** [try: body finally: fin].  An exception of [fin] replaces the pending
    one. *)
Definition try_finally {A} (body : M A) (fin : M unit) : M A :=
  fun s => match body s with
           | (r, s') =>
               match fin s' with
               | (Ret _, s'') => (r, s'')
               | (Raise e, s'') => (Raise e, s'')
               end
           end.

(** [for x in l: body x]. *)
Fixpoint for_each {A} (l : list A) (body : A → M unit) : M unit :=
  match l with
  | [] => ret tt
  | x :: r => body x ;; for_each r body
  end.

(** [d[k]] on a dictionary. *)
Definition getitem {V} (d : gmap string V) (k : string) : M V :=
  match d !! k with
  | Some v => ret v
  | None => raise (KeyError k)
  end.

(** [l[i]] on a list. *)
Definition index {A} (l : list A) (i : nat) : M A :=
  match l !! i with
  | Some v => ret v
  | None => raise IndexError
  end.

(** [k in d]. *)
Definition contains {V} (d : gmap string V) (k : string) : bool :=
  bool_decide (is_Some (d !! k)).

Definition logger_info (msg : string) : M unit := emit (EvLog "info" msg).
Definition logger_error (msg : string) : M unit := emit (EvLog "error" msg).

(** ** base.py: the trigger headers of a request *)

Module VertigoBaseHandler.

Definition newline : string := String (ascii_of_nat 10) EmptyString.

Definition available_assignation_headers : list string :=
  ["X-Vertigo-Onget"; "X-Vertigo-Ondelete"; "X-Vertigo-Onput";
   "X-Vertigo-Ontimer"].

Definition available_deletion_headers : list string :=
  ["X-Vertigo-Onget-Delete"; "X-Vertigo-Ondelete-Delete";
   "X-Vertigo-Onput-Delete"; "X-Vertigo-Ontimer-Delete";
   "X-Vertigo-Delete"].

(** [[i for i in available if i in self.request.headers.keys()]] *)
Definition present_headers (available : list string)
    (headers : gmap string string) : list string :=
  List.filter (contains headers) available.

Definition get_mc_assignation_data : M (string * string) :=
  s <- get_state ;;
  let header := present_headers available_assignation_headers (req_headers s) in
  if (1 <? length header)%nat then
    raise (HTTPUnauthorized
             ("Vertigo - The system can only set 1 microcontroller each time."
              +:+ newline))
  else
    h0 <- index header 0 ;;
    mc <- getitem (req_headers s) h0 ;;
    h0' <- index header 0 ;;
    trigger <- index (PyStr.rsplit "-" 1 h0') 1 ;;
    ret (PyStr.lower trigger, mc).

Definition get_mc_deletion_data : M (string * string) :=
  s <- get_state ;;
  let header := present_headers available_deletion_headers (req_headers s) in
  if (1 <? length header)%nat then
    raise (HTTPUnauthorized
             ("Vertigo - The system can only delete 1 microcontroller each time."
              +:+ newline))
  else
    h0 <- index header 0 ;;
    mc <- getitem (req_headers s) h0 ;;
    h0' <- index header 0 ;;
    trigger <- index (PyStr.rsplit "-" 2 h0') 1 ;;
    ret (PyStr.lower trigger, mc).

Definition is_trigger_assignation (s : state) : bool :=
  existsb (contains (req_headers s)) available_assignation_headers.

Definition is_trigger_deletion (s : state) : bool :=
  existsb (contains (req_headers s)) available_deletion_headers.

End VertigoBaseHandler.

(** ** vertigo_docker_gateway.py: constants and objects *)

Definition SBUS_FD_INPUT_OBJECT : Z := 0.
Definition SBUS_FD_OUTPUT_OBJECT : Z := 1.
Definition SBUS_FD_OUTPUT_OBJECT_METADATA : Z := 2.
Definition SBUS_FD_LOGGER : Z := 4.

Definition SBUS_CMD_EXECUTE : Z := 1.

Definition MC_MAIN_HEADER : string := "X-Object-Meta-Handler-Main".
Definition MC_DEP_HEADER : string := "X-Object-Meta-Handler-Library-Dependency".
Definition DEFAULT_MD_STRING : gmap string string :=
  <["onget" := "None"]> (<["onput" := "None"]>
  (<["ondelete" := "None"]> (<["ontimer" := "None"]> ∅))).

(** The entries of [conf] that the gateway reads. *)
Record config := Config {
  execution_server : string;
  conf_mc_timeout : Z;
  conf_mc_container : string;
  conf_mc_dependency : string;
  conf_docker_repo : string;
  pipes_dir : string;
  mc_dir : string;
  log_dir : string;
  mc_pipe : string
}.

(** The parts of the original response that the gateway reads. *)
Record response := Response {
  REQUEST_METHOD : string;      (* [orig_resp.environ["REQUEST_METHOD"]] *)
  app_iter_fp : nat;            (* [orig_resp.app_iter._fp] *)
  app_iter_data_file : string;  (* [orig_resp.app_iter._data_file] *)
  headers : gmap string string  (* [orig_resp.headers] *)
}.

(** The attributes that [VertigoGatewayDocker.__init__] fixes; the request
    object and the attributes assigned later are in the [state]. *)
Record VertigoGatewayDocker := Gateway {
  orig_resp : response;
  conf : config;
  account : string
}.

Definition scope (self : VertigoGatewayDocker) : string :=
  PyStr.slice 5 18 (account self).
Definition current_server (self : VertigoGatewayDocker) : string :=
  execution_server (conf self).
Definition mc_timeout (self : VertigoGatewayDocker) : Z :=
  conf_mc_timeout (conf self).
Definition mc_container (self : VertigoGatewayDocker) : string :=
  conf_mc_container (conf self).
Definition mc_dependency (self : VertigoGatewayDocker) : string :=
  conf_mc_dependency (conf self).
Definition docker_img_prefix : string := "vertigo".
Definition docker_repo (self : VertigoGatewayDocker) : string :=
  conf_docker_repo (conf self).

(** One handler instance with its two file objects. *)
Record MicroController := MC {
  full_md_path : string;
  full_log_path : string;
  micro_controller : string;
  main_class : string;
  dependencies : string;
  metadata_file : option nat;   (* descriptor of the open file object *)
  logger_file : option nat
}.

Record MicroControllerInvocationProtocol := Protocol {
  mc_pipe_path : string;
  mc_logger_path : string;
  timeout : Z;
  req_md : gmap string string;
  file_md : gmap string string;
  p_mc_list : list string;
  mc_md : gmap string (gmap string string);
  p_file_path : string;
  micro_controllers : list MicroController;
  fds : list (option nat);
  fdmd : list (gmap string mdval);
  response_read_fd : option nat;
  response_write_fd : option nat;
  null_read_fd : option nat;
  null_write_fd : option nat;
  task_id : option string
}.

Definition with_micro_controllers (l : list MicroController)
    (p : MicroControllerInvocationProtocol) :=
  Protocol (mc_pipe_path p) (mc_logger_path p) (timeout p) (req_md p)
    (file_md p) (p_mc_list p) (mc_md p) (p_file_path p) l (fds p) (fdmd p)
    (response_read_fd p) (response_write_fd p) (null_read_fd p)
    (null_write_fd p) (task_id p).

(** [self.fds.append(fd); self.fdmd.append(md)] *)
Definition append_descriptor (fd : option nat) (md : gmap string mdval)
    (p : MicroControllerInvocationProtocol) :=
  Protocol (mc_pipe_path p) (mc_logger_path p) (timeout p) (req_md p)
    (file_md p) (p_mc_list p) (mc_md p) (p_file_path p) (micro_controllers p)
    (fds p ++ [fd]) (fdmd p ++ [md])
    (response_read_fd p) (response_write_fd p) (null_read_fd p)
    (null_write_fd p) (task_id p).

Definition with_req_md (h : gmap string string)
    (p : MicroControllerInvocationProtocol) :=
  Protocol (mc_pipe_path p) (mc_logger_path p) (timeout p) h
    (file_md p) (p_mc_list p) (mc_md p) (p_file_path p) (micro_controllers p)
    (fds p) (fdmd p)
    (response_read_fd p) (response_write_fd p) (null_read_fd p)
    (null_write_fd p) (task_id p).

Definition with_pipes (rr rw nr nw : nat)
    (p : MicroControllerInvocationProtocol) :=
  Protocol (mc_pipe_path p) (mc_logger_path p) (timeout p) (req_md p)
    (file_md p) (p_mc_list p) (mc_md p) (p_file_path p) (micro_controllers p)
    (fds p) (fdmd p) (Some rr) (Some rw) (Some nr) (Some nw) (task_id p).

(** Truth value of an attribute that holds [None] or a descriptor. *)
Definition fd_truthy (fd : option nat) : bool :=
  match fd with
  | Some (S _) => true
  | _ => false
  end.

(** Truth value of an attribute that holds [None] or a string. *)
Definition str_truthy (x : option string) : bool :=
  match x with
  | Some (String _ _) => true
  | _ => false
  end.

(** Python values that the guard of [get_microcontrollers] compares. *)
Inductive pyval :=
| PyString (s : string)
| PyList (l : list string).

(** [a == b]: values of different types are never equal. *)
Definition py_eq (a b : pyval) : bool :=
  match a, b with
  | PyString x, PyString y => String.eqb x y
  | PyList x, PyList y => bool_decide (x = y)
  | _, _ => false
  end.

Section Gateway.

Variable E : environment.

(** *** Operating system and store primitives *)

(** A fresh descriptor, now open. *)
Definition alloc_fd : M nat :=
  s <- get_state ;;
  let fd := next_fd s in
  modify (fun s => set_open_fds (union {[fd]}) (set_next_fd (S fd) s)) ;;
  ret fd.

(** [os.pipe()] *)
Definition os_pipe : M (nat * nat) :=
  r <- alloc_fd ;;
  w <- alloc_fd ;;
  emit (EvPipe r w) ;;
  ret (r, w).

(** [os.close(fd)] *)
Definition os_close (fd : option nat) : M unit :=
  match fd with
  | None => raise (TypeError "an integer is required")
  | Some n =>
      s <- get_state ;;
      if bool_decide (n ∈ open_fds s) then
        modify (set_open_fds (fun o => o ∖ {[n]})) ;;
        emit (EvClose n)
      else raise (OSError "Bad file descriptor")
  end.

(** [open(path, mode)]; the file object is represented by its
    descriptor. *)
Definition file_open (path mode : string) : M nat :=
  if can_open E path then
    fd <- alloc_fd ;;
    emit (EvOpen path mode fd) ;;
    ret fd
  else raise (IOError path).

(** [f.close()] on a file object: closing twice is harmless. *)
Definition file_close (fd : nat) : M unit :=
  s <- get_state ;;
  if bool_decide (fd ∈ open_fds s) then
    modify (set_open_fds (fun o => o ∖ {[fd]})) ;;
    emit (EvClose fd)
  else ret tt.

(** [if not os.path.exists(p): os.makedirs(p)] *)
Definition ensure_dir (p : string) : M unit :=
  s <- get_state ;;
  if bool_decide (p ∈ dirs s) then ret tt
  else emit (EvMakedirs p) ;; modify (set_dirs (union {[p]})).

(** [fn = open(path, 'w'); fn.write(body); fn.close()] *)
Definition write_file (path body : string) : M unit :=
  emit (EvWrite path body).

Definition time_sleep (secs : Z) : M unit := emit (EvSleep secs).

Definition swift_request (op acc container obj : string)
    : M swift_response :=
  emit (EvSwift op acc container obj) ;;
  ret (make_swift_request E op acc container obj).

(** [subprocess.call] of a [docker run --name name ... image ...] command.
    The daemon refuses a name that is in use; otherwise it launches the
    image and, when that succeeds, the container exists under the name. *)
Definition docker_conflict_rc : Z := 125.

Definition subprocess_call_docker_run (name image cmd : string) : M Z :=
  emit (EvShell cmd) ;;
  s <- get_state ;;
  if bool_decide (name ∈ sandboxes s) then ret docker_conflict_rc
  else
    let rc := docker_launch_rc E image in
    if (rc =? 0)%Z then modify (set_sandboxes (cons name)) ;; ret 0%Z
    else ret rc.

(** *** class VertigoGatewayDocker *)

Definition start_internal_client_daemon (self : VertigoGatewayDocker)
    : M unit :=
  logger_info "Vertigo - Starting Internal Client ..." ;;
  emit (EvPopen ("ps -aef | grep -i 'internal_client_daemon.py' | grep"
                 +:+ " -v 'grep' | awk '{ print $2 }'")) ;;
  let pid := ps_output E in
  if negb (String.eqb pid "") then
    logger_info ("Vertigo - Internal Client is already" +:+ " started")
  else
    let cmd := "/usr/bin/python /opt/urv/internal_client_daemon.py "
               +:+ "/home/lxc_device/pipes/scopes/bd34c4073b654/internal_client_pipe DEBUG &" in
    logger_info cmd ;;
    emit (EvShell cmd) ;;
    let p := internal_client_rc E in
    emit (EvPrint p) ;;
    (if (p =? 0)%Z then
       logger_info ("Vertigo - Internal Client daemon" +:+ " started")
     else
       logger_info ("Vertigo - Error starting Internal" +:+ " Client daemon")) ;;
    time_sleep 1.

Definition account_id (self : VertigoGatewayDocker) : string :=
  if PyStr.startswith "auth_" (PyStr.lower (account self))
  then PyStr.slice_from (String.length "auth_") (account self)
  else account self.

Definition docker_container_name (self : VertigoGatewayDocker) : string :=
  docker_img_prefix +:+ "_" +:+ account_id self.

Definition docker_image_name (self : VertigoGatewayDocker) : string :=
  docker_repo self +:+ "/" +:+ account_id self.

Definition start_container (self : VertigoGatewayDocker) : M unit :=
  let host_pipe_prefix := pipes_dir (conf self) +:+ "/" +:+ scope self in
  let sandbox_pipe_prefix := "/mnt/channels" in
  let pipe_mount := host_pipe_prefix +:+ ":" +:+ sandbox_pipe_prefix in
  let host_storlet_prefix := mc_dir (conf self) +:+ "/" +:+ scope self in
  let sandbox_storlet_dir_prefix := "/home/swift" in
  let mc_mount :=
    host_storlet_prefix +:+ ":" +:+ sandbox_storlet_dir_prefix in
  let cmd := "sudo docker run --net=none --name "
             +:+ docker_container_name self
             +:+ " -d -v /dev/log:/dev/log -v " +:+ pipe_mount
             +:+ " -v " +:+ mc_mount
             +:+ " -i -t " +:+ docker_image_name self
             +:+ " debug /home/swift/start_daemon.sh" in
  logger_info ("Vertigo - Starting container "
               +:+ docker_container_name self +:+ " ...") ;;
  p <- subprocess_call_docker_run
         (docker_container_name self) (docker_image_name self) cmd ;;
  if (p =? 0)%Z then
    time_sleep 1 ;;
    logger_info ("Vertigo - Container "
                 +:+ docker_container_name self +:+ " started")
  else
    logger_info ("Vertigo - Container "
                 +:+ docker_container_name self +:+ " is already started").

Definition set_microcontroller_list (mcs : string) : M unit :=
  modify (set_mc_list (Some (PyStr.split "," mcs))).

(** [if controller_md:] an absent record and an empty one are false. *)
Definition md_truthy (md : option (gmap string string)) : bool :=
  match md with
  | Some m => negb (bool_decide (m = ∅))
  | None => false
  end.

Definition get_microcontrollers (self : VertigoGatewayDocker) : M bool :=
  let req := REQUEST_METHOD (orig_resp self) in
  let fd := app_iter_fp (orig_resp self) in
  let controller_md := read_metadata E fd in
  if md_truthy controller_md then
    v <- getitem (default ∅ controller_md) ("on" +:+ PyStr.lower req) ;;
    let l := PyStr.split "," v in
    modify (set_mc_list (Some l)) ;;
    if py_eq (PyList l) (PyString "None") then ret false
    else ret true
  else ret false.

Definition status_ok (resp : swift_response) : bool :=
  (status_int resp <? 300)%Z && (200 <=? status_int resp)%Z.

Definition verify_access (self : VertigoGatewayDocker)
    (container mc_name : string) : M bool :=
  resp <- swift_request "HEAD" (account self) container mc_name ;;
  if status_ok resp then
    (if String.eqb container (mc_container self) then
       modify (set_mc_metadata (insert mc_name (resp_headers resp)))
     else ret tt) ;;
    ret true
  else ret false.

Definition update_mc_cache (self : VertigoGatewayDocker)
    (container mc_name obj : string) : M unit :=
  resp <- swift_request "GET" (account self) container obj ;;
  s <- get_state ;;
  md <- getitem (mc_metadata s) mc_name ;;
  main <- getitem md MC_MAIN_HEADER ;;
  let docker_mc_path :=
    mc_dir (conf self) +:+ "/" +:+ scope self +:+ "/" +:+ main in
  let docker_target_path := PyStr.path_join docker_mc_path obj in
  ensure_dir docker_mc_path ;;
  write_file docker_target_path (resp_body resp).

(** [for x in l: self = body x self], for loops that update a local
    object. *)
Fixpoint fold_m {A S} (l : list A) (body : A → S → M S) (acc : S) : M S :=
  match l with
  | [] => ret acc
  | x :: r => acc' <- body x acc ;; fold_m r body acc'
  end.

(** [for x in l: body x], where [body] mutates the element [x]. *)
Fixpoint map_m {A B} (body : A → M B) (l : list A) : M (list B) :=
  match l with
  | [] => ret []
  | x :: r => y <- body x ;; ys <- map_m body r ;; ret (y :: ys)
  end.

(** *** class MicroController *)

(** [name.rsplit('.', 1)[0]] *)
Definition stem (name : string) : string :=
  default "" (head (PyStr.rsplit "." 1 name)).

Definition MicroController_init
    (file_path logger_path name main deps : string) : M MicroController :=
  let md_path := PyStr.path_join file_path (stem name +:+ ".md") in
  let log_path :=
    PyStr.path_join logger_path (main +:+ "/" +:+ stem name +:+ ".log") in
  ensure_dir (PyStr.path_join logger_path main) ;;
  ret (MC md_path log_path name main deps None None).

Definition mc_open (mc : MicroController) : M MicroController :=
  mdf <- file_open (full_md_path mc) "a+" ;;
  logf <- file_open (full_log_path mc) "a" ;;
  ret (MC (full_md_path mc) (full_log_path mc) (micro_controller mc)
          (main_class mc) (dependencies mc) (Some mdf) (Some logf)).

(** [self.metadata_file.fileno()] *)
Definition get_mdfd (mc : MicroController) : M nat :=
  match metadata_file mc with
  | Some fd => ret fd
  | None => raise (AttributeError "metadata_file")
  end.

Definition get_logfd (mc : MicroController) : M nat :=
  match logger_file mc with
  | Some fd => ret fd
  | None => raise (AttributeError "logger_file")
  end.

Definition get_name (mc : MicroController) : string := micro_controller mc.
Definition get_dependencies (mc : MicroController) : string :=
  dependencies mc.
Definition get_main (mc : MicroController) : string := main_class mc.

Definition mc_close (mc : MicroController) : M unit :=
  mdf <- get_mdfd mc ;;
  file_close mdf ;;
  logf <- get_logfd mc ;;
  file_close logf.

(** *** class MicroControllerInvocationProtocol *)

Definition MicroControllerInvocationProtocol_init
    (file_path mc_pipe_path mc_logger_path : string)
    (req_haders file_headers : gmap string string)
    (mc_list : list string) (mc_metadata : gmap string (gmap string string))
    (timeout : Z) : MicroControllerInvocationProtocol :=
  Protocol mc_pipe_path mc_logger_path timeout req_haders file_headers
           mc_list mc_metadata file_path [] [] [] None None None None None.

Definition output_md : gmap string mdval :=
  <["type" := MdInt SBUS_FD_OUTPUT_OBJECT]> ∅.

Definition logger_md (mc : MicroController) : gmap string mdval :=
  <["handler" := MdStr (get_name mc)]>
    (<["type" := MdInt SBUS_FD_LOGGER]> ∅).

Definition metadata_md (mc : MicroController) : gmap string mdval :=
  <["dependencies" := MdStr (get_dependencies mc)]>
    (<["main" := MdStr (get_main mc)]>
       (<["handler" := MdStr (get_name mc)]>
          (<["type" := MdInt SBUS_FD_OUTPUT_OBJECT_METADATA]> ∅))).

Definition input_md (req_md file_md : gmap string string)
    : gmap string mdval :=
  <["json_md" := MdJson req_md file_md]>
    (<["type" := MdInt SBUS_FD_INPUT_OBJECT]> ∅).

Definition _add_output_stream (self : MicroControllerInvocationProtocol)
    : MicroControllerInvocationProtocol :=
  append_descriptor (response_write_fd self) output_md self.

Definition _add_logger_stream (self : MicroControllerInvocationProtocol)
    : M MicroControllerInvocationProtocol :=
  fold_m (micro_controllers self)
    (fun mc self =>
       fd <- get_logfd mc ;;
       ret (append_descriptor (Some fd) (logger_md mc) self))
    self.

Definition _add_metadata_stream (self : MicroControllerInvocationProtocol)
    : M MicroControllerInvocationProtocol :=
  fold_m (micro_controllers self)
    (fun mc self =>
       fd <- get_mdfd mc ;;
       ret (append_descriptor (Some fd) (metadata_md mc) self))
    self.

(** [if k in d: del d[k]] *)
Definition del_if_present (k : string) (d : gmap string string)
    : gmap string string :=
  if contains d k then delete k d else d.

Definition _add_file_req_md (self : MicroControllerInvocationProtocol)
    : MicroControllerInvocationProtocol :=
  let fd := null_write_fd self in
  let self :=
    with_req_md
      (del_if_present "Cookie"
         (del_if_present "X-Service-Catalog" (req_md self))) self in
  append_descriptor fd (input_md (req_md self) (file_md self)) self.

Definition _prepare_invocation_descriptors
    (self : MicroControllerInvocationProtocol)
    : M MicroControllerInvocationProtocol :=
  response_pipe <- os_pipe ;;
  null_pipe <- os_pipe ;;
  let self :=
    with_pipes (fst response_pipe) (snd response_pipe)
               (fst null_pipe) (snd null_pipe) self in
  let self := _add_file_req_md self in
  let self := _add_output_stream self in
  self <- _add_logger_stream self ;;
  _add_metadata_stream self.

Definition _close_remote_side_descriptors
    (self : MicroControllerInvocationProtocol) : M unit :=
  if fd_truthy (response_write_fd self)
  then os_close (response_write_fd self)
  else ret tt.

Definition _invoke (self : MicroControllerInvocationProtocol) : M unit :=
  emit (EvSend (mc_pipe_path self) (fds self) (fdmd self)
               SBUS_CMD_EXECUTE) ;;
  let rc := sbus_send E (mc_pipe_path self) (fds self) in
  if (rc <? 0)%Z then raise (PyException "Failed to send execute command")
  else ret tt.

(** The class defines no method [_cancel]: looking it up fails. *)
Definition _cancel (self : MicroControllerInvocationProtocol) : M unit :=
  raise (AttributeError "_cancel").

Definition _wait_for_read_with_timeout
    (self : MicroControllerInvocationProtocol) (fd : option nat) : M unit :=
  match fd with
  | None => raise (TypeError "argument must be an int, or have a fileno() method.")
  | Some n =>
      emit (EvSelect n (timeout self)) ;;
      if select_ready E n (timeout self) then ret tt
      else
        (if str_truthy (task_id self) then _cancel self else ret tt) ;;
        raise (Timeout "Timeout while waiting for Micro-controller output")
  end.

(** [os.read(fd, 1024)] *)
Definition os_read_1024 (fd : option nat) : M string :=
  match fd with
  | None => raise (TypeError "an integer is required")
  | Some n => emit (EvRead n 1024) ;; ret (os_read E n)
  end.

(** [json.loads(text)]; the parsed value is represented by its text. *)
Definition json_loads (text : string) : M string :=
  if json_valid E text then ret text
  else raise (ValueError "No JSON object could be decoded").

Definition _read_response (self : MicroControllerInvocationProtocol)
    : M (option string) :=
  _wait_for_read_with_timeout self (response_read_fd self) ;;
  flat_json <- os_read_1024 (response_read_fd self) ;;
  if String.eqb flat_json "{}" then ret None
  else out_data <- json_loads flat_json ;; ret (Some out_data).

Definition communicate (self : MicroControllerInvocationProtocol)
    : M (option string) :=
  self <- fold_m (p_mc_list self)
            (fun mc_name self =>
               md <- getitem (mc_md self) mc_name ;;
               main <- getitem md MC_MAIN_HEADER ;;
               md' <- getitem (mc_md self) mc_name ;;
               deps <- getitem md' MC_DEP_HEADER ;;
               mc <- MicroController_init (p_file_path self)
                       (mc_logger_path self) mc_name main deps ;;
               ret (with_micro_controllers
                      (micro_controllers self ++ [mc]) self))
            self ;;
  opened <- map_m mc_open (micro_controllers self) ;;
  let self := with_micro_controllers opened self in
  self <- _prepare_invocation_descriptors self ;;
  try_finally
    (_invoke self)
    (_close_remote_side_descriptors self ;;
     for_each (micro_controllers self) mc_close) ;;
  out_data <- _read_response self ;;
  os_close (response_read_fd self) ;;
  ret out_data.

(** *** VertigoGatewayDocker.execute_microcontrollers *)

(** The body of the inner loop over the dependencies of [mc_name]. *)
Definition verify_dependency (self : VertigoGatewayDocker)
    (mc_name dep : string) : M unit :=
  dep_verified <- verify_access self (mc_dependency self) dep ;;
  if dep_verified then
    update_mc_cache self (mc_dependency self) mc_name dep
  else
    logger_error ("Vertigo - Dependency " +:+ dep
                  +:+ " not found in Swift") ;;
    raise (NameError ("MicroController - Dependency " +:+ dep
                      +:+ " not found in Swift")).

(** The body of the loop over [self.mc_list]. *)
Definition verify_microcontroller (self : VertigoGatewayDocker)
    (mc_name : string) : M unit :=
  mc_verified <- verify_access self (mc_container self) mc_name ;;
  if mc_verified then
    update_mc_cache self (mc_container self) mc_name mc_name ;;
    s <- get_state ;;
    md <- getitem (mc_metadata s) mc_name ;;
    deps <- getitem md MC_DEP_HEADER ;;
    let dep_list := PyStr.split "," deps in
    for_each dep_list (verify_dependency self mc_name)
  else
    raise (NameError ("MicroController - Micro-controller " +:+ mc_name
                      +:+ " not found in Swift")).

(** [for mc_name in self.mc_list]: iterating over [None] fails. *)
Definition iter_mc_list : M (list string) :=
  s <- get_state ;;
  match mc_list s with
  | Some l => ret l
  | None => raise (TypeError "'NoneType' object is not iterable")
  end.

(** Everything up to the end of the verification loop. *)
Definition verify_and_update_cache (self : VertigoGatewayDocker) : M unit :=
  start_internal_client_daemon self ;;
  start_container self ;;
  modify (set_file_path
            (head (PyStr.rsplit "/" 1 (app_iter_data_file (orig_resp self))))) ;;
  mcs <- iter_mc_list ;;
  for_each mcs (verify_microcontroller self).

(** From the assignment of the header to the construction of the
    protocol object. *)
Definition build_protocol (self : VertigoGatewayDocker)
    : M MicroControllerInvocationProtocol :=
  let mc_logger_path := log_dir (conf self) +:+ "/" +:+ scope self +:+ "/" in
  let mc_pipe_path := pipes_dir (conf self) +:+ "/" +:+ scope self +:+ "/"
                      +:+ mc_pipe (conf self) in
  s <- get_state ;;
  logger_info ("Vertigo - Object path: " +:+ default "" (file_path s)) ;;
  modify (set_req_headers (insert "X-Current-Server" (current_server self))) ;;
  s <- get_state ;;
  mcs <- iter_mc_list ;;
  ret (MicroControllerInvocationProtocol_init
         (default "" (file_path s)) mc_pipe_path mc_logger_path
         (req_headers s) (headers (orig_resp self))
         mcs (mc_metadata s) (mc_timeout self)).

Definition execute_microcontrollers (self : VertigoGatewayDocker)
    : M (option string) :=
  verify_and_update_cache self ;;
  protocol <- build_protocol self ;;
  communicate protocol.

End Gateway.

(** * Projections of the trace *)

(** The descriptor sets sent over the control-plane channel, most recent
    first. *)
Definition sent_sets (tr : list event)
    : list (list (option nat) * list (gmap string mdval)) :=
  flat_map (fun e => match e with
                     | EvSend _ f m _ => [(f, m)]
                     | _ => []
                     end) tr.

(** How many times [fd] was closed. *)
Definition closes (fd : nat) (tr : list event) : nat :=
  length (List.filter (fun e => match e with
                                | EvClose n => Nat.eqb n fd
                                | _ => false
                                end) tr).

(** The waits on a response ([select]) and the reads of it. *)
Definition awaits (tr : list event) : list event :=
  List.filter (fun e => match e with
                        | EvSelect _ _ | EvRead _ _ => true
                        | _ => false
                        end) tr.

(** The descriptors that were opened or created. *)
Definition opened (tr : list event) : list nat :=
  flat_map (fun e => match e with
                     | EvOpen _ _ fd => [fd]
                     | EvPipe r w => [r; w]
                     | _ => []
                     end) tr.

(** The requests made to the object store. *)
Definition store_requests (tr : list event) : list event :=
  List.filter (fun e => match e with
                        | EvSwift _ _ _ _ => true
                        | _ => false
                        end) tr.

(** * Frame reasoning: what a computation leaves alone *)

Section Keeps.

Context {X : Type} (f : state → X).

(** [m] never changes the observation [f] of the state, whether it
    returns or raises. *)
Definition keeps {A} (m : M A) : Prop := ∀ s, f (snd (m s)) = f s.

Lemma keeps_ret {A} (a : A) : keeps (ret a).
Proof. intros s. reflexivity. Qed.

Lemma keeps_raise {A} (e : exn) : keeps (@raise A e).
Proof. intros s. reflexivity. Qed.

Lemma keeps_get_state : keeps get_state.
Proof. intros s. reflexivity. Qed.

Lemma keeps_bind {A B} (m : M A) (k : A → M B) :
  keeps m → (∀ a, keeps (k a)) → keeps (bind m k).
Proof.
  intros Hm Hk s. unfold bind. specialize (Hm s).
  destruct (m s) as [[a|e] s1]; simpl in *.
  - rewrite Hk. exact Hm.
  - exact Hm.
Qed.

Lemma keeps_modify (g : state → state) :
  (∀ s, f (g s) = f s) → keeps (modify g).
Proof. intros Hg s. apply Hg. Qed.

Lemma keeps_try_finally {A} (body : M A) (fin : M unit) :
  keeps body → keeps fin → keeps (try_finally body fin).
Proof.
  intros Hb Hf s. unfold try_finally. specialize (Hb s).
  destruct (body s) as [r s1]; simpl in *.
  specialize (Hf s1). destruct (fin s1) as [[u|e] s2]; simpl in *; congruence.
Qed.

Lemma keeps_for_each {A} (l : list A) (body : A → M unit) :
  (∀ a, keeps (body a)) → keeps (for_each l body).
Proof.
  intros Hb. induction l as [|a l IH]; simpl.
  - apply keeps_ret.
  - apply keeps_bind; auto.
Qed.

Lemma keeps_fold_m {A S} (l : list A) (body : A → S → M S) (acc : S) :
  (∀ a x, keeps (body a x)) → keeps (fold_m l body acc).
Proof.
  intros Hb. revert acc. induction l as [|a l IH]; intros acc; simpl.
  - apply keeps_ret.
  - apply keeps_bind; auto.
Qed.

Lemma keeps_map_m {A B} (body : A → M B) (l : list A) :
  (∀ a, keeps (body a)) → keeps (map_m body l).
Proof.
  intros Hb. induction l as [|a l IH]; simpl.
  - apply keeps_ret.
  - apply keeps_bind; [auto|]. intros b.
    apply keeps_bind; [auto|]. intros bs. apply keeps_ret.
Qed.

Lemma keeps_getitem {V} (d : gmap string V) (k : string) :
  keeps (getitem d k).
Proof. unfold getitem. destruct (d !! k); [apply keeps_ret|apply keeps_raise]. Qed.

Lemma keeps_index {A} (l : list A) (i : nat) : keeps (index l i).
Proof. unfold index. destruct (l !! i); [apply keeps_ret|apply keeps_raise]. Qed.


End Keeps.

(** Splits a computation along its structure; what is left are the
    [modify] steps and the calls of other methods. *)
Ltac keeps_step :=
  match goal with
  | |- keeps _ (bind _ _) => apply keeps_bind; [|intros ?]
  | |- keeps _ (ret _) => apply keeps_ret
  | |- keeps _ (raise _) => apply keeps_raise
  | |- keeps _ get_state => apply keeps_get_state
  | |- keeps _ (getitem _ _) => apply keeps_getitem
  | |- keeps _ (index _ _) => apply keeps_index
  | |- keeps _ (for_each _ _) => apply keeps_for_each; intros ?
  | |- keeps _ (fold_m _ _ _) => apply keeps_fold_m; intros ? ?
  | |- keeps _ (map_m _ _) => apply keeps_map_m; intros ?
  | |- keeps _ (try_finally _ _) => apply keeps_try_finally
  | |- keeps _ (modify _) => apply keeps_modify; intros ?; reflexivity
  | |- keeps _ (emit _) => apply keeps_modify; intros ?; reflexivity
  | |- keeps _ (logger_info _) => apply keeps_modify; intros ?; reflexivity
  | |- keeps _ (logger_error _) => apply keeps_modify; intros ?; reflexivity
  | |- keeps _ (if ?b then _ else _) => destruct b
  | |- keeps _ (match ?o with Some _ => _ | None => _ end) => destruct o
  end.

Ltac keeps_auto := repeat (keeps_step; auto).

Ltac unfold_methods :=
  unfold execute_microcontrollers, build_protocol, verify_and_update_cache,
    iter_mc_list, verify_microcontroller, verify_dependency,
    update_mc_cache, verify_access, get_microcontrollers,
    set_microcontroller_list, start_container, start_internal_client_daemon,
    communicate, _read_response, json_loads, os_read_1024,
    _wait_for_read_with_timeout, _cancel, _invoke,
    _close_remote_side_descriptors, _prepare_invocation_descriptors,
    _add_metadata_stream, _add_logger_stream, mc_close, get_logfd, get_mdfd,
    mc_open, MicroController_init, subprocess_call_docker_run, swift_request,
    time_sleep, write_file, ensure_dir, file_close, file_open, os_close,
    os_pipe, alloc_fd.

(** Proves [keeps f m] for a method [m] that has no step changing [f]. *)
Ltac keeps_method := intros; unfold_methods; keeps_auto.

Section Frames.

Variable E : environment.

(** Nothing before the protocol object is built sends a descriptor set,
    opens a descriptor, waits for a response or touches the request. *)
Lemma verify_keeps_sent self :
  keeps (fun s => sent_sets (trace s)) (verify_and_update_cache E self).
Proof. keeps_method. Qed.

Lemma verify_keeps_opened self :
  keeps (fun s => opened (trace s)) (verify_and_update_cache E self).
Proof. keeps_method. Qed.

Lemma verify_keeps_open_fds self :
  keeps open_fds (verify_and_update_cache E self).
Proof. keeps_method. Qed.


Lemma verify_keeps_req_headers self :
  keeps req_headers (verify_and_update_cache E self).
Proof. keeps_method. Qed.

Lemma verify_keeps_mc_list self :
  keeps mc_list (verify_and_update_cache E self).
Proof. keeps_method. Qed.


Lemma communicate_keeps_sandboxes p :
  keeps sandboxes (communicate E p).
Proof. keeps_method. Qed.

Lemma communicate_keeps_store p :
  keeps (fun s => store_requests (trace s)) (communicate E p).
Proof. keeps_method. Qed.

Lemma update_mc_cache_keeps_mc_metadata self c n o :
  keeps mc_metadata (update_mc_cache E self c n o).
Proof. keeps_method. Qed.

End Frames.

(** * Trigger headers (base.py) *)

Section TriggerHeaders.

Import VertigoBaseHandler.

Lemma one_present (p : string → bool) (l : list string) x :
  x ∈ l → p x = true → (0 < length (List.filter p l))%nat.
Proof.
  induction l as [|a l IH]; intros Hx Hp.
  - inversion Hx.
  - apply elem_of_cons in Hx as [->|Hx]; simpl.
    + rewrite Hp. simpl. lia.
    + destruct (p a); simpl; [lia|auto].
Qed.

Lemma two_present (p : string → bool) (l : list string) x y :
  x ∈ l → y ∈ l → x ≠ y → p x = true → p y = true →
  (1 < length (List.filter p l))%nat.
Proof.
  induction l as [|a l IH]; intros Hx Hy Hne Hpx Hpy.
  - inversion Hx.
  - apply elem_of_cons in Hx as [Hx|Hx];
      apply elem_of_cons in Hy as [Hy|Hy]; simpl.
    + congruence.
    + subst a. rewrite Hpx. simpl.
      pose proof (one_present p l y Hy Hpy). lia.
    + subst a. rewrite Hpy. simpl.
      pose proof (one_present p l x Hx Hpx). lia.
    + specialize (IH Hx Hy Hne Hpx Hpy).
      destruct (p a); simpl; lia.
Qed.

Lemma present_headers_two available hs h1 h2 :
  h1 ∈ available → h2 ∈ available → h1 ≠ h2 →
  is_Some (hs !! h1) → is_Some (hs !! h2) →
  (1 <? length (present_headers available hs))%nat = true.
Proof.
  intros H1 H2 Hne S1 S2. apply Nat.ltb_lt.
  apply (two_present _ _ h1 h2); auto;
    unfold contains; apply bool_decide_eq_true; assumption.
Qed.

(** C4.  A request that carries two different recognised assignment
    headers is rejected by [get_mc_assignation_data] with
    [HTTPUnauthorized], and likewise two different recognised deletion
    headers by [get_mc_deletion_data]; the state is the one the call
    started in, so nothing was sent to the store, the cache or the
    sandbox. *)
Theorem several_trigger_headers_unauthorized :
  (∀ s h1 h2,
      h1 ∈ available_assignation_headers →
      h2 ∈ available_assignation_headers →
      h1 ≠ h2 →
      is_Some (req_headers s !! h1) → is_Some (req_headers s !! h2) →
      ∃ body, get_mc_assignation_data s = (Raise (HTTPUnauthorized body), s))
  ∧
  (∀ s h1 h2,
      h1 ∈ available_deletion_headers →
      h2 ∈ available_deletion_headers →
      h1 ≠ h2 →
      is_Some (req_headers s !! h1) → is_Some (req_headers s !! h2) →
      ∃ body, get_mc_deletion_data s = (Raise (HTTPUnauthorized body), s)).
Proof.
  split; intros s h1 h2 H1 H2 Hne S1 S2; eexists.
  - unfold get_mc_assignation_data, bind, get_state.
    rewrite (present_headers_two _ _ h1 h2) by assumption.
    reflexivity.
  - unfold get_mc_deletion_data, bind, get_state.
    rewrite (present_headers_two _ _ h1 h2) by assumption.
    reflexivity.
Qed.

(** A request that sets both the on-get and the on-put trigger, and one
    that deletes both. *)
Definition two_assignments : state :=
  State [] 3 ∅ ∅ []
    (<["X-Vertigo-Onget" := "a.mc"]> (<["X-Vertigo-Onput" := "b.mc"]> ∅))
    None None ∅.

Definition two_deletions : state :=
  State [] 3 ∅ ∅ []
    (<["X-Vertigo-Onget-Delete" := "a.mc"]> (<["X-Vertigo-Delete" := "x"]> ∅))
    None None ∅.

Lemma several_trigger_headers_unauthorized_witness :
  (∃ body, get_mc_assignation_data two_assignments
           = (Raise (HTTPUnauthorized body), two_assignments))
  ∧ (∃ body, get_mc_deletion_data two_deletions
             = (Raise (HTTPUnauthorized body), two_deletions)).
Proof.
  split.
  - apply (proj1 several_trigger_headers_unauthorized two_assignments
             "X-Vertigo-Onget" "X-Vertigo-Onput").
    + vm_compute. set_solver.
    + set_solver.
    + discriminate.
    + vm_compute. eauto.
    + vm_compute. eauto.
  - apply (proj2 several_trigger_headers_unauthorized two_deletions
             "X-Vertigo-Onget-Delete" "X-Vertigo-Delete").
    + set_solver.
    + set_solver.
    + discriminate.
    + vm_compute. eauto.
    + vm_compute. eauto.
Defined.

End TriggerHeaders.

(** * Running a computation step by step *)

Ltac unfold_monad :=
  unfold bind, ret, raise, get_state, modify, emit, logger_info,
    logger_error, getitem, index in *.

Lemma bind_ret_run {A B} (m : M A) (k : A → M B) a s s' :
  m s = (Ret a, s') → bind m k s = k a s'.
Proof. intros H. unfold bind. rewrite H. reflexivity. Qed.

Lemma bind_raise_run {A B} (m : M A) (k : A → M B) e s s' :
  m s = (Raise e, s') → bind m k s = (Raise e, s').
Proof. intros H. unfold bind. rewrite H. reflexivity. Qed.

(** * The trigger record of an object: [get_microcontrollers] *)

Section GetMicrocontrollers.

Variable E : environment.

(** The guard [self.mc_list == 'None'] compares a list with a string. *)
Lemma unset_guard_never_holds (l : list string) :
  py_eq (PyList l) (PyString "None") = false.
Proof. reflexivity. Qed.


End GetMicrocontrollers.

(** * A concrete deployment

    One account, a store that holds the handler [a.mc] (entry point [com.A],
    dependency [lib.jar]), the dependency itself and a handler [bare.mc]
    that was uploaded without the handler headers.  The oracles that vary
    between scenarios are parameters. *)

Module Sample.

Definition handler_headers (main deps : string) : gmap string string :=
  <[MC_MAIN_HEADER := main]> (<[MC_DEP_HEADER := deps]> ∅).

Definition store (op acc container obj : string) : swift_response :=
  if String.eqb obj "a.mc"
  then SwiftResponse 200 (handler_headers "com.A" "lib.jar") "handler"
  else if String.eqb obj "lib.jar" then SwiftResponse 200 ∅ "library"
  else if String.eqb obj "bare.mc" then SwiftResponse 200 ∅ "bare"
  else SwiftResponse 404 ∅ "".

(** [launch]: exit status of [docker run] on a free name; [rc]: result of
    [SBus.send]; [ready]: whether the response arrives in time. *)
Definition env (launch rc : Z) (ready : bool) : environment :=
  Environment store (fun _ => Some DEFAULT_MD_STRING) "" 0%Z
    (fun _ => launch) (fun _ => true) (fun _ _ => rc) (fun _ _ => ready)
    (fun _ => "{}") (fun _ => true).

Definition cfg : config :=
  Config "object" 20 "microcontroller" "dependency" "repo"
         "/pipes" "/mc" "/log" "mc_pipe".

Definition gw : VertigoGatewayDocker :=
  Gateway (Response "GET" 7 "/srv/node/sdb/objects/1/abc/hash/1.data"
                    (<["Content-Length" := "3"]> ∅))
          cfg "AUTH_bd34c4073b65426894545b36f0d8dcce".

(** A GET request with a session cookie; [chain] is [self.mc_list]. *)
Definition start (chain : option (list string)) : state :=
  State [] 3 ∅ ∅ []
        (<["Cookie" := "session"]> (<["X-Auth-Token" := "t"]> ∅))
        None chain ∅.

End Sample.


(** * The sandbox: [start_container] *)

Section Sandbox.

Variable E : environment.

(** What the docker daemon holds after one [start_container]. *)
Definition sandboxes_after_start (self : VertigoGatewayDocker)
    (l : list string) : list string :=
  if bool_decide (docker_container_name self ∈ l) then l
  else if (docker_launch_rc E (docker_image_name self) =? 0)%Z
       then docker_container_name self :: l
       else l.

Lemma start_container_run self s :
  fst (start_container E self s) = Ret tt
  ∧ sandboxes (snd (start_container E self s))
    = sandboxes_after_start self (sandboxes s).
Proof.
  unfold start_container, subprocess_call_docker_run, sandboxes_after_start,
    time_sleep.
  unfold_monad. destruct s as [tr nf ofd ds sb rh fp ml mm]. simpl.
  destruct (bool_decide (docker_container_name self ∈ sb)); simpl.
  - split; reflexivity.
  - destruct (docker_launch_rc E (docker_image_name self) =? 0)%Z eqn:Hrc;
      simpl.
    + split; reflexivity.
    + rewrite Hrc. split; reflexivity.
Qed.

Lemma count_occ_not_elem (n : string) (l : list string) :
  n ∉ l → count_occ string_dec l n = 0%nat.
Proof.
  intros Hn. apply count_occ_not_In. rewrite <- list_elem_of_In. exact Hn.
Qed.

Lemma count_occ_elem (n : string) (l : list string) :
  n ∈ l → (0 < count_occ string_dec l n)%nat.
Proof.
  intros Hn. apply count_occ_In. rewrite <- list_elem_of_In. exact Hn.
Qed.

(** C7, as the code has it.  [start_container] never raises: a launch that
    fails, whatever the cause, takes the branch that logs "is already
    started" and returns.  Two calls in a row both return normally, and when
    the sandbox exists already or its launch succeeds, and the name was not
    in use more than once, exactly one sandbox of that name exists
    afterwards. *)
Theorem start_container_swallows_every_failure
    (self : VertigoGatewayDocker) (s : state) :
  let s1 := snd (start_container E self s) in
  let s2 := snd (start_container E self s1) in
  let name := docker_container_name self in
  fst (start_container E self s) = Ret tt
  ∧ fst (start_container E self s1) = Ret tt
  ∧ sandboxes s2 = sandboxes s1
  ∧ ((count_occ string_dec (sandboxes s) name ≤ 1)%nat →
     name ∈ sandboxes s
     ∨ docker_launch_rc E (docker_image_name self) = 0%Z →
     count_occ string_dec (sandboxes s2) name = 1%nat).
Proof.
  intros s1 s2 name.
  destruct (start_container_run self s) as [R1 S1].
  destruct (start_container_run self s1) as [R2 S2].
  fold s1 in S1. fold s2 in S2.
  assert (Hidem : sandboxes s2 = sandboxes s1).
  { rewrite S2, S1. unfold sandboxes_after_start. fold name.
    destruct (bool_decide (name ∈ sandboxes s)) eqn:Hin.
    - rewrite Hin. reflexivity.
    - destruct (docker_launch_rc E (docker_image_name self) =? 0)%Z;
        [|rewrite Hin; reflexivity].
      rewrite bool_decide_eq_true_2 by (apply elem_of_cons; left; reflexivity).
      reflexivity. }
  repeat split; try assumption.
  intros Hle Hok. rewrite Hidem, S1. unfold sandboxes_after_start. fold name.
  destruct (bool_decide (name ∈ sandboxes s)) eqn:Hin.
  - apply bool_decide_eq_true in Hin.
    pose proof (count_occ_elem _ _ Hin). lia.
  - apply bool_decide_eq_false in Hin.
    destruct Hok as [Hok|Hok]; [contradiction|].
    rewrite Hok, Z.eqb_refl.
    rewrite count_occ_cons_eq by reflexivity.
    rewrite (count_occ_not_elem _ _ Hin). reflexivity.
Qed.

End Sandbox.

(** Launching the image of the sample account succeeds on a fresh host. *)
Lemma start_container_swallows_every_failure_witness :
  fst (start_container (Sample.env 0 0 true) Sample.gw (Sample.start None))
  = Ret tt
  ∧ count_occ string_dec
      (sandboxes
         (snd (start_container (Sample.env 0 0 true) Sample.gw
                 (snd (start_container (Sample.env 0 0 true) Sample.gw
                         (Sample.start None))))))
      (docker_container_name Sample.gw)
    = 1%nat.
Proof.
  destruct (start_container_swallows_every_failure
              (Sample.env 0 0 true) Sample.gw (Sample.start None))
    as (R1 & _ & _ & Hone).
  split; [exact R1|].
  apply Hone.
  - vm_compute. lia.
  - right. reflexivity.
Defined.

(** The state after one and after two calls of [start_container] on a host
    where launching the image fails with status 1. *)
Definition failed_launch_once : state :=
  snd (start_container (Sample.env 1 0 true) Sample.gw (Sample.start None)).

Definition failed_launch_twice : state :=
  snd (start_container (Sample.env 1 0 true) Sample.gw failed_launch_once).

(** C7 as the specification states it fails: the launch of the image fails
    with status 1 on a host where no container of that name exists (not a
    name conflict), yet [start_container] returns normally, logs that the
    container is already started, and no sandbox is running after two
    calls. *)
Lemma start_container_other_failure_not_fatal :
  (docker_container_name Sample.gw ∉ sandboxes (Sample.start None))
  ∧ fst (start_container (Sample.env 1 0 true) Sample.gw (Sample.start None))
    = Ret tt
  ∧ head (trace failed_launch_once)
    = Some (EvLog "info"
              "Vertigo - Container vertigo_bd34c4073b65426894545b36f0d8dcce is already started")
  ∧ fst (start_container (Sample.env 1 0 true) Sample.gw failed_launch_once)
    = Ret tt
  ∧ sandboxes failed_launch_twice = [].
Proof.
  split.
  - vm_compute. apply not_elem_of_nil.
  - vm_compute. repeat split; reflexivity.
Qed.

(** * The invocation protocol, phase by phase *)

Section Phases.

Variable E : environment.

(** The body of the loop that builds one [MicroController] per handler
    name, and the loop. *)
Definition create_micro_controller (mc_name : string)
    (self : MicroControllerInvocationProtocol)
    : M MicroControllerInvocationProtocol :=
  md <- getitem (mc_md self) mc_name ;;
  main <- getitem md MC_MAIN_HEADER ;;
  md' <- getitem (mc_md self) mc_name ;;
  deps <- getitem md' MC_DEP_HEADER ;;
  mc <- MicroController_init (p_file_path self)
          (mc_logger_path self) mc_name main deps ;;
  ret (with_micro_controllers (micro_controllers self ++ [mc]) self).

Definition create_micro_controllers
    (self : MicroControllerInvocationProtocol)
    : M MicroControllerInvocationProtocol :=
  fold_m (p_mc_list self) create_micro_controller self.

(** The loop that opens the files of every handler. *)
Definition open_micro_controllers
    (self : MicroControllerInvocationProtocol)
    : M MicroControllerInvocationProtocol :=
  opened <- map_m (mc_open E) (micro_controllers self) ;;
  ret (with_micro_controllers opened self).

(** The [finally] block. *)
Definition release (self : MicroControllerInvocationProtocol) : M unit :=
  _close_remote_side_descriptors self ;;
  for_each (micro_controllers self) (mc_close).

(** What follows the [try] statement. *)
Definition collect (self : MicroControllerInvocationProtocol)
    : M (option string) :=
  out_data <- _read_response E self ;;
  os_close (response_read_fd self) ;;
  ret out_data.

Lemma communicate_phases self s :
  communicate E self s
  = (self1 <- create_micro_controllers self ;;
     self2 <- open_micro_controllers self1 ;;
     self3 <- _prepare_invocation_descriptors self2 ;;
     try_finally (_invoke E self3) (release self3) ;;
     collect self3) s.
Proof.
  unfold communicate, create_micro_controllers, open_micro_controllers, bind.
  destruct (fold_m _ _ self s) as [[self1|e] s1]; [|reflexivity].
  destruct (map_m (mc_open E) (micro_controllers self1) s1) as [[o|e] s2];
    reflexivity.
Qed.

(** The handler headers that the protocol reads for [mc]. *)
Definition declared (md : gmap string (gmap string string))
    (mc : MicroController) : Prop :=
  ∃ h, md !! micro_controller mc = Some h
       ∧ h !! MC_MAIN_HEADER = Some (main_class mc)
       ∧ h !! MC_DEP_HEADER = Some (dependencies mc).

Definition mc_is_open (mc : MicroController) : Prop :=
  is_Some (metadata_file mc) ∧ is_Some (logger_file mc).

(** The same handler, whatever the state of its files. *)
Definition same_handler (mc mc' : MicroController) : Prop :=
  micro_controller mc' = micro_controller mc
  ∧ main_class mc' = main_class mc
  ∧ dependencies mc' = dependencies mc.

(** The object that [MicroController.__init__] builds. *)
Definition new_micro_controller (file_path logger_path name main deps : string)
    : MicroController :=
  MC (PyStr.path_join file_path (stem name +:+ ".md"))
     (PyStr.path_join logger_path (main +:+ "/" +:+ stem name +:+ ".log"))
     name main deps None None.

Lemma MicroController_init_run fp lp n main deps s :
  fst (MicroController_init fp lp n main deps s)
  = Ret (new_micro_controller fp lp n main deps).
Proof.
  unfold MicroController_init, ensure_dir, bind, get_state.
  destruct (bool_decide _); reflexivity.
Qed.

(** One iteration either fails on a missing dictionary key or appends the
    new handler object. *)
Lemma create_micro_controller_run n self s :
  match create_micro_controller n self s with
  | (Ret self', _) =>
      ∃ h main deps,
        mc_md self !! n = Some h
        ∧ h !! MC_MAIN_HEADER = Some main
        ∧ h !! MC_DEP_HEADER = Some deps
        ∧ self' = with_micro_controllers
                    (micro_controllers self
                     ++ [new_micro_controller (p_file_path self)
                           (mc_logger_path self) n main deps]) self
  | (Raise e, _) =>
      mc_md self !! n = None ∧ e = KeyError n
      ∨ ∃ h, mc_md self !! n = Some h ∧
             (h !! MC_MAIN_HEADER = None ∧ e = KeyError MC_MAIN_HEADER
              ∨ h !! MC_DEP_HEADER = None ∧ e = KeyError MC_DEP_HEADER)
  end.
Proof.
  unfold create_micro_controller, bind, getitem.
  destruct (mc_md self !! n) as [h|] eqn:Hn; cbn; [|auto].
  destruct (h !! MC_MAIN_HEADER) as [main|] eqn:Hmain; cbn; [|eauto 6].
  destruct (h !! MC_DEP_HEADER) as [deps|] eqn:Hdeps; cbn; [|eauto 6].
  pose proof (MicroController_init_run (p_file_path self)
                (mc_logger_path self) n main deps s) as Hinit.
  destruct (MicroController_init _ _ n main deps s) as [[mc|e] s1];
    cbn in Hinit; [|discriminate].
  injection Hinit as ->. cbn. eauto 8.
Qed.

Lemma create_loop_spec names self s :
  match fold_m names create_micro_controller self s with
  | (Ret self', _) =>
      ∃ mcs, self' = with_micro_controllers (micro_controllers self ++ mcs) self
             ∧ map micro_controller mcs = names
             ∧ Forall (declared (mc_md self)) mcs
             ∧ Forall (fun mc => metadata_file mc = None) mcs
  | (Raise e, _) =>
      ∃ n, n ∈ names ∧
           (mc_md self !! n = None ∧ e = KeyError n
            ∨ ∃ h, mc_md self !! n = Some h ∧
                   (h !! MC_MAIN_HEADER = None ∧ e = KeyError MC_MAIN_HEADER
                    ∨ h !! MC_DEP_HEADER = None ∧ e = KeyError MC_DEP_HEADER))
  end.
Proof.
  revert self s. induction names as [|n names IH]; intros self s.
  - cbn. exists []. rewrite app_nil_r. destruct self; repeat split; auto.
  - cbn [fold_m]. unfold bind.
    pose proof (create_micro_controller_run n self s) as Hstep.
    destruct (create_micro_controller n self s) as [[self1|e] s1].
    + destruct Hstep as (h & main & deps & Hn & Hmain & Hdeps & ->).
      specialize (IH (with_micro_controllers
                        (micro_controllers self
                         ++ [new_micro_controller (p_file_path self)
                               (mc_logger_path self) n main deps]) self) s1).
      destruct (fold_m names _ _ s1) as [[self'|e] s2].
      * destruct IH as (mcs & -> & Hnames & Hdecl & Hclosed).
        exists (new_micro_controller (p_file_path self)
                  (mc_logger_path self) n main deps :: mcs).
        split; [|split; [|split]].
        -- destruct self; cbn. rewrite <- app_assoc. reflexivity.
        -- cbn. rewrite Hnames. reflexivity.
        -- constructor; [exists h; cbn; auto | destruct self; exact Hdecl].
        -- constructor; [reflexivity | exact Hclosed].
      * destruct IH as (n' & Hin & Hcase).
        exists n'. split; [apply elem_of_cons; auto|].
        destruct self; exact Hcase.
    + exists n. split; [apply elem_of_cons; auto | exact Hstep].
Qed.

(** Opening the two files of a handler: the metadata file first. *)
Lemma mc_open_run mc s :
  match mc_open E mc s with
  | (Ret mc', _) =>
      same_handler mc mc' ∧ mc_is_open mc'
      ∧ can_open E (full_md_path mc) = true
      ∧ can_open E (full_log_path mc) = true
  | (Raise e, _) =>
      ∃ path, e = IOError path ∧ can_open E path = false
  end.
Proof.
  unfold mc_open, file_open, bind.
  destruct (can_open E (full_md_path mc)) eqn:Hmd; cbn; [|eauto].
  destruct (can_open E (full_log_path mc)) eqn:Hlog; cbn; [|eauto].
  unfold same_handler, mc_is_open. cbn. eauto 10.
Qed.

Lemma open_loop_spec mcs s :
  match map_m (mc_open E) mcs s with
  | (Ret opened, _) =>
      Forall2 same_handler mcs opened ∧ Forall mc_is_open opened
      ∧ Forall (fun mc => can_open E (full_md_path mc) = true
                          ∧ can_open E (full_log_path mc) = true) mcs
  | (Raise e, _) =>
      ∃ path, e = IOError path ∧ can_open E path = false
  end.
Proof.
  revert s. induction mcs as [|mc mcs IH]; intros s.
  - cbn. repeat split; constructor.
  - cbn [map_m]. unfold bind at 1.
    pose proof (mc_open_run mc s) as Hstep.
    destruct (mc_open E mc s) as [[mc'|e] s1]; [|exact Hstep].
    destruct Hstep as (Hsame & Hopen & Hmd & Hlog).
    unfold bind. specialize (IH s1).
    destruct (map_m (mc_open E) mcs s1) as [[opened|e] s2]; [|exact IH].
    destruct IH as (Hall & Hopens & Hcan). cbn.
    repeat split; constructor; auto.
Qed.

(** Handlers that are the same give the same tagged metadata. *)
Lemma same_handler_logger_md mc mc' :
  same_handler mc mc' → logger_md mc' = logger_md mc.
Proof. intros (Hn & _ & _). unfold logger_md, get_name. rewrite Hn. reflexivity. Qed.

Lemma same_handler_metadata_md mc mc' :
  same_handler mc mc' → metadata_md mc' = metadata_md mc.
Proof.
  intros (Hn & Hm & Hd).
  unfold metadata_md, get_name, get_main, get_dependencies.
  rewrite Hn, Hm, Hd. reflexivity.
Qed.

Lemma same_handlers_names mcs mcs' :
  Forall2 same_handler mcs mcs' →
  map micro_controller mcs' = map micro_controller mcs
  ∧ map logger_md mcs' = map logger_md mcs
  ∧ map metadata_md mcs' = map metadata_md mcs.
Proof.
  induction 1 as [|mc mc' mcs mcs' Hsame _ (IH1 & IH2 & IH3)]; cbn.
  - auto.
  - rewrite IH1, IH2, IH3.
    rewrite (same_handler_logger_md _ _ Hsame).
    rewrite (same_handler_metadata_md _ _ Hsame).
    destruct Hsame as (-> & _). auto.
Qed.

Lemma same_handlers_declared md mcs mcs' :
  Forall2 same_handler mcs mcs' →
  Forall (declared md) mcs → Forall (declared md) mcs'.
Proof.
  induction 1 as [|mc mc' mcs mcs' (Hn & Hm & Hd) _ IH]; intros Hdecl.
  - constructor.
  - inversion Hdecl as [|? ? (h & H1 & H2 & H3) Hrest]; subst.
    constructor; [|auto].
    exists h. rewrite Hn, Hm, Hd. auto.
Qed.

(** ** The descriptor set *)

(** The metadata list that [_prepare_invocation_descriptors] builds for the
    handlers [mcs]: the input marker with the stripped request headers, the
    output stream, the loggers, the metadata files. *)
Definition descriptor_metadata (req_md file_md : gmap string string)
    (mcs : list MicroController) : list (gmap string mdval) :=
  input_md (delete "Cookie" (delete "X-Service-Catalog" req_md)) file_md
  :: output_md
  :: map logger_md mcs ++ map metadata_md mcs.

Lemma del_if_present_delete k d : del_if_present k d = delete k d.
Proof.
  unfold del_if_present, contains. case_bool_decide as Hk; [reflexivity|].
  symmetry. apply delete_id.
  destruct (d !! k) eqn:Hd; [|reflexivity]. exfalso. apply Hk. eauto.
Qed.

Lemma logger_loop_run (l : list MicroController) self s :
  Forall mc_is_open l →
  ∃ self',
    fold_m l (fun mc self =>
                fd <- get_logfd mc ;;
                ret (append_descriptor (Some fd) (logger_md mc) self)) self s
    = (Ret self', s)
    ∧ fdmd self' = fdmd self ++ map logger_md l
    ∧ fds self' = fds self ++ map logger_file l
    ∧ micro_controllers self' = micro_controllers self
    ∧ response_read_fd self' = response_read_fd self
    ∧ response_write_fd self' = response_write_fd self
    ∧ mc_pipe_path self' = mc_pipe_path self
    ∧ timeout self' = timeout self
    ∧ task_id self' = task_id self.
Proof.
  intros Hopen. revert self.
  induction Hopen as [|mc l (_ & [fd Hfd]) _ IH]; intros self.
  - exists self. cbn. rewrite !app_nil_r. repeat split; reflexivity.
  - cbn [fold_m].
    rewrite (bind_ret_run _ _ (append_descriptor (Some fd) (logger_md mc) self)
               s s)
      by (unfold bind, get_logfd; rewrite Hfd; reflexivity).
    destruct (IH (append_descriptor (Some fd) (logger_md mc) self))
      as (self' & Hrun & H1 & H2 & H3 & H4 & H5 & H6 & H7 & H8).
    exists self'. rewrite Hrun.
    rewrite H1, H2, H3, H4, H5, H6, H7, H8. cbn. rewrite <- !app_assoc.
    rewrite Hfd. repeat split; reflexivity.
Qed.

Lemma metadata_loop_run (l : list MicroController) self s :
  Forall mc_is_open l →
  ∃ self',
    fold_m l (fun mc self =>
                fd <- get_mdfd mc ;;
                ret (append_descriptor (Some fd) (metadata_md mc) self)) self s
    = (Ret self', s)
    ∧ fdmd self' = fdmd self ++ map metadata_md l
    ∧ fds self' = fds self ++ map metadata_file l
    ∧ micro_controllers self' = micro_controllers self
    ∧ response_read_fd self' = response_read_fd self
    ∧ response_write_fd self' = response_write_fd self
    ∧ mc_pipe_path self' = mc_pipe_path self
    ∧ timeout self' = timeout self
    ∧ task_id self' = task_id self.
Proof.
  intros Hopen. revert self.
  induction Hopen as [|mc l ([fd Hfd] & _) _ IH]; intros self.
  - exists self. cbn. rewrite !app_nil_r. repeat split; reflexivity.
  - cbn [fold_m].
    rewrite (bind_ret_run _ _ (append_descriptor (Some fd) (metadata_md mc) self)
               s s)
      by (unfold bind, get_mdfd; rewrite Hfd; reflexivity).
    destruct (IH (append_descriptor (Some fd) (metadata_md mc) self))
      as (self' & Hrun & H1 & H2 & H3 & H4 & H5 & H6 & H7 & H8).
    exists self'. rewrite Hrun.
    rewrite H1, H2, H3, H4, H5, H6, H7, H8. cbn. rewrite <- !app_assoc.
    rewrite Hfd. repeat split; reflexivity.
Qed.

(** [os.pipe()] takes the next two descriptors. *)
Lemma os_pipe_run s :
  os_pipe s = (Ret (next_fd s, S (next_fd s)), snd (os_pipe s))
  ∧ next_fd (snd (os_pipe s)) = S (S (next_fd s)).
Proof. destruct s; split; reflexivity. Qed.

(** The state after the two calls of [os.pipe()]. *)
Definition after_pipes (s : state) : state :=
  snd (os_pipe (snd (os_pipe s))).

(** [_prepare_invocation_descriptors] on handlers whose files are open:
    it returns, the response pipe takes the next two descriptors, and the
    metadata list is extended by [descriptor_metadata]. *)
Lemma prepare_run self s :
  Forall mc_is_open (micro_controllers self) →
  ∃ self',
    _prepare_invocation_descriptors self s = (Ret self', after_pipes s)
    ∧ fdmd self'
      = fdmd self
        ++ descriptor_metadata (req_md self) (file_md self)
             (micro_controllers self)
    ∧ fds self'
      = fds self
        ++ [Some (3 + next_fd s)%nat; Some (1 + next_fd s)%nat]
        ++ map logger_file (micro_controllers self)
        ++ map metadata_file (micro_controllers self)
    ∧ micro_controllers self' = micro_controllers self
    ∧ response_read_fd self' = Some (next_fd s)
    ∧ response_write_fd self' = Some (1 + next_fd s)%nat
    ∧ mc_pipe_path self' = mc_pipe_path self
    ∧ timeout self' = timeout self
    ∧ task_id self' = task_id self.
Proof.
  intros Hopen.
  unfold _prepare_invocation_descriptors, _add_logger_stream,
    _add_metadata_stream, after_pipes.
  destruct (os_pipe_run s) as [Hp1 Hn1].
  destruct (os_pipe_run (snd (os_pipe s))) as [Hp2 _].
  rewrite (bind_ret_run _ _ _ _ _ Hp1), (bind_ret_run _ _ _ _ _ Hp2).
  rewrite Hn1. cbn [fst snd].
  set (s2 := snd (os_pipe (snd (os_pipe s)))).
  set (self1 := _add_output_stream _).
  destruct (logger_loop_run (micro_controllers self1) self1 s2)
    as (self2 & Hrun2 & L1 & L2 & L3 & L4 & L5 & L6 & L7 & L8).
  { exact Hopen. }
  rewrite (bind_ret_run _ _ _ _ _ Hrun2).
  destruct (metadata_loop_run (micro_controllers self2) self2 s2)
    as (self3 & Hrun3 & M1 & M2 & M3 & M4 & M5 & M6 & M7 & M8).
  { rewrite L3. exact Hopen. }
  exists self3. rewrite Hrun3.
  rewrite M1, M2, M3, M4, M5, M6, M7, M8, L1, L2, L3, L4, L5, L6, L7, L8.
  subst self1. unfold descriptor_metadata.
  unfold _add_output_stream, _add_file_req_md. cbn.
  rewrite !del_if_present_delete, <- !app_assoc.
  repeat split; reflexivity.
Qed.

(** ** Sending, releasing, collecting *)

Definition send_failure : exn := PyException "Failed to send execute command".

Lemma _invoke_run self s :
  _invoke E self s
  = (if (sbus_send E (mc_pipe_path self) (fds self) <? 0)%Z
     then Raise send_failure else Ret tt,
     set_trace (cons (EvSend (mc_pipe_path self) (fds self) (fdmd self)
                             SBUS_CMD_EXECUTE)) s).
Proof.
  unfold _invoke, bind, emit, modify.
  destruct (sbus_send E (mc_pipe_path self) (fds self) <? 0)%Z; reflexivity.
Qed.

Lemma release_keeps_sent self :
  keeps (fun s => sent_sets (trace s)) (release self).
Proof. unfold release. keeps_method. Qed.

Lemma release_keeps_awaits self :
  keeps (fun s => awaits (trace s)) (release self).
Proof. unfold release. keeps_method. Qed.

Lemma collect_keeps_sent self :
  keeps (fun s => sent_sets (trace s)) (collect self).
Proof. unfold collect. keeps_method. Qed.

Lemma create_keeps_sent self :
  keeps (fun s => sent_sets (trace s)) (create_micro_controllers self).
Proof. unfold create_micro_controllers, create_micro_controller. keeps_method. Qed.

Lemma create_keeps_awaits self :
  keeps (fun s => awaits (trace s)) (create_micro_controllers self).
Proof. unfold create_micro_controllers, create_micro_controller. keeps_method. Qed.

Lemma open_keeps_sent self :
  keeps (fun s => sent_sets (trace s)) (open_micro_controllers self).
Proof. unfold open_micro_controllers. keeps_method. Qed.

Lemma open_keeps_awaits self :
  keeps (fun s => awaits (trace s)) (open_micro_controllers self).
Proof. unfold open_micro_controllers. keeps_method. Qed.

Lemma prepare_keeps_sent self :
  keeps (fun s => sent_sets (trace s)) (_prepare_invocation_descriptors self).
Proof. keeps_method. Qed.

Lemma prepare_keeps_awaits self :
  keeps (fun s => awaits (trace s)) (_prepare_invocation_descriptors self).
Proof. keeps_method. Qed.

(** Closing the files of handlers that are open never fails. *)
Lemma close_loop_ok (l : list MicroController) s :
  Forall mc_is_open l → fst (for_each l mc_close s) = Ret tt.
Proof.
  intros Hopen. revert s.
  induction Hopen as [|mc l ([a Ha] & [b Hb]) _ IH]; intros s.
  - reflexivity.
  - cbn [for_each]. unfold bind at 1.
    assert (Hone : fst (mc_close mc s) = Ret tt).
    { unfold mc_close, get_mdfd, get_logfd, file_close. rewrite Ha, Hb.
      unfold bind, get_state, ret. cbn.
      destruct (bool_decide (a ∈ open_fds s)); cbn;
        destruct (bool_decide _); reflexivity. }
    destruct (mc_close mc s) as [[[]|e] s1]; cbn in Hone; [|discriminate].
    apply IH.
Qed.

(** The [finally] block does not fail when the write end of the response
    pipe is an open descriptor and the handler files are open. *)
Lemma release_ok self s n :
  response_write_fd self = Some (S n) → S n ∈ open_fds s →
  Forall mc_is_open (micro_controllers self) →
  fst (release self s) = Ret tt.
Proof.
  intros Hw Hin Hopen.
  unfold release, _close_remote_side_descriptors. rewrite Hw. cbn [fd_truthy].
  unfold os_close. unfold bind at 1 2. unfold get_state.
  rewrite bool_decide_eq_true_2 by exact Hin.
  cbn. apply close_loop_ok. exact Hopen.
Qed.

Lemma after_pipes_open s :
  S (next_fd s) ∈ open_fds (after_pipes s)
  ∧ next_fd s ∈ open_fds (after_pipes s).
Proof. destruct s. unfold after_pipes. cbn. set_solver. Qed.

(** ** The read end of the response pipe *)

Lemma create_keeps_closes fd self :
  keeps (fun s => closes fd (trace s)) (create_micro_controllers self).
Proof. unfold create_micro_controllers, create_micro_controller. keeps_method. Qed.

Lemma open_keeps_closes fd self :
  keeps (fun s => closes fd (trace s)) (open_micro_controllers self).
Proof. unfold open_micro_controllers. keeps_method. Qed.

Lemma prepare_keeps_closes fd self :
  keeps (fun s => closes fd (trace s)) (_prepare_invocation_descriptors self).
Proof. keeps_method. Qed.

(** The descriptors of the files of [mc] are below [n]. *)
Definition fds_below (n : nat) (mc : MicroController) : Prop :=
  (∀ fd, metadata_file mc = Some fd → (fd < n)%nat)
  ∧ (∀ fd, logger_file mc = Some fd → (fd < n)%nat).

Lemma fds_below_mono n m mc : (n ≤ m)%nat → fds_below n mc → fds_below m mc.
Proof.
  intros Hle [H1 H2]. split; intros fd Hfd; [apply H1 in Hfd|apply H2 in Hfd];
    lia.
Qed.

(** Descriptors are handed out in increasing order: the files of a handler
    that was just opened are below the next free descriptor. *)
Lemma mc_open_below mc s :
  (next_fd s ≤ next_fd (snd (mc_open E mc s)))%nat
  ∧ match fst (mc_open E mc s) with
    | Ret mc' => fds_below (next_fd (snd (mc_open E mc s))) mc'
    | Raise _ => True
    end.
Proof.
  unfold mc_open, file_open, alloc_fd, bind, get_state, modify, emit, ret.
  destruct (can_open E (full_md_path mc)); cbn; [|auto].
  destruct (can_open E (full_log_path mc)); cbn; [|split; [lia|auto]].
  destruct s; cbn. split; [lia|].
  split; intros fd [= <-]; lia.
Qed.

Lemma open_loop_below mcs s :
  (next_fd s ≤ next_fd (snd (map_m (mc_open E) mcs s)))%nat
  ∧ match fst (map_m (mc_open E) mcs s) with
    | Ret opened =>
        Forall (fds_below (next_fd (snd (map_m (mc_open E) mcs s)))) opened
    | Raise _ => True
    end.
Proof.
  revert s. induction mcs as [|mc mcs IH]; intros s.
  - cbn. split; [lia|constructor].
  - cbn [map_m]. unfold bind at 1 3 5.
    destruct (mc_open_below mc s) as [Hle Hmc].
    destruct (mc_open E mc s) as [[mc'|e] s1]; cbn [fst snd] in *; [|auto].
    unfold bind.
    destruct (IH s1) as [Hle' Hrest].
    destruct (map_m (mc_open E) mcs s1) as [[opened|e] s2];
      cbn [fst snd] in *; [|split; [lia|auto]].
    unfold ret. cbn [fst snd].
    split; [lia|]. constructor; [|exact Hrest].
    eapply fds_below_mono; [exact Hle'|exact Hmc].
Qed.

(** The descriptor [rfd] is open and was closed [c] times. *)
Definition stays_open (rfd c : nat) (s : state) : Prop :=
  rfd ∈ open_fds s ∧ closes rfd (trace s) = c.

Lemma file_close_other rfd c fd s :
  fd ≠ rfd → stays_open rfd c s → stays_open rfd c (snd (file_close fd s)).
Proof.
  intros Hne [Hin Hc]. unfold file_close, bind, get_state, modify, emit, ret.
  destruct (bool_decide (fd ∈ open_fds s)); cbn; [|split; assumption].
  destruct s; cbn in *. split; [set_solver|].
  unfold closes in *. cbn.
  destruct (Nat.eqb_spec fd rfd); [contradiction|exact Hc].
Qed.

Lemma mc_close_other rfd c mc s :
  fds_below rfd mc → stays_open rfd c s →
  stays_open rfd c (snd (mc_close mc s)).
Proof.
  intros [Hmd Hlog] Hopen. unfold mc_close, get_mdfd, get_logfd.
  destruct (metadata_file mc) as [a|]; [|exact Hopen].
  specialize (Hmd a eq_refl).
  unfold bind at 1, ret at 1. unfold bind at 1.
  pose proof (file_close_other rfd c a s ltac:(lia) Hopen) as H1.
  destruct (file_close a s) as [[[]|e] s1]; cbn [fst snd] in *;
    [|exact H1].
  destruct (logger_file mc) as [b|]; [|exact H1].
  specialize (Hlog b eq_refl).
  unfold bind at 1, ret at 1.
  apply file_close_other; [lia|exact H1].
Qed.

Lemma close_loop_other rfd c (l : list MicroController) s :
  Forall (fds_below rfd) l → stays_open rfd c s →
  stays_open rfd c (snd (for_each l mc_close s)).
Proof.
  intros Hl. revert s. induction Hl as [|mc l Hmc _ IH]; intros s Hopen.
  - exact Hopen.
  - cbn [for_each]. unfold bind.
    pose proof (mc_close_other rfd c mc s Hmc Hopen) as H1.
    destruct (mc_close mc s) as [[[]|e] s1]; cbn [fst snd] in *; auto.
Qed.

Lemma os_close_other rfd c n s :
  n ≠ rfd → stays_open rfd c s →
  stays_open rfd c (snd (os_close (Some n) s)).
Proof.
  intros Hne [Hin Hc]. unfold os_close, bind, get_state, modify, emit, raise.
  destruct (bool_decide (n ∈ open_fds s)); cbn; [|split; assumption].
  destruct s; cbn in *. split; [set_solver|].
  unfold closes in *. cbn.
  destruct (Nat.eqb_spec n rfd); [contradiction|exact Hc].
Qed.

(** The [finally] block leaves the read end alone. *)
Lemma release_other rfd c self s :
  response_write_fd self = Some (S rfd) →
  Forall (fds_below rfd) (micro_controllers self) →
  stays_open rfd c s → stays_open rfd c (snd (release self s)).
Proof.
  intros Hw Hmcs Hopen.
  unfold release, _close_remote_side_descriptors. rewrite Hw. cbn [fd_truthy].
  unfold bind.
  pose proof (os_close_other rfd c (S rfd) s ltac:(lia) Hopen) as H1.
  destruct (os_close (Some (S rfd)) s) as [[[]|e] s1]; cbn [fst snd] in *;
    [|exact H1].
  apply close_loop_other; assumption.
Qed.

Lemma after_pipes_trace s :
  trace (after_pipes s)
  = EvPipe (2 + next_fd s) (3 + next_fd s)
    :: EvPipe (next_fd s) (1 + next_fd s) :: trace s.
Proof. destruct s. reflexivity. Qed.

(** No step ever removes an event: what is in the trace stays there. *)
Lemma release_keeps_events ev self s :
  In ev (trace s) → In ev (trace (snd (release self s))).
Proof.
  revert s.
  assert (Hfile : ∀ fd s, In ev (trace s) →
                          In ev (trace (snd (file_close fd s)))).
  { intros fd s Hin. unfold file_close, bind, get_state, modify, emit, ret.
    destruct (bool_decide _); cbn; [|exact Hin].
    destruct s; cbn in *. auto. }
  assert (Hmc : ∀ mc s, In ev (trace s) →
                        In ev (trace (snd (mc_close mc s)))).
  { intros mc s Hin. unfold mc_close, get_mdfd, get_logfd.
    destruct (metadata_file mc) as [a|]; [|exact Hin].
    unfold bind at 1, ret at 1. unfold bind at 1.
    pose proof (Hfile a s Hin) as H1.
    destruct (file_close a s) as [[[]|e] s1]; cbn [fst snd] in *;
      [|exact H1].
    destruct (logger_file mc) as [b|]; [|exact H1].
    unfold bind at 1, ret at 1. apply Hfile. exact H1. }
  assert (Hloop : ∀ l s, In ev (trace s) →
                         In ev (trace (snd (for_each l mc_close s)))).
  { induction l as [|mc l IH]; intros s Hin; [exact Hin|].
    cbn [for_each]. unfold bind. pose proof (Hmc mc s Hin) as H1.
    destruct (mc_close mc s) as [[[]|e] s1]; cbn [fst snd] in *; auto. }
  intros s Hin. unfold release, _close_remote_side_descriptors.
  destruct (fd_truthy (response_write_fd self)).
  - unfold bind at 1.
    assert (H1 : In ev (trace (snd (os_close (response_write_fd self) s)))).
    { unfold os_close. destruct (response_write_fd self); [|exact Hin].
      unfold bind, get_state, modify, emit, raise.
      destruct (bool_decide _); cbn; [|exact Hin].
      destruct s; cbn in *. auto. }
    destruct (os_close (response_write_fd self) s) as [[[]|e] s1];
      cbn [fst snd] in *; auto.
  - unfold bind, ret. apply Hloop. exact Hin.
Qed.

(** ** One invocation *)

(** Why an invocation can stop before the descriptor set is sent: a handler
    without an entry in [mc_md], or without one of the two handler headers,
    or a file that cannot be opened. *)
Definition stops_early (self : MicroControllerInvocationProtocol)
    (e : exn) : Prop :=
  (∃ n, n ∈ p_mc_list self ∧
        (mc_md self !! n = None ∧ e = KeyError n
         ∨ ∃ h, mc_md self !! n = Some h ∧
                (h !! MC_MAIN_HEADER = None ∧ e = KeyError MC_MAIN_HEADER
                 ∨ h !! MC_DEP_HEADER = None ∧ e = KeyError MC_DEP_HEADER)))
  ∨ (∃ path, e = IOError path ∧ can_open E path = false).

(** A run of [communicate] on a protocol object as [__init__] leaves it,
    followed through its phases.  Either it stops early and sends nothing;
    or the descriptor set of [descriptor_metadata] is sent, the [finally]
    block runs without failing, and the call ends with the send failure or
    goes on to [collect] the response.  In the second case the read end of
    the response pipe is open after the [finally] block and no step so far
    closed it. *)
Lemma communicate_walk self s :
  fds self = [] → fdmd self = [] → micro_controllers self = [] →
  (∃ e, fst (communicate E self s) = Raise e ∧ stops_early self e
        ∧ sent_sets (trace (snd (communicate E self s))) = sent_sets (trace s)
        ∧ awaits (trace (snd (communicate E self s))) = awaits (trace s))
  ∨ (∃ opened self3 s5 rfd,
        communicate E self s
        = (if (sbus_send E (mc_pipe_path self) (fds self3) <? 0)%Z
           then (Raise send_failure, s5) else collect self3 s5)
        ∧ sent_sets (trace s5)
          = (fds self3,
             descriptor_metadata (req_md self) (file_md self) opened)
            :: sent_sets (trace s)
        ∧ awaits (trace s5) = awaits (trace s)
        ∧ map micro_controller opened = p_mc_list self
        ∧ Forall (declared (mc_md self)) opened
        ∧ length (fds self3)
          = length (descriptor_metadata (req_md self) (file_md self) opened)
        ∧ response_read_fd self3 = Some rfd
        ∧ task_id self3 = task_id self
        ∧ timeout self3 = timeout self
        ∧ stays_open rfd (closes rfd (trace s)) s5
        ∧ In (EvPipe rfd (S rfd)) (trace s5)).
Proof.
  intros Hfds Hfdmd Hmcs. rewrite communicate_phases.
  (* the handler objects *)
  pose proof (create_loop_spec (p_mc_list self) self s) as H1.
  pose proof (create_keeps_sent self s) as K1.
  pose proof (create_keeps_awaits self s) as A1.
  unfold create_micro_controllers in *.
  destruct (fold_m (p_mc_list self) create_micro_controller self s)
    as [[self1|e] s1] eqn:R1; cbn [fst snd] in *.
  2:{ left. exists e. rewrite (bind_raise_run _ _ _ _ _ R1). cbn.
      repeat split; auto. left. exact H1. }
  rewrite (bind_ret_run _ _ _ _ _ R1).
  destruct H1 as (mcs & -> & Hnames & Hdecl & _).
  rewrite Hmcs in *. cbn [app] in *.
  set (self1 := with_micro_controllers mcs self) in *.
  (* their files *)
  pose proof (open_loop_spec mcs s1) as H2.
  pose proof (open_loop_below mcs s1) as [_ Hbelow].
  pose proof (open_keeps_sent self1 s1) as K2.
  pose proof (open_keeps_awaits self1 s1) as A2.
  unfold open_micro_controllers in *.
  assert (Hm1 : micro_controllers self1 = mcs) by (destruct self; reflexivity).
  rewrite Hm1 in *.
  destruct (map_m (mc_open E) mcs s1) as [[opened|e] s2] eqn:R2.
  2:{ left. exists e.
      rewrite (bind_raise_run _ _ e s1 s2)
        by (apply bind_raise_run; exact R2).
      rewrite (bind_raise_run _ _ _ _ _ R2) in K2, A2. cbn in *.
      repeat split; try congruence. right. exact H2. }
  rewrite (bind_ret_run _ _ (with_micro_controllers opened self1) s1 s2)
    by (rewrite (bind_ret_run _ _ _ _ _ R2); reflexivity).
  rewrite (bind_ret_run _ _ _ _ _ R2) in K2, A2. cbn [fst snd ret] in K2, A2.
  destruct H2 as (Hsame & Hopen & _).
  cbn [fst snd] in Hbelow.
  pose proof (create_keeps_closes (next_fd s2) self s) as C1.
  unfold create_micro_controllers in C1. rewrite R1 in C1. cbn [snd] in C1.
  pose proof (open_keeps_closes (next_fd s2) self1 s1) as C2.
  unfold open_micro_controllers in C2. rewrite Hm1 in C2.
  rewrite (bind_ret_run _ _ _ _ _ R2) in C2. cbn [snd ret] in C2.
  destruct (same_handlers_names _ _ Hsame) as (Hn' & Hl' & Hm').
  set (self2 := with_micro_controllers opened self1) in *.
  assert (Hm2 : micro_controllers self2 = opened)
    by (destruct self; reflexivity).
  (* the descriptors *)
  destruct (prepare_run self2 s2) as
      (self3 & R3 & F1 & F2 & F3 & F4 & F5 & F6 & F7 & F8).
  { rewrite Hm2. exact Hopen. }
  pose proof (prepare_keeps_sent self2 s2) as K3.
  pose proof (prepare_keeps_awaits self2 s2) as A3.
  pose proof (prepare_keeps_closes (next_fd s2) self2 s2) as C3.
  rewrite R3 in K3, A3, C3. cbn [fst snd] in K3, A3, C3.
  rewrite (bind_ret_run _ _ _ _ _ R3).
  assert (Hfdmd3 : fdmd self3
                   = descriptor_metadata (req_md self) (file_md self) opened).
  { rewrite F1, Hm2. destruct self; cbn in *. subst. reflexivity. }
  assert (Hpath : mc_pipe_path self3 = mc_pipe_path self)
    by (rewrite F6; destruct self; reflexivity).
  assert (Hfds2 : fds self2 = [])
    by (destruct self; cbn in *; assumption).
  (* the send and the finally block *)
  set (s3 := after_pipes s2) in *.
  set (s4 := set_trace (cons (EvSend (mc_pipe_path self3) (fds self3)
                                (fdmd self3) SBUS_CMD_EXECUTE)) s3).
  assert (Hrel : fst (release self3 s4) = Ret tt).
  { apply (release_ok self3 s4 (next_fd s2)).
    - rewrite F5. reflexivity.
    - destruct (after_pipes_open s2) as [Hw _]. subst s4 s3.
      destruct (after_pipes s2); exact Hw.
    - rewrite F3, Hm2. exact Hopen. }
  pose proof (release_keeps_sent self3 s4) as K4.
  pose proof (release_keeps_awaits self3 s4) as A4.
  destruct (release self3 s4) as [[[]|e] s5] eqn:R4;
    cbn [fst snd] in *; [|discriminate].
  assert (Hsent5 : sent_sets (trace s5)
                   = (fds self3, fdmd self3) :: sent_sets (trace s)).
  { rewrite K4. subst s4. destruct s3 eqn:Hs3. cbn.
    f_equal. cbn in K3. congruence. }
  assert (Haw5 : awaits (trace s5) = awaits (trace s)).
  { rewrite A4. subst s4. destruct s3 eqn:Hs3. cbn. cbn in A3. congruence. }
  assert (Hstay5 : stays_open (next_fd s2) (closes (next_fd s2) (trace s)) s5).
  { pose proof (release_other (next_fd s2) (closes (next_fd s2) (trace s))
                  self3 s4) as Hrelo.
    rewrite R4 in Hrelo. apply Hrelo.
    - rewrite F5. reflexivity.
    - rewrite F3, Hm2. exact Hbelow.
    - assert (Hs3 : stays_open (next_fd s2) (closes (next_fd s2) (trace s))
                      s3).
      { split; [apply after_pipes_open|congruence]. }
      destruct Hs3 as [Hin3 Hc3]. subst s4.
      destruct s3; split; assumption. }
  assert (Hpipe5 : In (EvPipe (next_fd s2) (S (next_fd s2))) (trace s5)).
  { pose proof (release_keeps_events
                  (EvPipe (next_fd s2) (S (next_fd s2))) self3 s4) as Hev.
    rewrite R4 in Hev. apply Hev. subst s4.
    pose proof (after_pipes_trace s2) as Htr. fold s3 in Htr.
    destruct s3; cbn in *. rewrite Htr. right. right. left. reflexivity. }
  right. exists opened, self3, s5, (next_fd s2).
  assert (Hrun : (try_finally (_invoke E self3) (release self3) ;;
                  collect self3) s3
                 = if (sbus_send E (mc_pipe_path self) (fds self3) <? 0)%Z
                   then (Raise send_failure, s5) else collect self3 s5).
  { unfold bind, try_finally. rewrite _invoke_run. fold s4. rewrite R4, Hpath.
    destruct (sbus_send E (mc_pipe_path self) (fds self3) <? 0)%Z;
      reflexivity. }
  rewrite Hrun. clear Hrun.
  assert (Hnames3 : map micro_controller opened = p_mc_list self)
    by congruence.
  assert (Hdecl3 : Forall (declared (mc_md self)) opened).
  { eapply same_handlers_declared; [exact Hsame|]. destruct self; exact Hdecl. }
  assert (Hlen3 : length (fds self3)
                  = length (descriptor_metadata (req_md self) (file_md self)
                              opened)).
  { rewrite F2, Hm2, Hfds2. unfold descriptor_metadata. cbn.
    rewrite !length_app, !length_map. reflexivity. }
  rewrite <- Hfdmd3.
  split; [reflexivity|]. split; [exact Hsent5|]. split; [exact Haw5|].
  split; [exact Hnames3|]. split; [exact Hdecl3|].
  split; [rewrite Hfdmd3; exact Hlen3|]. split; [exact F4|].
  split; [rewrite F8; destruct self; reflexivity|].
  split; [rewrite F7; destruct self; reflexivity|].
  split; [exact Hstay5|exact Hpipe5].
Qed.

(** In short: a run either stops early and sends nothing, or sends exactly
    one descriptor set, the one of [descriptor_metadata] for the handlers
    of [self.mc_list] in their order; when the send result is negative the
    call raises the send failure and never waits for a response. *)
Lemma communicate_run self s :
  fds self = [] → fdmd self = [] → micro_controllers self = [] →
  let r := communicate E self s in
  (∃ e, fst r = Raise e ∧ stops_early self e
        ∧ sent_sets (trace (snd r)) = sent_sets (trace s)
        ∧ awaits (trace (snd r)) = awaits (trace s))
  ∨ (∃ mcs descriptors,
        sent_sets (trace (snd r))
        = (descriptors,
           descriptor_metadata (req_md self) (file_md self) mcs)
          :: sent_sets (trace s)
        ∧ map micro_controller mcs = p_mc_list self
        ∧ Forall (declared (mc_md self)) mcs
        ∧ length descriptors
          = length (descriptor_metadata (req_md self) (file_md self) mcs)
        ∧ ((sbus_send E (mc_pipe_path self) descriptors < 0)%Z →
           fst r = Raise send_failure
           ∧ awaits (trace (snd r)) = awaits (trace s))).
Proof.
  intros Hfds Hfdmd Hmcs r. subst r.
  destruct (communicate_walk self s Hfds Hfdmd Hmcs)
    as [Hearly|(opened & self3 & s5 & rfd & Hrun & Hsent & Haw & Hnames
                & Hdecl & Hlen & _)].
  - left. exact Hearly.
  - right. exists opened, (fds self3). rewrite Hrun.
    pose proof (collect_keeps_sent self3 s5) as K5.
    destruct (sbus_send E (mc_pipe_path self) (fds self3) <? 0)%Z eqn:Hrc;
      cbn [fst snd].
    + split; [exact Hsent|]. split; [exact Hnames|]. split; [exact Hdecl|].
      split; [exact Hlen|]. intros _. split; [reflexivity|exact Haw].
    + rewrite K5.
      split; [exact Hsent|]. split; [exact Hnames|]. split; [exact Hdecl|].
      split; [exact Hlen|]. intros Hneg. apply Z.ltb_lt in Hneg. congruence.
Qed.

End Phases.

(** * Reading a descriptor set *)

(** [md['type'] == t] *)
Definition has_type (t : Z) (md : gmap string mdval) : bool :=
  match md !! "type" with
  | Some (MdInt n) => (t =? n)%Z
  | _ => false
  end.

(** [md['handler']], when the descriptor is attributed to a handler. *)
Definition handler_of (md : gmap string mdval) : option string :=
  match md !! "handler" with
  | Some (MdStr h) => Some h
  | _ => None
  end.

(** The handler names of the descriptors of type [t], in their order. *)
Definition tagged_handlers (t : Z) (set : list (gmap string mdval))
    : list string :=
  omap handler_of (List.filter (has_type t) set).

(** Whether a descriptor carries a type tag. *)
Definition is_tagged (md : gmap string mdval) : Prop :=
  ∃ t, md !! "type" = Some (MdInt t).

Section DescriptorSet.

Variables req_md file_md : gmap string string.

Lemma filter_logger_md t (mcs : list MicroController) :
  List.filter (has_type t) (map logger_md mcs)
  = if (t =? SBUS_FD_LOGGER)%Z then map logger_md mcs else [].
Proof.
  induction mcs as [|mc mcs IH]; cbn [map List.filter].
  - destruct (t =? SBUS_FD_LOGGER)%Z; reflexivity.
  - rewrite IH.
    assert (has_type t (logger_md mc) = (t =? SBUS_FD_LOGGER)%Z) as ->.
    { unfold has_type, logger_md.
      rewrite lookup_insert_ne by discriminate. rewrite lookup_insert_eq.
    reflexivity. }
    destruct (t =? SBUS_FD_LOGGER)%Z; reflexivity.
Qed.

Lemma filter_metadata_md t (mcs : list MicroController) :
  List.filter (has_type t) (map metadata_md mcs)
  = if (t =? SBUS_FD_OUTPUT_OBJECT_METADATA)%Z
    then map metadata_md mcs else [].
Proof.
  induction mcs as [|mc mcs IH]; cbn [map List.filter].
  - destruct (t =? SBUS_FD_OUTPUT_OBJECT_METADATA)%Z; reflexivity.
  - rewrite IH.
    assert (has_type t (metadata_md mc)
            = (t =? SBUS_FD_OUTPUT_OBJECT_METADATA)%Z) as ->.
    { unfold has_type, metadata_md.
      rewrite !lookup_insert_ne by discriminate. rewrite lookup_insert_eq.
    reflexivity. }
    destruct (t =? SBUS_FD_OUTPUT_OBJECT_METADATA)%Z; reflexivity.
Qed.

Lemma handlers_of_logger_md (mcs : list MicroController) :
  omap handler_of (map logger_md mcs) = map micro_controller mcs.
Proof.
  induction mcs as [|mc mcs IH]; [reflexivity|].
  change (match handler_of (logger_md mc) with
          | Some h => h :: omap handler_of (map logger_md mcs)
          | None => omap handler_of (map logger_md mcs)
          end = micro_controller mc :: map micro_controller mcs).
  rewrite IH. unfold handler_of, logger_md.
  rewrite lookup_insert_eq. reflexivity.
Qed.

Lemma handlers_of_metadata_md (mcs : list MicroController) :
  omap handler_of (map metadata_md mcs) = map micro_controller mcs.
Proof.
  induction mcs as [|mc mcs IH]; [reflexivity|].
  change (match handler_of (metadata_md mc) with
          | Some h => h :: omap handler_of (map metadata_md mcs)
          | None => omap handler_of (map metadata_md mcs)
          end = micro_controller mc :: map micro_controller mcs).
  rewrite IH. unfold handler_of, metadata_md.
  rewrite !lookup_insert_ne by discriminate. rewrite lookup_insert_eq.
  reflexivity.
Qed.

Lemma filter_descriptor_metadata t (mcs : list MicroController) :
  List.filter (has_type t) (descriptor_metadata req_md file_md mcs)
  = (if (t =? SBUS_FD_INPUT_OBJECT)%Z
     then [input_md (delete "Cookie" (delete "X-Service-Catalog" req_md))
                    file_md]
     else [])
    ++ (if (t =? SBUS_FD_OUTPUT_OBJECT)%Z then [output_md] else [])
    ++ (if (t =? SBUS_FD_LOGGER)%Z then map logger_md mcs else [])
    ++ (if (t =? SBUS_FD_OUTPUT_OBJECT_METADATA)%Z
        then map metadata_md mcs else []).
Proof.
  unfold descriptor_metadata. cbn [List.filter].
  rewrite List.filter_app, filter_logger_md, filter_metadata_md.
  assert (has_type t (input_md (delete "Cookie"
                                  (delete "X-Service-Catalog" req_md)) file_md)
          = (t =? SBUS_FD_INPUT_OBJECT)%Z) as ->.
  { unfold has_type, input_md.
    rewrite lookup_insert_ne by discriminate. rewrite lookup_insert_eq.
    reflexivity. }
  assert (has_type t output_md = (t =? SBUS_FD_OUTPUT_OBJECT)%Z) as ->.
  { unfold has_type, output_md. rewrite lookup_insert_eq.
    reflexivity. }
  destruct (t =? SBUS_FD_INPUT_OBJECT)%Z, (t =? SBUS_FD_OUTPUT_OBJECT)%Z;
    reflexivity.
Qed.

Lemma descriptor_metadata_tagged (mcs : list MicroController) :
  Forall is_tagged (descriptor_metadata req_md file_md mcs).
Proof.
  unfold descriptor_metadata.
  repeat constructor.
  - exists SBUS_FD_INPUT_OBJECT. reflexivity.
  - exists SBUS_FD_OUTPUT_OBJECT. reflexivity.
  - apply Forall_app. split; apply Forall_forall; intros md Hmd;
      apply list_elem_of_fmap in Hmd as (mc & -> & _).
    + exists SBUS_FD_LOGGER. reflexivity.
    + exists SBUS_FD_OUTPUT_OBJECT_METADATA. reflexivity.
Qed.

(** The content of the set that is built for the handlers [mcs]. *)
Lemma descriptor_metadata_content (mcs : list MicroController) :
  let set := descriptor_metadata req_md file_md mcs in
  List.filter (has_type SBUS_FD_INPUT_OBJECT) set
  = [input_md (delete "Cookie" (delete "X-Service-Catalog" req_md)) file_md]
  ∧ List.filter (has_type SBUS_FD_OUTPUT_OBJECT) set = [output_md]
  ∧ tagged_handlers SBUS_FD_LOGGER set = map micro_controller mcs
  ∧ tagged_handlers SBUS_FD_OUTPUT_OBJECT_METADATA set
    = map micro_controller mcs
  ∧ length (List.filter (has_type SBUS_FD_LOGGER) set) = length mcs
  ∧ length (List.filter (has_type SBUS_FD_OUTPUT_OBJECT_METADATA) set)
    = length mcs
  ∧ Forall is_tagged set
  ∧ length set = (2 + 2 * length mcs)%nat.
Proof.
  cbn zeta. unfold tagged_handlers.
  rewrite !filter_descriptor_metadata. cbn [Z.eqb SBUS_FD_INPUT_OBJECT
    SBUS_FD_OUTPUT_OBJECT SBUS_FD_LOGGER SBUS_FD_OUTPUT_OBJECT_METADATA
    Pos.eqb app].
  rewrite !app_nil_r, handlers_of_logger_md, handlers_of_metadata_md.
  rewrite !length_map.
  repeat split; auto using descriptor_metadata_tagged.
  unfold descriptor_metadata. cbn [length].
  rewrite length_app, !length_map. lia.
Qed.

End DescriptorSet.


(** * The descriptor set of an invocation *)

Lemma cons_neq_self {A} (x : A) (l : list A) : l ≠ x :: l.
Proof. intros H. apply (f_equal length) in H. cbn in H. lia. Qed.

(** C8.  Whenever an invocation sends a descriptor set, its metadata list
    holds exactly one input marker, whose blob is the request headers
    without [X-Service-Catalog] and [Cookie] together with the headers of
    the object, exactly one output-stream descriptor, one logger descriptor
    and one metadata descriptor per handler of the chain, attributed to the
    handlers in the order of the chain; every entry carries a type tag and
    there is one file descriptor per entry. *)
Theorem descriptor_set_content
    (E : environment) (file_path pipe_path logger_path : string)
    (req_headers file_headers : gmap string string) (chain : list string)
    (metadata : gmap string (gmap string string)) (timeout : Z) (s : state)
    (descriptors : list (option nat)) (set : list (gmap string mdval)) :
  sent_sets
    (trace (snd (communicate E
                   (MicroControllerInvocationProtocol_init
                      file_path pipe_path logger_path req_headers
                      file_headers chain metadata timeout) s)))
  = (descriptors, set) :: sent_sets (trace s) →
  List.filter (has_type SBUS_FD_INPUT_OBJECT) set
  = [input_md (delete "Cookie" (delete "X-Service-Catalog" req_headers))
              file_headers]
  ∧ List.filter (has_type SBUS_FD_OUTPUT_OBJECT) set = [output_md]
  ∧ tagged_handlers SBUS_FD_LOGGER set = chain
  ∧ tagged_handlers SBUS_FD_OUTPUT_OBJECT_METADATA set = chain
  ∧ length (List.filter (has_type SBUS_FD_LOGGER) set) = length chain
  ∧ length (List.filter (has_type SBUS_FD_OUTPUT_OBJECT_METADATA) set)
    = length chain
  ∧ Forall is_tagged set
  ∧ length set = (2 + 2 * length chain)%nat
  ∧ length descriptors = length set.
Proof.
  intros Hsent.
  destruct (communicate_run E
              (MicroControllerInvocationProtocol_init
                 file_path pipe_path logger_path req_headers
                 file_headers chain metadata timeout) s)
    as [(e & _ & _ & Hnone & _)|(mcs & ds & Hone & Hnames & _ & Hlen & _)];
    try reflexivity.
  - rewrite Hsent in Hnone. symmetry in Hnone.
    apply cons_neq_self in Hnone. contradiction.
  - rewrite Hsent in Hone. injection Hone as -> ->.
    cbn [req_md file_md p_mc_list MicroControllerInvocationProtocol_init]
      in *.
    destruct (descriptor_metadata_content req_headers file_headers mcs)
      as (C1 & C2 & C3 & C4 & C5 & C6 & C7 & C8).
    rewrite <- Hnames. rewrite !length_map.
    repeat split; assumption.
Qed.

(** The invocation of the sample handler [a.mc], and the descriptor set it
    sends: descriptors 3 and 4 are the files of the handler, 5/6 the
    response pipe and 7/8 the second pipe. *)
Definition sample_metadata : gmap string (gmap string string) :=
  <["a.mc" := Sample.handler_headers "com.A" "lib.jar"]> ∅.

Definition sample_file_headers : gmap string string :=
  <["Content-Length" := "3"]> ∅.

Definition sample_request_headers : gmap string string :=
  <["Cookie" := "session"]> (<["X-Auth-Token" := "t"]> ∅).

Definition sample_protocol : MicroControllerInvocationProtocol :=
  MicroControllerInvocationProtocol_init
    "/srv/node/sdb/objects/1/abc/hash" "/pipes/bd34c4073b654/mc_pipe"
    "/log/bd34c4073b654/" sample_request_headers
    sample_file_headers ["a.mc"] sample_metadata 20.

Definition sample_set : list (gmap string mdval) :=
  descriptor_metadata sample_request_headers sample_file_headers
    [new_micro_controller "/srv/node/sdb/objects/1/abc/hash"
       "/log/bd34c4073b654/" "a.mc" "com.A" "lib.jar"].

Lemma descriptor_set_content_witness :
  List.filter (has_type SBUS_FD_INPUT_OBJECT) sample_set
  = [input_md (delete "Cookie"
                 (delete "X-Service-Catalog" sample_request_headers))
              sample_file_headers]
  ∧ List.filter (has_type SBUS_FD_OUTPUT_OBJECT) sample_set = [output_md]
  ∧ tagged_handlers SBUS_FD_LOGGER sample_set = ["a.mc"]
  ∧ tagged_handlers SBUS_FD_OUTPUT_OBJECT_METADATA sample_set = ["a.mc"]
  ∧ length (List.filter (has_type SBUS_FD_LOGGER) sample_set) = 1%nat
  ∧ length (List.filter (has_type SBUS_FD_OUTPUT_OBJECT_METADATA) sample_set)
    = 1%nat
  ∧ Forall is_tagged sample_set
  ∧ length sample_set = 4%nat
  ∧ length [Some 8%nat; Some 6%nat; Some 4%nat; Some 3%nat]
    = length sample_set.
Proof.
  apply (descriptor_set_content (Sample.env 0 0 true)
           "/srv/node/sdb/objects/1/abc/hash" "/pipes/bd34c4073b654/mc_pipe"
           "/log/bd34c4073b654/" sample_request_headers
           sample_file_headers ["a.mc"] sample_metadata 20
           (Sample.start None)
           [Some 8%nat; Some 6%nat; Some 4%nat; Some 3%nat] sample_set).
  vm_compute. reflexivity.
Defined.

(** * The result of the send: [_invoke] *)

(** C6, as the code has it.  When the result of [SBus.send] for the
    descriptor set of an invocation is negative, [communicate] raises the
    send failure and never waits for or reads a response.  The test is
    [rc < 0]: zero and positive results let [_invoke] return normally. *)
Theorem negative_send_result_is_fatal
    (E : environment) (file_path pipe_path logger_path : string)
    (req_headers file_headers : gmap string string) (chain : list string)
    (metadata : gmap string (gmap string string)) (timeout : Z) (s : state)
    (descriptors : list (option nat)) (set : list (gmap string mdval)) :
  sent_sets
    (trace (snd (communicate E
                   (MicroControllerInvocationProtocol_init
                      file_path pipe_path logger_path req_headers
                      file_headers chain metadata timeout) s)))
  = (descriptors, set) :: sent_sets (trace s) →
  ((sbus_send E pipe_path descriptors < 0)%Z →
   fst (communicate E
          (MicroControllerInvocationProtocol_init
             file_path pipe_path logger_path req_headers
             file_headers chain metadata timeout) s)
   = Raise send_failure
   ∧ awaits
       (trace (snd (communicate E
                      (MicroControllerInvocationProtocol_init
                         file_path pipe_path logger_path req_headers
                         file_headers chain metadata timeout) s)))
     = awaits (trace s))
  ∧ (∀ self s0,
       (0 ≤ sbus_send E (mc_pipe_path self) (fds self))%Z →
       fst (_invoke E self s0) = Ret tt).
Proof.
  intros Hsent. split.
  - intros Hneg.
    destruct (communicate_run E
                (MicroControllerInvocationProtocol_init
                   file_path pipe_path logger_path req_headers
                   file_headers chain metadata timeout) s)
      as [(e & _ & _ & Hnone & _)|(mcs & ds & Hone & _ & _ & _ & Hfatal)];
      try reflexivity.
    + rewrite Hsent in Hnone. symmetry in Hnone.
      apply cons_neq_self in Hnone. contradiction.
    + rewrite Hsent in Hone. injection Hone as -> _.
      apply Hfatal. exact Hneg.
  - intros self s0 Hrc. rewrite _invoke_run. cbn [fst].
    destruct (sbus_send E (mc_pipe_path self) (fds self) <? 0)%Z eqn:Hlt;
      [|reflexivity].
    apply Z.ltb_lt in Hlt. lia.
Qed.

(** [SBus.send] answers -1 for the sample invocation. *)
Lemma negative_send_result_is_fatal_witness :
  fst (communicate (Sample.env 0 (-1) true) sample_protocol
         (Sample.start None))
  = Raise send_failure
  ∧ awaits (trace (snd (communicate (Sample.env 0 (-1) true) sample_protocol
                          (Sample.start None))))
    = awaits (trace (Sample.start None)).
Proof.
  apply (proj1 (negative_send_result_is_fatal (Sample.env 0 (-1) true)
           "/srv/node/sdb/objects/1/abc/hash" "/pipes/bd34c4073b654/mc_pipe"
           "/log/bd34c4073b654/" sample_request_headers
           sample_file_headers ["a.mc"] sample_metadata 20
           (Sample.start None)
           [Some 8%nat; Some 6%nat; Some 4%nat; Some 3%nat] sample_set
           ltac:(vm_compute; reflexivity))).
  vm_compute. reflexivity.
Defined.

(** C6 as the specification states it fails: [SBus.send] answers 1, a
    non-zero result, and the invocation goes on to wait for the response,
    reads it and returns normally. *)
Lemma positive_send_result_not_fatal :
  fst (communicate (Sample.env 0 1 true) sample_protocol (Sample.start None))
  = Ret None
  ∧ awaits (trace (snd (communicate (Sample.env 0 1 true) sample_protocol
                          (Sample.start None))))
    = [EvRead 5 1024; EvSelect 5 20].
Proof. vm_compute. split; reflexivity. Qed.

(** * Waiting for the response: [_wait_for_read_with_timeout] *)

(** With no execution identifier, an expired wait raises [Timeout] and
    nothing but the [select] was done. *)
Lemma wait_without_task_id_times_out E self fd s :
  str_truthy (task_id self) = false →
  select_ready E fd (timeout self) = false →
  _wait_for_read_with_timeout E self (Some fd) s
  = (Raise (Timeout "Timeout while waiting for Micro-controller output"),
     set_trace (cons (EvSelect fd (timeout self))) s).
Proof.
  intros Hid Hsel. unfold _wait_for_read_with_timeout, bind, emit, modify.
  rewrite Hsel, Hid. reflexivity.
Qed.

(** With an execution identifier, an expired wait calls [_cancel], which
    the class does not define: the call ends with [AttributeError], and the
    only event is the [select]. *)
Lemma wait_with_task_id_fails_in_cancel E self fd s :
  str_truthy (task_id self) = true →
  select_ready E fd (timeout self) = false →
  _wait_for_read_with_timeout E self (Some fd) s
  = (Raise (AttributeError "_cancel"),
     set_trace (cons (EvSelect fd (timeout self))) s).
Proof.
  intros Hid Hsel.
  unfold _wait_for_read_with_timeout, _cancel, bind, emit, modify.
  rewrite Hsel, Hid. reflexivity.
Qed.

(** In an invocation driven by [communicate] the identifier is the [None]
    of [__init__]: when the set was sent and no response becomes ready, the
    call raises [Timeout]. *)
Lemma unanswered_invocation_times_out
    (E : environment) (file_path pipe_path logger_path : string)
    (req_headers file_headers : gmap string string) (chain : list string)
    (metadata : gmap string (gmap string string)) (timeout : Z) (s : state)
    (descriptors : list (option nat)) (set : list (gmap string mdval)) :
  sent_sets
    (trace (snd (communicate E
                   (MicroControllerInvocationProtocol_init
                      file_path pipe_path logger_path req_headers
                      file_headers chain metadata timeout) s)))
  = (descriptors, set) :: sent_sets (trace s) →
  (0 ≤ sbus_send E pipe_path descriptors)%Z →
  (∀ fd, select_ready E fd timeout = false) →
  fst (communicate E
         (MicroControllerInvocationProtocol_init
            file_path pipe_path logger_path req_headers
            file_headers chain metadata timeout) s)
  = Raise (Timeout "Timeout while waiting for Micro-controller output").
Proof.
  intros Hsent Hrc Hsel.
  destruct (communicate_walk E
              (MicroControllerInvocationProtocol_init
                 file_path pipe_path logger_path req_headers
                 file_headers chain metadata timeout) s)
    as [(e & _ & _ & Hnone & _)
       |(opened & self3 & s5 & rfd & Hrun & Hsent5 & _ & _ & _ & _ & Hrfd
         & Hid & Htime & _)]; try reflexivity.
  - rewrite Hsent in Hnone. symmetry in Hnone.
    apply cons_neq_self in Hnone. contradiction.
  - pose proof (collect_keeps_sent E self3 s5) as K5.
    rewrite Hrun in *. cbn [mc_pipe_path MicroControllerInvocationProtocol_init]
      in *.
    destruct (sbus_send E pipe_path (fds self3) <? 0)%Z eqn:Hneg.
    + cbn [snd] in Hsent. rewrite Hsent5 in Hsent. injection Hsent as <- _.
      apply Z.ltb_lt in Hneg. lia.
    + unfold collect, _read_response. rewrite Hrfd.
      cbn in Hid, Htime.
      rewrite (bind_raise_run _ _ _ _ _
                 (bind_raise_run _ _ _ _ _
                    (wait_without_task_id_times_out E self3 rfd s5
                       ltac:(rewrite Hid; reflexivity)
                       ltac:(rewrite Htime; apply Hsel)))).
      reflexivity.
Qed.



(** * Descriptors that stay open *)

Section ReadEnd.

Variable E : environment.

(** What follows the [try] statement closes the read end of the response
    pipe only when it returns: whenever it raises (the wait times out, the
    cancellation fails, the response does not parse), the read end is still
    open and no close of it happened. *)
Lemma collect_read_end rfd c ev self s :
  response_read_fd self = Some rfd →
  stays_open rfd c s → In ev (trace s) →
  In ev (trace (snd (collect E self s)))
  ∧ match fst (collect E self s) with
    | Ret _ =>
        (rfd ∉ open_fds (snd (collect E self s)))
        ∧ closes rfd (trace (snd (collect E self s))) = S c
    | Raise _ => stays_open rfd c (snd (collect E self s))
    end.
Proof.
  intros Hrfd [Hin Hc] Hev.
  unfold collect, _read_response, _wait_for_read_with_timeout, _cancel,
    os_read_1024, json_loads, os_close.
  rewrite Hrfd.
  unfold bind, get_state, modify, emit, ret, raise.
  destruct s as [tr nf ofd ds sb rh fp ml mm]; cbn in *.
  destruct (select_ready E rfd (timeout self)); cbn.
  - assert (Hclose : closes rfd (EvClose rfd :: EvRead rfd 1024
                                   :: EvSelect rfd (timeout self) :: tr) = S c).
    { unfold closes in *. cbn. rewrite Nat.eqb_refl. cbn. rewrite Hc.
      reflexivity. }
    assert (Hgone : rfd ∉ ofd ∖ {[rfd]}).
    { apply not_elem_of_difference. right. apply elem_of_singleton.
      reflexivity. }
    destruct (os_read E rfd =? "{}")%string; cbn.
    + rewrite bool_decide_eq_true_2 by exact Hin. cbn.
      split; [auto|]. split; [exact Hgone|exact Hclose].
    + destruct (json_valid E (os_read E rfd)); cbn.
      * rewrite bool_decide_eq_true_2 by exact Hin. cbn.
        split; [auto|]. split; [exact Hgone|exact Hclose].
      * split; [auto|]. split; [exact Hin|exact Hc].
  - destruct (str_truthy (task_id self)); cbn;
      (split; [auto|]; split; [exact Hin|exact Hc]).
Qed.

(** Whenever an invocation has sent its descriptor set, the read end of
    the response pipe is closed if and only if the call returns: on every
    path that raises after the send (send failure, timeout, unparsable
    response) it is left open. *)
Lemma response_read_end_closed_only_on_return
    (file_path pipe_path logger_path : string)
    (req_headers file_headers : gmap string string) (chain : list string)
    (metadata : gmap string (gmap string string)) (timeout : Z) (s : state)
    (descriptors : list (option nat)) (set : list (gmap string mdval)) :
  sent_sets
    (trace (snd (communicate E
                   (MicroControllerInvocationProtocol_init
                      file_path pipe_path logger_path req_headers
                      file_headers chain metadata timeout) s)))
  = (descriptors, set) :: sent_sets (trace s) →
  ∃ rfd,
    In (EvPipe rfd (S rfd))
       (trace (snd (communicate E
                      (MicroControllerInvocationProtocol_init
                         file_path pipe_path logger_path req_headers
                         file_headers chain metadata timeout) s)))
    ∧ match fst (communicate E
                   (MicroControllerInvocationProtocol_init
                      file_path pipe_path logger_path req_headers
                      file_headers chain metadata timeout) s) with
      | Ret _ =>
          (rfd ∉ open_fds
                   (snd (communicate E
                           (MicroControllerInvocationProtocol_init
                              file_path pipe_path logger_path req_headers
                              file_headers chain metadata timeout) s)))
          ∧ closes rfd
              (trace (snd (communicate E
                             (MicroControllerInvocationProtocol_init
                                file_path pipe_path logger_path req_headers
                                file_headers chain metadata timeout) s)))
            = S (closes rfd (trace s))
      | Raise _ =>
          stays_open rfd (closes rfd (trace s))
            (snd (communicate E
                    (MicroControllerInvocationProtocol_init
                       file_path pipe_path logger_path req_headers
                       file_headers chain metadata timeout) s))
      end.
Proof.
  intros Hsent.
  destruct (communicate_walk E
              (MicroControllerInvocationProtocol_init
                 file_path pipe_path logger_path req_headers
                 file_headers chain metadata timeout) s)
    as [(e & _ & _ & Hnone & _)
       |(opened & self3 & s5 & rfd & Hrun & _ & _ & _ & _ & _ & Hrfd & _ & _
         & Hstay & Hpipe)]; try reflexivity.
  - rewrite Hsent in Hnone. symmetry in Hnone.
    apply cons_neq_self in Hnone. contradiction.
  - exists rfd. rewrite Hrun.
    destruct (sbus_send E _ (fds self3) <? 0)%Z; cbn [fst snd].
    + split; assumption.
    + apply collect_read_end; assumption.
Qed.

End ReadEnd.



Definition failed_invocation : outcome (option string) * state :=
  communicate (Sample.env 0 (-1) true) sample_protocol (Sample.start None).

Definition completed_invocation : outcome (option string) * state :=
  communicate (Sample.env 0 0 true) sample_protocol (Sample.start None).


(** The same on the failure path of the send. *)
Lemma send_failure_leaves_response_read_end_open :
  fst failed_invocation = Raise send_failure
  ∧ closes 6 (trace (snd failed_invocation)) = 1%nat
  ∧ closes 5 (trace (snd failed_invocation)) = 0%nat
  ∧ bool_decide (5%nat ∈ open_fds (snd failed_invocation)) = true.
Proof. vm_compute. repeat split; reflexivity. Qed.

(** Only the path on which the response arrives closes the read end. *)
Lemma completion_closes_response_read_end :
  fst completed_invocation = Ret None
  ∧ closes 6 (trace (snd completed_invocation)) = 1%nat
  ∧ closes 5 (trace (snd completed_invocation)) = 1%nat
  ∧ bool_decide (5%nat ∈ open_fds (snd completed_invocation)) = false.
Proof. vm_compute. repeat split; reflexivity. Qed.

(** * Verifying the handlers and their dependencies *)

Section Verification.

Variable E : environment.
Variable self : VertigoGatewayDocker.

(** The answer of the store to the existence check of [name]. *)
Definition head_of (container name : string) : swift_response :=
  make_swift_request E "HEAD" (account self) container name.

Definition handler_exists (h : string) : bool :=
  status_ok (head_of (mc_container self) h).

Definition dependency_exists (d : string) : bool :=
  status_ok (head_of (mc_dependency self) d).

(** The headers of the handler object, which declare its entry point and
    its dependencies. *)
Definition headers_of (h : string) : gmap string string :=
  resp_headers (head_of (mc_container self) h).

Definition handler_not_found (h : string) : exn :=
  NameError ("MicroController - Micro-controller " +:+ h
             +:+ " not found in Swift").

Definition dependency_not_found (d : string) : exn :=
  NameError ("MicroController - Dependency " +:+ d +:+ " not found in Swift").

(** The error, if any, that the verification loop ends with: a function of
    the store alone. *)
Fixpoint check_dependencies (deps : list string) : option exn :=
  match deps with
  | [] => None
  | d :: r =>
      if dependency_exists d then check_dependencies r
      else Some (dependency_not_found d)
  end.

Definition check_handler (h : string) : option exn :=
  if handler_exists h then
    match headers_of h !! MC_MAIN_HEADER with
    | None => Some (KeyError MC_MAIN_HEADER)
    | Some _ =>
        match headers_of h !! MC_DEP_HEADER with
        | None => Some (KeyError MC_DEP_HEADER)
        | Some deps => check_dependencies (PyStr.split "," deps)
        end
    end
  else Some (handler_not_found h).

Fixpoint check_chain (chain : list string) : option exn :=
  match chain with
  | [] => None
  | h :: r =>
      match check_handler h with
      | Some e => Some e
      | None => check_chain r
      end
  end.

Definition outcome_of (err : option exn) : outcome unit :=
  match err with
  | None => Ret tt
  | Some e => Raise e
  end.

(** [self.mc_metadata] holds the headers of handler [h]. *)
Definition recorded (h : string) (s : state) : Prop :=
  mc_metadata s !! h = Some (headers_of h).

Lemma verify_access_run container name s :
  fst (verify_access E self container name s)
  = Ret (status_ok (head_of container name))
  ∧ (∀ k, recorded k s →
          recorded k (snd (verify_access E self container name s)))
  ∧ (container = mc_container self →
     status_ok (head_of container name) = true →
     recorded name (snd (verify_access E self container name s))).
Proof.
  unfold verify_access, swift_request, bind, emit, modify, ret.
  fold (head_of container name).
  destruct (status_ok (head_of container name)) eqn:Hok; cbn.
  - destruct (String.eqb container (mc_container self)) eqn:Hc; cbn.
    + apply String.eqb_eq in Hc. subst container.
      unfold recorded. cbn. repeat split.
      * intros k Hk. destruct (decide (name = k)) as [->|Hne].
        -- rewrite lookup_insert_eq. reflexivity.
        -- rewrite lookup_insert_ne by exact Hne. exact Hk.
      * intros _ _. rewrite lookup_insert_eq. reflexivity.
    + repeat split; [intros k Hk; exact Hk|].
      intros ->. rewrite String.eqb_refl in Hc. discriminate.
  - repeat split; [intros k Hk; exact Hk|]. discriminate.
Qed.

Lemma update_mc_cache_run container h obj s :
  recorded h s →
  fst (update_mc_cache E self container h obj s)
  = match headers_of h !! MC_MAIN_HEADER with
    | Some _ => Ret tt
    | None => Raise (KeyError MC_MAIN_HEADER)
    end.
Proof.
  intros Hrec.
  unfold update_mc_cache, swift_request, ensure_dir, write_file, getitem,
    bind, emit, modify, ret, raise, get_state.
  cbn. unfold recorded in Hrec. rewrite Hrec.
  destruct (headers_of h !! MC_MAIN_HEADER); cbn; [|reflexivity].
  destruct (bool_decide _); reflexivity.
Qed.

Lemma update_mc_cache_recorded container h obj k s :
  recorded k s → recorded k (snd (update_mc_cache E self container h obj s)).
Proof.
  unfold recorded.
  rewrite (update_mc_cache_keeps_mc_metadata E self container h obj s).
  auto.
Qed.

Lemma verify_dependency_run h d main s :
  recorded h s → headers_of h !! MC_MAIN_HEADER = Some main →
  fst (verify_dependency E self h d s)
  = (if dependency_exists d then Ret tt
     else Raise (dependency_not_found d))
  ∧ (∀ k, recorded k s →
          recorded k (snd (verify_dependency E self h d s))).
Proof.
  intros Hrec Hmain. unfold verify_dependency.
  destruct (verify_access_run (mc_dependency self) d s) as (Hfst & Hkeep & _).
  fold (dependency_exists d) in Hfst.
  destruct (verify_access E self (mc_dependency self) d s)
    as [[b|e] s1] eqn:R; cbn [fst snd] in *; [|discriminate].
  injection Hfst as ->.
  rewrite (bind_ret_run _ _ _ _ _ R).
  destruct (dependency_exists d).
  - split.
    + rewrite (update_mc_cache_run _ h d s1 (Hkeep h Hrec)), Hmain.
      reflexivity.
    + intros k Hk. apply update_mc_cache_recorded. auto.
  - split; [reflexivity|]. intros k Hk. apply Hkeep in Hk. exact Hk.
Qed.

Lemma dependency_loop_run h main deps s :
  recorded h s → headers_of h !! MC_MAIN_HEADER = Some main →
  fst (for_each deps (verify_dependency E self h) s)
  = outcome_of (check_dependencies deps)
  ∧ (∀ k, recorded k s →
          recorded k (snd (for_each deps (verify_dependency E self h) s))).
Proof.
  intros Hrec Hmain. revert s Hrec.
  induction deps as [|d deps IH]; intros s Hrec.
  - split; [reflexivity|auto].
  - cbn [for_each check_dependencies].
    destruct (verify_dependency_run h d main s Hrec Hmain) as (Hfst & Hkeep).
    destruct (verify_dependency E self h d s) as [[[]|e] s1] eqn:R;
      cbn [fst snd] in *.
    + rewrite (bind_ret_run _ _ _ _ _ R).
      destruct (dependency_exists d); [|discriminate].
      destruct (IH s1 (Hkeep h Hrec)) as (IH1 & IH2).
      split; [exact IH1|]. intros k Hk. auto.
    + rewrite (bind_raise_run _ _ _ _ _ R).
      destruct (dependency_exists d); [discriminate|].
      injection Hfst as ->. split; [reflexivity|]. exact Hkeep.
Qed.

Lemma verify_microcontroller_run h s :
  fst (verify_microcontroller E self h s) = outcome_of (check_handler h)
  ∧ (∀ k, recorded k s →
          recorded k (snd (verify_microcontroller E self h s)))
  ∧ (check_handler h = None →
     recorded h (snd (verify_microcontroller E self h s))).
Proof.
  unfold verify_microcontroller, check_handler.
  destruct (verify_access_run (mc_container self) h s) as (Hfst & Hkeep & Hnew).
  fold (handler_exists h) in Hfst, Hnew.
  destruct (verify_access E self (mc_container self) h s)
    as [[b|e] s1] eqn:R; cbn [fst snd] in *; [|discriminate].
  injection Hfst as ->.
  rewrite (bind_ret_run _ _ _ _ _ R).
  destruct (handler_exists h); [|repeat split; [exact Hkeep|discriminate]].
  specialize (Hnew eq_refl eq_refl).
  pose proof (update_mc_cache_run (mc_container self) h h s1 Hnew) as Hup.
  pose proof (fun k =>
                update_mc_cache_recorded (mc_container self) h h k s1) as Hupk.
  destruct (update_mc_cache E self (mc_container self) h h s1)
    as [[[]|e] s2] eqn:R2; cbn [fst snd] in *.
  2:{ rewrite (bind_raise_run _ _ _ _ _ R2). cbn [fst snd].
      destruct (headers_of h !! MC_MAIN_HEADER); [discriminate|].
      injection Hup as ->. repeat split; [auto|discriminate]. }
  rewrite (bind_ret_run _ _ _ _ _ R2).
  destruct (headers_of h !! MC_MAIN_HEADER) as [main|] eqn:Hmain;
    [|discriminate].
  assert (Hrec2 : recorded h s2) by auto.
  assert (Htail :
            (s0 <- get_state ;;
             md <- getitem (mc_metadata s0) h ;;
             deps <- getitem md MC_DEP_HEADER ;;
             for_each (PyStr.split "," deps) (verify_dependency E self h)) s2
            = match headers_of h !! MC_DEP_HEADER with
              | Some deps =>
                  for_each (PyStr.split "," deps)
                    (verify_dependency E self h) s2
              | None => (Raise (KeyError MC_DEP_HEADER), s2)
              end).
  { unfold bind, get_state, getitem. unfold recorded in Hrec2.
    rewrite Hrec2. cbn.
    destruct (headers_of h !! MC_DEP_HEADER); reflexivity. }
  rewrite Htail. clear Htail.
  destruct (headers_of h !! MC_DEP_HEADER) as [deps|] eqn:Hdeps.
  2:{ cbn. repeat split; [auto|discriminate]. }
  destruct (dependency_loop_run h main (PyStr.split "," deps) s2 Hrec2 Hmain)
    as (Hloop & Hloopk).
  repeat split; auto.
Qed.

Lemma verify_loop_run chain s :
  fst (for_each chain (verify_microcontroller E self) s)
  = outcome_of (check_chain chain)
  ∧ (∀ k, recorded k s →
          recorded k (snd (for_each chain (verify_microcontroller E self) s)))
  ∧ (check_chain chain = None →
     ∀ h, h ∈ chain →
          recorded h (snd (for_each chain (verify_microcontroller E self) s))).
Proof.
  revert s. induction chain as [|h chain IH]; intros s.
  - repeat split; auto. intros _ h Hh. inversion Hh.
  - cbn [for_each check_chain].
    destruct (verify_microcontroller_run h s) as (Hfst & Hkeep & Hnew).
    destruct (verify_microcontroller E self h s) as [[[]|e] s1] eqn:R;
      cbn [fst snd] in *.
    + rewrite (bind_ret_run _ _ _ _ _ R).
      destruct (check_handler h); [discriminate|].
      destruct (IH s1) as (IH1 & IH2 & IH3).
      repeat split; auto.
      intros Hnone k Hk. apply elem_of_cons in Hk as [->|Hk]; auto.
    + rewrite (bind_raise_run _ _ _ _ _ R).
      destruct (check_handler h); [|discriminate].
      injection Hfst as ->. repeat split; auto. discriminate.
Qed.

(** ** The whole of [execute_microcontrollers] *)

Lemma run_ret {A} (m : M A) a s :
  fst (m s) = Ret a → m s = (Ret a, snd (m s)).
Proof. destruct (m s) as [r s']. cbn. intros ->. reflexivity. Qed.

Lemma start_internal_client_daemon_ok s :
  fst (start_internal_client_daemon E self s) = Ret tt.
Proof.
  unfold start_internal_client_daemon, time_sleep, bind, logger_info, emit,
    modify. cbn.
  destruct (negb (ps_output E =? "")%string); cbn; [reflexivity|].
  destruct (internal_client_rc E =? 0)%Z; reflexivity.
Qed.

Lemma daemon_keeps_mc_list :
  keeps mc_list (start_internal_client_daemon E self).
Proof. keeps_method. Qed.

Lemma container_keeps_mc_list : keeps mc_list (start_container E self).
Proof. keeps_method. Qed.

(** The verification phase ends as [check_chain] says. *)
Lemma verify_and_update_cache_run chain s :
  mc_list s = Some chain →
  fst (verify_and_update_cache E self s) = outcome_of (check_chain chain)
  ∧ (check_chain chain = None →
     ∀ h, h ∈ chain →
          recorded h (snd (verify_and_update_cache E self s))).
Proof.
  intros Hlist. unfold verify_and_update_cache.
  rewrite (bind_ret_run _ _ tt s _
             (run_ret _ _ _ (start_internal_client_daemon_ok s))).
  set (s1 := snd (start_internal_client_daemon E self s)).
  assert (Hl1 : mc_list s1 = Some chain)
    by (unfold s1; rewrite daemon_keeps_mc_list; exact Hlist).
  rewrite (bind_ret_run _ _ tt s1 _
             (run_ret _ _ _ (proj1 (start_container_run E self s1)))).
  set (s2 := snd (start_container E self s1)).
  assert (Hl2 : mc_list s2 = Some chain)
    by (unfold s2; rewrite container_keeps_mc_list; exact Hl1).
  assert (Hrun :
            (modify (set_file_path
                       (head (PyStr.rsplit "/" 1
                                (app_iter_data_file (orig_resp self))))) ;;
             mcs <- iter_mc_list ;;
             for_each mcs (verify_microcontroller E self)) s2
            = for_each chain (verify_microcontroller E self)
                (set_file_path
                   (head (PyStr.rsplit "/" 1
                            (app_iter_data_file (orig_resp self)))) s2)).
  { unfold bind, modify, iter_mc_list, get_state. cbn. rewrite Hl2.
    reflexivity. }
  rewrite Hrun. clear Hrun.
  destruct (verify_loop_run chain
              (set_file_path
                 (head (PyStr.rsplit "/" 1
                          (app_iter_data_file (orig_resp self)))) s2))
    as (H1 & _ & H3).
  split; assumption.
Qed.

Lemma build_protocol_run chain s :
  mc_list s = Some chain →
  build_protocol self s
  = (Ret (MicroControllerInvocationProtocol_init
            (default "" (file_path s))
            (pipes_dir (conf self) +:+ "/" +:+ scope self +:+ "/"
             +:+ mc_pipe (conf self))
            (log_dir (conf self) +:+ "/" +:+ scope self +:+ "/")
            (<["X-Current-Server" := current_server self]> (req_headers s))
            (headers (orig_resp self)) chain (mc_metadata s)
            (mc_timeout self)),
     set_req_headers (insert "X-Current-Server" (current_server self))
       (set_trace
          (cons (EvLog "info" ("Vertigo - Object path: "
                               +:+ default "" (file_path s)))) s)).
Proof.
  intros Hlist. unfold build_protocol, iter_mc_list, bind, get_state,
    logger_info, emit, modify. cbn. rewrite Hlist. reflexivity.
Qed.

Lemma build_protocol_raise s :
  mc_list s = None →
  ∃ e s', build_protocol self s = (Raise e, s').
Proof.
  intros Hlist. unfold build_protocol, iter_mc_list, bind, get_state,
    logger_info, emit, modify. cbn. rewrite Hlist. eauto.
Qed.

Lemma execute_microcontrollers_run s :
  execute_microcontrollers E self s
  = match verify_and_update_cache E self s with
    | (Ret _, s1) =>
        (protocol <- build_protocol self ;; communicate E protocol) s1
    | (Raise e, s1) => (Raise e, s1)
    end.
Proof. reflexivity. Qed.

(** ** What [check_chain] answers *)


(** A handler that exists with both handler headers and whose declared
    dependencies all exist. *)
Definition resolved_handler (h : string) : Prop :=
  handler_exists h = true
  ∧ ∃ main deps, headers_of h !! MC_MAIN_HEADER = Some main
                 ∧ headers_of h !! MC_DEP_HEADER = Some deps
                 ∧ ∀ d, d ∈ PyStr.split "," deps → dependency_exists d = true.



Lemma check_dependencies_none deps :
  (∀ d, d ∈ deps → dependency_exists d = true) →
  check_dependencies deps = None.
Proof.
  induction deps as [|d deps IH]; intros Hall; [reflexivity|].
  cbn. rewrite (Hall d) by (apply elem_of_cons; auto).
  apply IH. intros d' Hd'. apply Hall. apply elem_of_cons. auto.
Qed.





Lemma check_handler_resolved h :
  resolved_handler h → check_handler h = None.
Proof.
  intros (Hex & main & deps & Hmain & Hdeps & Hall).
  unfold check_handler. rewrite Hex, Hmain, Hdeps.
  apply check_dependencies_none. exact Hall.
Qed.



Lemma check_chain_resolved chain :
  (∀ h, h ∈ chain → resolved_handler h) → check_chain chain = None.
Proof.
  induction chain as [|h chain IH]; intros Hall; [reflexivity|].
  cbn. rewrite check_handler_resolved by (apply Hall, elem_of_cons; auto).
  apply IH. intros h' Hh'. apply Hall, elem_of_cons. auto.
Qed.

End Verification.

(** * Chains with a missing handler or dependency *)




(** * After the verification *)

Section AfterVerification.

Variable E : environment.
Variable self : VertigoGatewayDocker.



End AfterVerification.

(** * The request object after the call *)




(** * One descriptor set, in the order of the chain *)

Section ChainOrder.

Variable E : environment.
Variable self : VertigoGatewayDocker.

(** A descriptor set whose logger and metadata descriptors are attributed
    to the handlers of [chain], in that order. *)
Definition in_chain_order (chain : list string)
    (set : list (gmap string mdval)) : Prop :=
  tagged_handlers SBUS_FD_LOGGER set = chain
  ∧ tagged_handlers SBUS_FD_OUTPUT_OBJECT_METADATA set = chain.

(** What a call sent: nothing, or one set in the order of the chain. *)
Definition sent_by_call (chain : list string) (s s' : state) : Prop :=
  sent_sets (trace s') = sent_sets (trace s)
  ∨ ∃ descriptors set,
      sent_sets (trace s') = (descriptors, set) :: sent_sets (trace s)
      ∧ in_chain_order chain set.

Lemma communicate_in_chain_order fp pipe log rq fl chain md t s :
  sent_by_call chain s
    (snd (communicate E
            (MicroControllerInvocationProtocol_init fp pipe log rq fl
               chain md t) s)).
Proof.
  destruct (communicate_run E
              (MicroControllerInvocationProtocol_init fp pipe log rq fl
                 chain md t) s)
    as [(e & _ & _ & Hnone & _)|(mcs & ds & Hone & Hnames & _)];
    try reflexivity.
  - left. exact Hnone.
  - right. exists ds, (descriptor_metadata rq fl mcs).
    split; [exact Hone|].
    destruct (descriptor_metadata_content rq fl mcs)
      as (_ & _ & C3 & C4 & _).
    cbn in Hnames. unfold in_chain_order. rewrite C3, C4. auto.
Qed.

Lemma communicate_sends_when_possible fp pipe log rq fl chain md t s :
  (∀ h, h ∈ chain →
        ∃ hs, md !! h = Some hs ∧ is_Some (hs !! MC_MAIN_HEADER)
              ∧ is_Some (hs !! MC_DEP_HEADER)) →
  (∀ path, can_open E path = true) →
  ∃ descriptors set,
    sent_sets (trace (snd (communicate E
                             (MicroControllerInvocationProtocol_init
                                fp pipe log rq fl chain md t) s)))
    = (descriptors, set) :: sent_sets (trace s)
    ∧ in_chain_order chain set.
Proof.
  intros Hmd Hopen.
  destruct (communicate_in_chain_order fp pipe log rq fl chain md t s)
    as [Hnone|Hone]; [|exact Hone].
  exfalso.
  destruct (communicate_run E
              (MicroControllerInvocationProtocol_init fp pipe log rq fl
                 chain md t) s)
    as [(e & _ & Hearly & _)|(mcs & ds & Hone & _)]; try reflexivity.
  - destruct Hearly as [(n & Hn & Hcase)|(path & _ & Hpath)].
    + cbn in Hn, Hcase. destruct (Hmd n Hn) as (hs & Hhs & [m Hm] & [d Hd]).
      destruct Hcase as [[Hno _]|(h & Hh & [[Hno _]|[Hno _]])]; congruence.
    + rewrite Hopen in Hpath. discriminate.
  - rewrite Hnone in Hone. apply cons_neq_self in Hone. contradiction.
Qed.

End ChainOrder.


(** In the sample store [a.mc] exists with both headers and its only
    dependency [lib.jar] exists. *)
Lemma sample_handler_resolved E_launch E_rc E_ready :
  ∀ h, h ∈ ["a.mc"] →
       resolved_handler (Sample.env E_launch E_rc E_ready) Sample.gw h.
Proof.
  intros h Hh. apply list_elem_of_singleton in Hh as ->.
  split; [reflexivity|].
  exists "com.A", "lib.jar". repeat split; try reflexivity.
  intros d Hd. change (PyStr.split "," "lib.jar") with ["lib.jar"] in Hd.
  apply list_elem_of_singleton in Hd as ->. reflexivity.
Qed.




(** * More of base.py: what the trigger headers parse to *)

Section TriggerParsing.

Import VertigoBaseHandler.

Lemma contains_some {V} (d : gmap string V) k v :
  d !! k = Some v → contains d k = true.
Proof. intros H. apply bool_decide_eq_true. eauto. Qed.

Lemma contains_none {V} (d : gmap string V) k :
  d !! k = None → contains d k = false.
Proof.
  intros H. apply bool_decide_eq_false. rewrite H. intros [v Hv]. discriminate.
Qed.

(** The record keys that the four assignment headers stand for. *)
Definition trigger_keys : list string :=
  ["onget"; "ondelete"; "onput"; "ontimer"].

(** With one header in the filtered list, the parsers reach the split of
    its name. *)
Lemma assignation_single s h v :
  present_headers available_assignation_headers (req_headers s) = [h] →
  req_headers s !! h = Some v →
  get_mc_assignation_data s
  = (match PyStr.rsplit "-" 1 h !! 1%nat with
     | Some t => Ret (PyStr.lower t, v)
     | None => Raise IndexError
     end, s).
Proof.
  intros Hp Hv. unfold get_mc_assignation_data, bind, get_state.
  rewrite Hp. unfold index, getitem.
  change (([h] : list string) !! 0%nat) with (Some h).
  change (1 <? length [h])%nat with false. cbv iota. unfold ret at 1.
  rewrite Hv. unfold ret at 1. unfold ret at 1.
  destruct (PyStr.rsplit "-" 1 h !! 1%nat); reflexivity.
Qed.

Lemma deletion_single s h v :
  present_headers available_deletion_headers (req_headers s) = [h] →
  req_headers s !! h = Some v →
  get_mc_deletion_data s
  = (match PyStr.rsplit "-" 2 h !! 1%nat with
     | Some t => Ret (PyStr.lower t, v)
     | None => Raise IndexError
     end, s).
Proof.
  intros Hp Hv. unfold get_mc_deletion_data, bind, get_state.
  rewrite Hp. unfold index, getitem.
  change (([h] : list string) !! 0%nat) with (Some h).
  change (1 <? length [h])%nat with false. cbv iota. unfold ret at 1.
  rewrite Hv. unfold ret at 1. unfold ret at 1.
  destruct (PyStr.rsplit "-" 2 h !! 1%nat); reflexivity.
Qed.

(** When [h] is the only header of [available] that the request carries,
    the filtered list is [[h]]. *)
Lemma present_headers_single (available : list string)
    (hs : gmap string string) h v :
  NoDup available → h ∈ available → hs !! h = Some v →
  (∀ h', h' ∈ available → h' ≠ h → hs !! h' = None) →
  present_headers available hs = [h].
Proof.
  unfold present_headers. intros Hnd Hin Hv Hothers.
  induction available as [|a l IH]; [inversion Hin|].
  apply NoDup_cons in Hnd as [Ha Hnd]. cbn [List.filter].
  destruct (decide (a = h)) as [->|Hne].
  - rewrite (contains_some _ _ _ Hv). f_equal.
    clear IH Hin. induction l as [|b l IHl]; [reflexivity|].
    cbn [List.filter].
    rewrite contains_none.
    + apply IHl.
      * intros Hh. apply Ha. apply elem_of_cons. auto.
      * apply NoDup_cons in Hnd as [_ Hnd]. exact Hnd.
      * intros h' Hh' Hne'. apply Hothers; [|exact Hne'].
        apply elem_of_cons in Hh' as [->|Hh'];
          apply elem_of_cons; [auto|].
        right. apply elem_of_cons. auto.
    + apply Hothers; [apply elem_of_cons; right; apply elem_of_cons; auto|].
      intros ->. apply Ha. apply elem_of_cons. auto.
  - rewrite contains_none
      by (apply Hothers; [apply elem_of_cons; auto|exact Hne]).
    apply elem_of_cons in Hin as [Heq|Hin]; [congruence|].
    apply IH; [exact Hnd|exact Hin|].
    intros h' Hh' Hne'. apply Hothers; [apply elem_of_cons; auto|exact Hne'].
Qed.

Lemma assignation_headers_nodup : NoDup available_assignation_headers.
Proof. apply (bool_decide_unpack _). vm_compute. exact I. Qed.

Lemma deletion_headers_nodup : NoDup available_deletion_headers.
Proof. apply (bool_decide_unpack _). vm_compute. exact I. Qed.

(** X1.  A request that carries exactly one recognised assignment header
    [h], with value [v], parses to the pair of the trigger and [v]: the
    trigger is the lower-cased last segment of [h], one of the four keys of
    the trigger record, and the state is untouched. *)
Theorem single_assignment_header_parsed (s : state) (h v : string) :
  h ∈ available_assignation_headers →
  req_headers s !! h = Some v →
  (∀ h', h' ∈ available_assignation_headers → h' ≠ h →
         req_headers s !! h' = None) →
  ∃ trigger,
    get_mc_assignation_data s = (Ret (trigger, v), s)
    ∧ trigger ∈ trigger_keys
    ∧ DEFAULT_MD_STRING !! trigger = Some "None"
    ∧ PyStr.lower h = "x-vertigo-" +:+ trigger.
Proof.
  intros Hin Hv Hothers.
  rewrite (assignation_single s h v
             (present_headers_single _ _ h v assignation_headers_nodup
                Hin Hv Hothers) Hv).
  unfold available_assignation_headers, trigger_keys in *.
  repeat (apply elem_of_cons in Hin as [->|Hin]); [| | | |inversion Hin].
  - exists "onget". repeat split; try reflexivity.
    apply elem_of_cons. auto.
  - exists "ondelete". repeat split; try reflexivity.
    do 1 (apply elem_of_cons; right). apply elem_of_cons. auto.
  - exists "onput". repeat split; try reflexivity.
    do 2 (apply elem_of_cons; right). apply elem_of_cons. auto.
  - exists "ontimer". repeat split; try reflexivity.
    do 3 (apply elem_of_cons; right). apply elem_of_cons. auto.
Qed.

(** X3.  A request that carries exactly one recognised deletion header
    parses to the trigger named in the header; the catch-all header
    [X-Vertigo-Delete] parses to ["vertigo"], which is no key of the trigger
    record. *)
Theorem single_deletion_header_parsed (s : state) (h v : string) :
  h ∈ available_deletion_headers →
  req_headers s !! h = Some v →
  (∀ h', h' ∈ available_deletion_headers → h' ≠ h →
         req_headers s !! h' = None) →
  ∃ trigger,
    get_mc_deletion_data s = (Ret (trigger, v), s)
    ∧ (h = "X-Vertigo-Delete" ∧ trigger = "vertigo"
       ∧ DEFAULT_MD_STRING !! trigger = None
       ∨ h ≠ "X-Vertigo-Delete" ∧ trigger ∈ trigger_keys
         ∧ PyStr.lower h = "x-vertigo-" +:+ trigger +:+ "-delete").
Proof.
  intros Hin Hv Hothers.
  rewrite (deletion_single s h v
             (present_headers_single _ _ h v deletion_headers_nodup
                Hin Hv Hothers) Hv).
  unfold available_deletion_headers, trigger_keys in *.
  repeat (apply elem_of_cons in Hin as [->|Hin]); [| | | | |inversion Hin].
  - exists "onget". split; [reflexivity|]. right.
    repeat split; try reflexivity; try discriminate.
    apply elem_of_cons. auto.
  - exists "ondelete". split; [reflexivity|]. right.
    repeat split; try reflexivity; try discriminate.
    do 1 (apply elem_of_cons; right). apply elem_of_cons. auto.
  - exists "onput". split; [reflexivity|]. right.
    repeat split; try reflexivity; try discriminate.
    do 2 (apply elem_of_cons; right). apply elem_of_cons. auto.
  - exists "ontimer". split; [reflexivity|]. right.
    repeat split; try reflexivity; try discriminate.
    do 3 (apply elem_of_cons; right). apply elem_of_cons. auto.
  - exists "vertigo". split; [reflexivity|]. left.
    repeat split; reflexivity.
Qed.

Lemma filter_nil_existsb {A} (p : A → bool) (l : list A) :
  existsb p l = false ↔ List.filter p l = [].
Proof.
  induction l as [|a l IH]; cbn; [tauto|].
  destruct (p a); cbn; [split; discriminate|exact IH].
Qed.

(** Every recognised header has a second segment to take the trigger
    from. *)
Lemma assignation_header_splits h :
  h ∈ available_assignation_headers →
  is_Some (PyStr.rsplit "-" 1 h !! 1%nat).
Proof.
  unfold available_assignation_headers. intros Hin.
  repeat (apply elem_of_cons in Hin as [->|Hin]); [| | | |inversion Hin];
    vm_compute; eauto.
Qed.

Lemma deletion_header_splits h :
  h ∈ available_deletion_headers →
  is_Some (PyStr.rsplit "-" 2 h !! 1%nat).
Proof.
  unfold available_deletion_headers. intros Hin.
  repeat (apply elem_of_cons in Hin as [->|Hin]); [| | | | |inversion Hin];
    vm_compute; eauto.
Qed.

Lemma filter_singleton_elem (p : string → bool) (l : list string) h :
  List.filter p l = [h] → h ∈ l ∧ p h = true.
Proof.
  intros Hf.
  assert (Hin : In h (List.filter p l)) by (rewrite Hf; left; reflexivity).
  apply List.filter_In in Hin as [Hin Hp].
  split; [apply list_elem_of_In; exact Hin|exact Hp].
Qed.

(** X2.  The guards [is_trigger_assignation] and [is_trigger_deletion] are
    false exactly when the parsers fail with [IndexError]: without any
    recognised header, [get_mc_assignation_data] and [get_mc_deletion_data]
    index an empty list. *)
Theorem no_trigger_header_index_error (s : state) :
  (is_trigger_assignation s = false
   ↔ get_mc_assignation_data s = (Raise IndexError, s))
  ∧ (is_trigger_deletion s = false
     ↔ get_mc_deletion_data s = (Raise IndexError, s)).
Proof.
  split; split.
  - intros Hno. apply filter_nil_existsb in Hno.
    unfold get_mc_assignation_data, bind, get_state, present_headers.
    rewrite Hno. reflexivity.
  - intros Hrun. apply filter_nil_existsb.
    destruct (List.filter (contains (req_headers s))
                available_assignation_headers) as [|h [|h' l]] eqn:Hf;
      [reflexivity| |].
    + exfalso. destruct (filter_singleton_elem _ _ _ Hf) as [Hin Hc].
      apply bool_decide_eq_true in Hc as [v Hv].
      rewrite (assignation_single s h v Hf Hv) in Hrun.
      destruct (assignation_header_splits h Hin) as [t Ht].
      rewrite Ht in Hrun. discriminate.
    + exfalso. unfold get_mc_assignation_data, bind, get_state,
        present_headers in Hrun. rewrite Hf in Hrun. discriminate.
  - intros Hno. apply filter_nil_existsb in Hno.
    unfold get_mc_deletion_data, bind, get_state, present_headers.
    rewrite Hno. reflexivity.
  - intros Hrun. apply filter_nil_existsb.
    destruct (List.filter (contains (req_headers s))
                available_deletion_headers) as [|h [|h' l]] eqn:Hf;
      [reflexivity| |].
    + exfalso. destruct (filter_singleton_elem _ _ _ Hf) as [Hin Hc].
      apply bool_decide_eq_true in Hc as [v Hv].
      rewrite (deletion_single s h v Hf Hv) in Hrun.
      destruct (deletion_header_splits h Hin) as [t Ht].
      rewrite Ht in Hrun. discriminate.
    + exfalso. unfold get_mc_deletion_data, bind, get_state,
        present_headers in Hrun. rewrite Hf in Hrun. discriminate.
Qed.

End TriggerParsing.

(** A request that assigns the on-put trigger, and one that carries only
    the catch-all deletion header. *)
Definition one_assignment : state :=
  State [] 3 ∅ ∅ []
    (<["X-Vertigo-Onput" := "a.mc,b.mc"]> (<["X-Auth-Token" := "t"]> ∅))
    None None ∅.

Definition catch_all_deletion : state :=
  State [] 3 ∅ ∅ []
    (<["X-Vertigo-Delete" := "all"]> (<["X-Auth-Token" := "t"]> ∅))
    None None ∅.

Lemma single_assignment_header_parsed_witness :
  ∃ trigger,
    VertigoBaseHandler.get_mc_assignation_data one_assignment
    = (Ret (trigger, "a.mc,b.mc"), one_assignment)
    ∧ trigger ∈ trigger_keys
    ∧ DEFAULT_MD_STRING !! trigger = Some "None"
    ∧ PyStr.lower "X-Vertigo-Onput" = "x-vertigo-" +:+ trigger.
Proof.
  apply (single_assignment_header_parsed one_assignment "X-Vertigo-Onput").
  - unfold VertigoBaseHandler.available_assignation_headers.
    do 2 (apply elem_of_cons; right). apply elem_of_cons. auto.
  - reflexivity.
  - unfold VertigoBaseHandler.available_assignation_headers.
    intros h' Hin Hne.
    repeat (apply elem_of_cons in Hin as [->|Hin]);
      [| | | |inversion Hin]; try reflexivity. congruence.
Defined.

Lemma single_deletion_header_parsed_witness :
  ∃ trigger,
    VertigoBaseHandler.get_mc_deletion_data catch_all_deletion
    = (Ret (trigger, "all"), catch_all_deletion)
    ∧ ("X-Vertigo-Delete" = "X-Vertigo-Delete" ∧ trigger = "vertigo"
       ∧ DEFAULT_MD_STRING !! trigger = None
       ∨ "X-Vertigo-Delete" ≠ "X-Vertigo-Delete" ∧ trigger ∈ trigger_keys
         ∧ PyStr.lower "X-Vertigo-Delete"
           = "x-vertigo-" +:+ trigger +:+ "-delete").
Proof.
  apply (single_deletion_header_parsed catch_all_deletion "X-Vertigo-Delete").
  - unfold VertigoBaseHandler.available_deletion_headers.
    do 4 (apply elem_of_cons; right). apply elem_of_cons. auto.
  - reflexivity.
  - unfold VertigoBaseHandler.available_deletion_headers.
    intros h' Hin Hne.
    repeat (apply elem_of_cons in Hin as [->|Hin]);
      [| | | | |inversion Hin]; try reflexivity. congruence.
Defined.

(** * Assigning a trigger: [set_microcontroller] *)

(** The metadata side of the world: the module-level dictionary
    [DEFAULT_MD_STRING], which is one shared object, the trigger record
    attached to each object file (the file behind [app_iter._fp] is
    identified by a number), and the events of the call. *)
Record md_world := MdWorld {
  default_md : gmap string string;
  object_md : gmap nat (gmap string string);
  md_trace : list event
}.

(** Modelled from the spec: [cc.read_metadata] of [vertigo_common], which is
    not among the sources.  It returns the trigger mapping attached to the
    object, or nothing when none exists. *)
Definition cc_read_metadata (fd : nat) (w : md_world)
    : option (gmap string string) :=
  object_md w !! fd.

(** Modelled from the spec: [cc.write_metadata] of [vertigo_common], which
    is not among the sources.  It persists the full mapping on the object;
    what is stored is the content of the dictionary at that moment. *)
Definition cc_write_metadata (fd : nat) (d : gmap string string)
    (w : md_world) : md_world :=
  MdWorld (default_md w) (<[fd := d]> (object_md w)) (md_trace w).

(** What the variable [object_mc_md] refers to: the dictionary that was
    read, or the module-level default itself. *)
Inductive dict_ref :=
| ReadDict (d : gmap string string)
| DefaultDict.

(** [object_mc_md = cc.read_metadata(fd)], then
    [if not object_mc_md: object_mc_md = DEFAULT_MD_STRING]. *)
Definition read_or_default (fd : nat) (w : md_world) : dict_ref :=
  match cc_read_metadata fd w with
  | Some d => if bool_decide (d = ∅) then DefaultDict else ReadDict d
  | None => DefaultDict
  end.

(** [object_mc_md[k] = v]: an assignment through the reference. *)
Definition ref_setitem (r : dict_ref) (k v : string) (w : md_world)
    : dict_ref * md_world :=
  match r with
  | ReadDict d => (ReadDict (<[k := v]> d), w)
  | DefaultDict =>
      (DefaultDict, MdWorld (<[k := v]> (default_md w)) (object_md w)
                            (md_trace w))
  end.

(** The content of the dictionary behind a reference. *)
Definition deref (r : dict_ref) (w : md_world) : gmap string string :=
  match r with
  | ReadDict d => d
  | DefaultDict => default_md w
  end.

Definition md_emit (e : event) (w : md_world) : md_world :=
  MdWorld (default_md w) (object_md w) (e :: md_trace w).

(** [set_microcontroller(self, trigger, mc)].  [get_resp] is the response to
    the GET that locates the object, [body] is [self.req.body]. *)
Definition set_microcontroller (get_resp : response) (body : string)
    (trigger mc : string) (w : md_world) : outcome unit * md_world :=
  match PyStr.rsplit "-" 1 trigger !! 1%nat with
  | None => (Raise IndexError, w)
  | Some t =>
      let trigger := PyStr.lower t in
      let fd := app_iter_fp get_resp in
      let object_mc_md := read_or_default fd w in
      let '(object_mc_md, w) := ref_setitem object_mc_md trigger mc w in
      let w := cc_write_metadata fd (deref object_mc_md w) w in
      let file_path :=
        default "" (head (PyStr.rsplit "/" 1 (app_iter_data_file get_resp))) in
      let w := md_emit (EvLog "info" ("Vertigo - File path: " +:+ file_path)) w in
      let metadata_target_path :=
        PyStr.path_join file_path (stem mc +:+ ".md") in
      let w := md_emit (EvWrite metadata_target_path body) w in
      let w := md_emit (EvLog "info" ("Vertigo - File path: " +:+ file_path)) w in
      (Ret tt, w)
  end.

(** The environment in which [cc.read_metadata] reads the records of
    [w]. *)
Definition env_with_metadata (E : environment) (w : md_world) : environment :=
  Environment (make_swift_request E) (fun fd => cc_read_metadata fd w)
    (ps_output E) (internal_client_rc E) (docker_launch_rc E) (can_open E)
    (sbus_send E) (select_ready E) (os_read E) (json_valid E).

Section SetMicrocontroller.

Variables (get_resp : response) (body : string).

(** The dictionary that the assignment goes into: the record of the object
    when it has a non-empty one, otherwise the module default. *)
Definition assignment_base (w : md_world) : gmap string string :=
  deref (read_or_default (app_iter_fp get_resp) w) w.

Definition has_record (w : md_world) : bool :=
  match read_or_default (app_iter_fp get_resp) w with
  | ReadDict _ => true
  | DefaultDict => false
  end.

(** A call with a well-formed header name, step by step. *)
Lemma set_microcontroller_run header mc t w :
  PyStr.rsplit "-" 1 header !! 1%nat = Some t →
  fst (set_microcontroller get_resp body header mc w) = Ret tt
  ∧ object_md (snd (set_microcontroller get_resp body header mc w))
    = <[app_iter_fp get_resp := <[PyStr.lower t := mc]> (assignment_base w)]>
        (object_md w)
  ∧ default_md (snd (set_microcontroller get_resp body header mc w))
    = (if has_record w then default_md w
       else <[PyStr.lower t := mc]> (default_md w)).
Proof.
  intros Ht. unfold set_microcontroller, assignment_base, has_record.
  rewrite Ht.
  destruct (read_or_default (app_iter_fp get_resp) w) as [d|];
    cbn; repeat split; reflexivity.
Qed.

Lemma has_record_spec w :
  has_record w = true
  ↔ ∃ r, object_md w !! app_iter_fp get_resp = Some r ∧ r ≠ ∅.
Proof.
  unfold has_record, read_or_default, cc_read_metadata.
  destruct (object_md w !! app_iter_fp get_resp) as [d|].
  - case_bool_decide as Hd.
    + split; [discriminate|]. intros (r & [= <-] & Hr). contradiction.
    + split; [eauto|reflexivity].
  - split; [discriminate|]. intros (r & Hr & _). discriminate.
Qed.

(** X6.  On an object that carries a non-empty trigger record, assigning a
    trigger changes that key of the record only: the other triggers of the
    object, the records of other objects and the module default are as
    before. *)
Theorem assignment_keeps_other_triggers
    (header mc t : string) (r : gmap string string) (w : md_world) :
  PyStr.rsplit "-" 1 header !! 1%nat = Some t →
  object_md w !! app_iter_fp get_resp = Some r → r ≠ ∅ →
  fst (set_microcontroller get_resp body header mc w) = Ret tt
  ∧ (∃ r',
        object_md (snd (set_microcontroller get_resp body header mc w))
          !! app_iter_fp get_resp = Some r'
        ∧ r' !! PyStr.lower t = Some mc
        ∧ ∀ k, k ≠ PyStr.lower t → r' !! k = r !! k)
  ∧ (∀ fd, fd ≠ app_iter_fp get_resp →
           object_md (snd (set_microcontroller get_resp body header mc w))
             !! fd = object_md w !! fd)
  ∧ default_md (snd (set_microcontroller get_resp body header mc w))
    = default_md w.
Proof.
  intros Ht Hr Hne.
  destruct (set_microcontroller_run header mc t w Ht) as (Hfst & Hobj & Hdef).
  assert (Hhas : has_record w = true) by (apply has_record_spec; eauto).
  assert (Hbase : assignment_base w = r).
  { unfold assignment_base, read_or_default, cc_read_metadata.
    rewrite Hr. rewrite bool_decide_eq_false_2 by exact Hne. reflexivity. }
  rewrite Hobj, Hdef, Hhas, Hbase.
  split; [exact Hfst|]. split; [|split; [|reflexivity]].
  - exists (<[PyStr.lower t := mc]> r). rewrite lookup_insert_eq.
    split; [reflexivity|]. split; [apply lookup_insert_eq|].
    intros k Hk. apply lookup_insert_ne. congruence.
  - intros fd Hfd. apply lookup_insert_ne. congruence.
Qed.

End SetMicrocontroller.

Lemma get_microcontrollers_run E self s md v :
  read_metadata E (app_iter_fp (orig_resp self)) = Some md →
  md !! ("on" +:+ PyStr.lower (REQUEST_METHOD (orig_resp self))) = Some v →
  get_microcontrollers E self s
  = (Ret true, set_mc_list (Some (PyStr.split "," v)) s).
Proof.
  intros Hmd Hv. unfold get_microcontrollers. rewrite Hmd.
  assert (md_truthy (Some md) = true) as ->.
  { unfold md_truthy. apply negb_true_iff, bool_decide_eq_false.
    intros ->. rewrite lookup_empty in Hv. discriminate. }
  unfold bind, getitem, modify, ret. cbn. rewrite Hv. reflexivity.
Qed.

(** X4.  Round trip of a trigger.  After [set_microcontroller] has assigned
    [mc] under a header whose last segment names the trigger of a request
    method, [get_microcontrollers] on a request of that method for the same
    object returns [True] and finds the handler list [mc.split(",")],
    whatever record the object carried before. *)
Theorem assigned_trigger_is_read_back
    (E : environment) (self : VertigoGatewayDocker) (get_resp : response)
    (body header mc t : string) (w : md_world) (s : state) :
  PyStr.rsplit "-" 1 header !! 1%nat = Some t →
  PyStr.lower t = "on" +:+ PyStr.lower (REQUEST_METHOD (orig_resp self)) →
  app_iter_fp get_resp = app_iter_fp (orig_resp self) →
  get_microcontrollers
    (env_with_metadata E (snd (set_microcontroller get_resp body header mc w)))
    self s
  = (Ret true, set_mc_list (Some (PyStr.split "," mc)) s).
Proof.
  intros Ht Hkey Hfd.
  destruct (set_microcontroller_run get_resp body header mc t w Ht)
    as (_ & Hobj & _).
  apply (get_microcontrollers_run _ self s
           (<[PyStr.lower t := mc]> (assignment_base get_resp w))).
  - cbn. unfold cc_read_metadata. rewrite Hobj, <- Hfd.
    apply lookup_insert_eq.
  - rewrite <- Hkey. apply lookup_insert_eq.
Qed.

(** X5.  The module default is one shared dictionary.  The first assignment
    on an object without a record writes the trigger into the default
    itself, so the first assignment of another trigger on a second object
    without a record stores the first object's trigger on the second object
    as well. *)
Theorem default_record_shared_between_objects
    (first second : response) (body1 body2 : string)
    (header1 mc1 t1 header2 mc2 t2 : string) (w : md_world) :
  PyStr.rsplit "-" 1 header1 !! 1%nat = Some t1 →
  PyStr.rsplit "-" 1 header2 !! 1%nat = Some t2 →
  PyStr.lower t1 ≠ PyStr.lower t2 →
  app_iter_fp first ≠ app_iter_fp second →
  object_md w !! app_iter_fp first = None →
  object_md w !! app_iter_fp second = None →
  let w1 := snd (set_microcontroller first body1 header1 mc1 w) in
  let w2 := snd (set_microcontroller second body2 header2 mc2 w1) in
  default_md w2 !! PyStr.lower t1 = Some mc1
  ∧ ∃ r2, object_md w2 !! app_iter_fp second = Some r2
          ∧ r2 !! PyStr.lower t2 = Some mc2
          ∧ r2 !! PyStr.lower t1 = Some mc1.
Proof.
  intros Ht1 Ht2 Hne Hfd Hno1 Hno2 w1 w2.
  destruct (set_microcontroller_run first body1 header1 mc1 t1 w Ht1)
    as (_ & Hobj1 & Hdef1).
  fold w1 in Hobj1, Hdef1.
  assert (Hrec1 : has_record first w = false).
  { unfold has_record, read_or_default, cc_read_metadata. rewrite Hno1.
    reflexivity. }
  rewrite Hrec1 in Hdef1.
  assert (Hno2' : object_md w1 !! app_iter_fp second = None).
  { rewrite Hobj1. rewrite lookup_insert_ne by exact Hfd. exact Hno2. }
  destruct (set_microcontroller_run second body2 header2 mc2 t2 w1 Ht2)
    as (_ & Hobj2 & Hdef2).
  fold w2 in Hobj2, Hdef2.
  assert (Hrec2 : has_record second w1 = false).
  { unfold has_record, read_or_default, cc_read_metadata. rewrite Hno2'.
    reflexivity. }
  assert (Hbase2 : assignment_base second w1 = default_md w1).
  { unfold assignment_base, read_or_default, cc_read_metadata. rewrite Hno2'.
    reflexivity. }
  rewrite Hrec2 in Hdef2. rewrite Hbase2 in Hobj2.
  split.
  - rewrite Hdef2, Hdef1. rewrite lookup_insert_ne by congruence.
    apply lookup_insert_eq.
  - exists (<[PyStr.lower t2 := mc2]> (default_md w1)).
    rewrite Hobj2, lookup_insert_eq. split; [reflexivity|].
    split; [apply lookup_insert_eq|].
    rewrite lookup_insert_ne by congruence. rewrite Hdef1.
    apply lookup_insert_eq.
Qed.

(** A string without the separator splits into itself. *)
Lemma split_without_separator (sep : ascii) (s : string) :
  (∀ c, In c (list_ascii_of_string s) → c ≠ sep) →
  PyStr.split sep s = [s].
Proof.
  induction s as [|c s IH]; intros Hno; [reflexivity|].
  cbn [PyStr.split].
  assert (Hc : Ascii.eqb c sep = false).
  { apply Ascii.eqb_neq. apply Hno. left. reflexivity. }
  rewrite Hc, IH; [reflexivity|].
  intros c' Hc'. apply Hno. right. exact Hc'.
Qed.

(** X7.  [set_microcontroller] takes the name of the header, not the name
    of the trigger: for a trigger argument without ['-'] (such as the
    ["onget"] that [get_mc_assignation_data] returns) the second segment
    does not exist, the call raises [IndexError], and neither a record nor
    the default nor a file is written. *)
Theorem trigger_without_dash_rejected
    (get_resp : response) (body trigger mc : string) (w : md_world) :
  (∀ c, In c (list_ascii_of_string trigger) → c ≠ "-"%char) →
  set_microcontroller get_resp body trigger mc w = (Raise IndexError, w).
Proof.
  intros Hno. unfold set_microcontroller, PyStr.rsplit.
  rewrite (split_without_separator _ _ Hno). reflexivity.
Qed.

(** The metadata of a fresh deployment, and one in which the sample object
    (file 7) already has its on-get trigger set. *)
Definition fresh_world : md_world := MdWorld DEFAULT_MD_STRING ∅ [].

Definition configured_world : md_world :=
  MdWorld DEFAULT_MD_STRING
    (<[7%nat := <["onget" := "a.mc"]> DEFAULT_MD_STRING]> ∅) [].

Definition other_object : response :=
  Response "GET" 9 "/srv/node/sdb/objects/2/def/hash/2.data" ∅.

Lemma assignment_keeps_other_triggers_witness :
  fst (set_microcontroller (orig_resp Sample.gw) "params" "X-Vertigo-Onput"
         "b.mc" configured_world) = Ret tt
  ∧ (∃ r',
        object_md (snd (set_microcontroller (orig_resp Sample.gw) "params"
                          "X-Vertigo-Onput" "b.mc" configured_world))
          !! app_iter_fp (orig_resp Sample.gw) = Some r'
        ∧ r' !! PyStr.lower "Onput" = Some "b.mc"
        ∧ ∀ k, k ≠ PyStr.lower "Onput" →
               r' !! k = (<["onget" := "a.mc"]> DEFAULT_MD_STRING) !! k)
  ∧ (∀ fd, fd ≠ app_iter_fp (orig_resp Sample.gw) →
           object_md (snd (set_microcontroller (orig_resp Sample.gw) "params"
                             "X-Vertigo-Onput" "b.mc" configured_world))
             !! fd = object_md configured_world !! fd)
  ∧ default_md (snd (set_microcontroller (orig_resp Sample.gw) "params"
                       "X-Vertigo-Onput" "b.mc" configured_world))
    = default_md configured_world.
Proof.
  apply (assignment_keeps_other_triggers (orig_resp Sample.gw) "params"
           "X-Vertigo-Onput" "b.mc" "Onput"
           (<["onget" := "a.mc"]> DEFAULT_MD_STRING) configured_world).
  - reflexivity.
  - reflexivity.
  - intros Hempty. apply (f_equal (fun m => m !! "onget")) in Hempty.
    vm_compute in Hempty. discriminate.
Defined.

Lemma assigned_trigger_is_read_back_witness :
  get_microcontrollers
    (env_with_metadata (Sample.env 0 0 true)
       (snd (set_microcontroller (orig_resp Sample.gw) "params"
               "X-Vertigo-Onget" "a.mc,b.mc" fresh_world)))
    Sample.gw (Sample.start None)
  = (Ret true, set_mc_list (Some (PyStr.split "," "a.mc,b.mc"))
                 (Sample.start None)).
Proof.
  apply (assigned_trigger_is_read_back (Sample.env 0 0 true) Sample.gw
           (orig_resp Sample.gw) "params" "X-Vertigo-Onget" "a.mc,b.mc"
           "Onget" fresh_world (Sample.start None)).
  - reflexivity.
  - reflexivity.
  - reflexivity.
Defined.

Lemma default_record_shared_between_objects_witness :
  default_md
    (snd (set_microcontroller other_object "p2" "X-Vertigo-Onput" "b.mc"
            (snd (set_microcontroller (orig_resp Sample.gw) "p1"
                    "X-Vertigo-Onget" "a.mc" fresh_world))))
    !! PyStr.lower "Onget" = Some "a.mc"
  ∧ ∃ r2,
      object_md
        (snd (set_microcontroller other_object "p2" "X-Vertigo-Onput" "b.mc"
                (snd (set_microcontroller (orig_resp Sample.gw) "p1"
                        "X-Vertigo-Onget" "a.mc" fresh_world))))
        !! app_iter_fp other_object = Some r2
      ∧ r2 !! PyStr.lower "Onput" = Some "b.mc"
      ∧ r2 !! PyStr.lower "Onget" = Some "a.mc".
Proof.
  apply (default_record_shared_between_objects (orig_resp Sample.gw)
           other_object "p1" "p2" "X-Vertigo-Onget" "a.mc" "Onget"
           "X-Vertigo-Onput" "b.mc" "Onput" fresh_world).
  - reflexivity.
  - reflexivity.
  - vm_compute. discriminate.
  - vm_compute. discriminate.
  - reflexivity.
  - reflexivity.
Defined.

Lemma trigger_without_dash_rejected_witness :
  set_microcontroller (orig_resp Sample.gw) "params" "onget" "a.mc"
    fresh_world
  = (Raise IndexError, fresh_world).
Proof.
  apply (trigger_without_dash_rejected (orig_resp Sample.gw) "params"
           "onget" "a.mc" fresh_world).
  intros c Hc. cbn in Hc.
  repeat (destruct Hc as [<-|Hc]; [discriminate|]). destruct Hc.
Defined.

(** * More of the verification loop: what it asks the store and what it
      writes into the cache *)

(** The store requests and the files written, oldest first. *)
Definition cache_traffic (tr : list event) : list event :=
  rev (List.filter (fun e => match e with
                             | EvSwift _ _ _ _ | EvWrite _ _ => true
                             | _ => false
                             end) tr).

Section CacheTraffic.

Variable E : environment.
Variable self : VertigoGatewayDocker.

(** Where [update_mc_cache] puts [obj] for a handler with entry point
    [main]. *)
Definition docker_target_path (main obj : string) : string :=
  PyStr.path_join
    (mc_dir (conf self) +:+ "/" +:+ scope self +:+ "/" +:+ main) obj.
















Lemma daemon_keeps_traffic :
  keeps (fun s => cache_traffic (trace s))
        (start_internal_client_daemon E self).
Proof. keeps_method. Qed.

Lemma container_keeps_traffic :
  keeps (fun s => cache_traffic (trace s)) (start_container E self).
Proof. keeps_method. Qed.




End CacheTraffic.







(** * Frame reasoning: what a computation never undoes *)

Section Grows.

(** [m] never removes an event from the trace. *)
Definition grows {A} (m : M A) : Prop :=
  ∀ s ev, In ev (trace s) → In ev (trace (snd (m s))).

Lemma grows_ret {A} (a : A) : grows (ret a).
Proof. intros s ev H. exact H. Qed.

Lemma grows_raise {A} (e : exn) : grows (@raise A e).
Proof. intros s ev H. exact H. Qed.

Lemma grows_get_state : grows get_state.
Proof. intros s ev H. exact H. Qed.

Lemma grows_bind {A B} (m : M A) (k : A → M B) :
  grows m → (∀ a, grows (k a)) → grows (bind m k).
Proof.
  intros Hm Hk s ev H. unfold bind. specialize (Hm s ev H).
  destruct (m s) as [[a|e] s1]; cbn in *; [apply Hk|]; exact Hm.
Qed.

Lemma grows_modify (g : state → state) :
  (∀ s ev, In ev (trace s) → In ev (trace (g s))) → grows (modify g).
Proof. intros Hg s ev H. apply Hg, H. Qed.

Lemma grows_try_finally {A} (body : M A) (fin : M unit) :
  grows body → grows fin → grows (try_finally body fin).
Proof.
  intros Hb Hf s ev H. unfold try_finally. specialize (Hb s ev H).
  destruct (body s) as [r s1]; cbn in *.
  specialize (Hf s1 ev Hb). destruct (fin s1) as [[u|e] s2]; exact Hf.
Qed.

Lemma grows_for_each {A} (l : list A) (body : A → M unit) :
  (∀ a, grows (body a)) → grows (for_each l body).
Proof.
  intros Hb. induction l as [|a l IH]; cbn [for_each].
  - apply grows_ret.
  - apply grows_bind; auto.
Qed.

Lemma grows_fold_m {A S} (l : list A) (body : A → S → M S) (acc : S) :
  (∀ a x, grows (body a x)) → grows (fold_m l body acc).
Proof.
  intros Hb. revert acc. induction l as [|a l IH]; intros acc; cbn [fold_m].
  - apply grows_ret.
  - apply grows_bind; auto.
Qed.

Lemma grows_map_m {A B} (body : A → M B) (l : list A) :
  (∀ a, grows (body a)) → grows (map_m body l).
Proof.
  intros Hb. induction l as [|a l IH]; cbn [map_m].
  - apply grows_ret.
  - apply grows_bind; [auto|]. intros b.
    apply grows_bind; [auto|]. intros bs. apply grows_ret.
Qed.

Lemma grows_getitem {V} (d : gmap string V) (k : string) :
  grows (getitem d k).
Proof. unfold getitem. destruct (d !! k); [apply grows_ret|apply grows_raise]. Qed.

End Grows.

Ltac grows_step :=
  match goal with
  | |- grows (bind _ _) => apply grows_bind; [|intros ?]
  | |- grows (ret _) => apply grows_ret
  | |- grows (raise _) => apply grows_raise
  | |- grows get_state => apply grows_get_state
  | |- grows (getitem _ _) => apply grows_getitem
  | |- grows (for_each _ _) => apply grows_for_each; intros ?
  | |- grows (fold_m _ _ _) => apply grows_fold_m; intros ? ?
  | |- grows (map_m _ _) => apply grows_map_m; intros ?
  | |- grows (try_finally _ _) => apply grows_try_finally
  | |- grows (modify _) => apply grows_modify; intros ? ? ?; cbn; auto
  | |- grows (emit _) => apply grows_modify; intros ? ? ?; cbn; auto
  | |- grows (logger_info _) => apply grows_modify; intros ? ? ?; cbn; auto
  | |- grows (logger_error _) => apply grows_modify; intros ? ? ?; cbn; auto
  | |- grows (if ?b then _ else _) => destruct b
  | |- grows (match ?o with Some _ => _ | None => _ end) => destruct o
  end.

(** Proves [grows m] for a method [m]: no step of the gateway removes an
    event. *)
Ltac grows_method := intros; unfold_methods; repeat (grows_step; auto).

(** * More of the invocation: the descriptors of one call *)

Section Descriptors.

Variable E : environment.

(** Between [s] and [s'] descriptors were opened, none was closed, and
    what was opened is still open. *)
Definition only_opens (s s' : state) : Prop :=
  (∀ fd, closes fd (trace s') = closes fd (trace s))
  ∧ open_fds s ⊆ open_fds s'
  ∧ ∃ new, opened (trace s') = new ++ opened (trace s)
           ∧ ∀ fd, In fd new → fd ∈ open_fds s'.

Lemma only_opens_refl s : only_opens s s.
Proof.
  split; [reflexivity|]. split; [reflexivity|].
  exists []. split; [reflexivity|]. intros fd [].
Qed.

Lemma only_opens_trans s1 s2 s3 :
  only_opens s1 s2 → only_opens s2 s3 → only_opens s1 s3.
Proof.
  intros (C1 & O1 & new1 & N1 & I1) (C2 & O2 & new2 & N2 & I2).
  split; [intros fd; rewrite C2; apply C1|].
  split; [transitivity (open_fds s2); assumption|].
  exists (new2 ++ new1). split; [rewrite N2, N1, app_assoc; reflexivity|].
  intros fd Hin. apply in_app_or in Hin as [Hin|Hin]; [apply I2, Hin|].
  apply elem_of_subseteq in O2. apply O2, I1, Hin.
Qed.

Lemma file_open_only_opens path mode s :
  only_opens s (snd (file_open E path mode s)).
Proof.
  unfold file_open, alloc_fd, bind, get_state, modify, emit, ret, raise.
  destruct (can_open E path); cbn; [|apply only_opens_refl].
  destruct s as [tr nf ofd ds sb rh fp ml mm]; cbn.
  split; [reflexivity|]. split; [apply union_subseteq_r|].
  exists [nf]. split; [reflexivity|]. intros fd [<-|[]].
  apply elem_of_union_l, elem_of_singleton. reflexivity.
Qed.

Lemma mc_open_only_opens mc s : only_opens s (snd (mc_open E mc s)).
Proof.
  unfold mc_open. unfold bind at 1.
  pose proof (file_open_only_opens (full_md_path mc) "a+" s) as H1.
  destruct (file_open E (full_md_path mc) "a+" s) as [[a|e] s1];
    cbn [snd] in *; [|exact H1].
  unfold bind at 1.
  pose proof (file_open_only_opens (full_log_path mc) "a" s1) as H2.
  destruct (file_open E (full_log_path mc) "a" s1) as [[b|e] s2];
    cbn [snd] in *; eapply only_opens_trans; eassumption.
Qed.

Lemma open_loop_only_opens mcs s :
  only_opens s (snd (map_m (mc_open E) mcs s)).
Proof.
  revert s. induction mcs as [|mc mcs IH]; intros s.
  - apply only_opens_refl.
  - cbn [map_m]. unfold bind at 1.
    pose proof (mc_open_only_opens mc s) as H1.
    destruct (mc_open E mc s) as [[mc'|e] s1]; cbn [snd] in *; [|exact H1].
    unfold bind. specialize (IH s1).
    destruct (map_m (mc_open E) mcs s1) as [[l|e] s2]; cbn [snd] in *;
      eapply only_opens_trans; eassumption.
Qed.

Lemma create_keeps_open_fds self :
  keeps open_fds (create_micro_controllers self).
Proof. unfold create_micro_controllers, create_micro_controller. keeps_method. Qed.

Lemma create_keeps_opened self :
  keeps (fun s => opened (trace s)) (create_micro_controllers self).
Proof. unfold create_micro_controllers, create_micro_controller. keeps_method. Qed.

Lemma create_only_opens self s :
  only_opens s (snd (create_micro_controllers self s)).
Proof.
  split; [intros fd; apply (create_keeps_closes fd self s)|].
  rewrite (create_keeps_open_fds self s).
  split; [reflexivity|].
  exists []. rewrite (create_keeps_opened self s). split; [reflexivity|].
  intros fd [].
Qed.

(** The paths that [MicroController.__init__] computes for a handler. *)
Definition placed (file_path logger_path : string) (mc : MicroController)
    : Prop :=
  full_md_path mc
  = PyStr.path_join file_path (stem (micro_controller mc) +:+ ".md")
  ∧ full_log_path mc
    = PyStr.path_join logger_path
        (main_class mc +:+ "/" +:+ stem (micro_controller mc) +:+ ".log").

(** The two file objects of [mc] come from opening its metadata file for
    reading and appending and its log file for appending. *)
Definition files_opened (tr : list event) (mc : MicroController) : Prop :=
  ∃ a b, metadata_file mc = Some a ∧ logger_file mc = Some b
         ∧ In (EvOpen (full_md_path mc) "a+" a) tr
         ∧ In (EvOpen (full_log_path mc) "a" b) tr.

Lemma files_opened_mono tr tr' mc :
  (∀ ev, In ev tr → In ev tr') → files_opened tr mc → files_opened tr' mc.
Proof.
  intros Hsub (a & b & Ha & Hb & Hma & Hmb). exists a, b. auto.
Qed.

Lemma create_loop_placed names self s :
  Forall (placed (p_file_path self) (mc_logger_path self))
         (micro_controllers self) →
  match fold_m names create_micro_controller self s with
  | (Ret self', _) =>
      Forall (placed (p_file_path self) (mc_logger_path self))
             (micro_controllers self')
  | (Raise _, _) => True
  end.
Proof.
  revert self s. induction names as [|n names IH]; intros self s Hp.
  - exact Hp.
  - cbn [fold_m]. unfold bind.
    pose proof (create_micro_controller_run n self s) as Hstep.
    destruct (create_micro_controller n self s) as [[self1|e] s1];
      [|exact I].
    destruct Hstep as (h & main & deps & _ & _ & _ & ->).
    specialize (IH (with_micro_controllers
                      (micro_controllers self
                       ++ [new_micro_controller (p_file_path self)
                             (mc_logger_path self) n main deps]) self) s1).
    destruct self; cbn in *. apply IH.
    apply Forall_app. split; [exact Hp|].
    constructor; [split; reflexivity|constructor].
Qed.

Lemma mc_open_grows mc : grows (mc_open E mc).
Proof. grows_method. Qed.

Lemma mc_open_files fp lp mc s :
  placed fp lp mc →
  match mc_open E mc s with
  | (Ret mc', s') => placed fp lp mc' ∧ files_opened (trace s') mc'
  | (Raise _, _) => True
  end.
Proof.
  intros [Hmd Hlog].
  unfold mc_open, file_open, alloc_fd, bind, get_state, modify, emit, ret.
  destruct (can_open E (full_md_path mc)); cbn; [|exact I].
  destruct (can_open E (full_log_path mc)); cbn; [|exact I].
  split; [split; assumption|].
  exists (next_fd s), (S (next_fd s)). cbn. auto 6.
Qed.

Lemma open_loop_files fp lp mcs s :
  Forall (placed fp lp) mcs →
  match map_m (mc_open E) mcs s with
  | (Ret opened, s') =>
      Forall (placed fp lp) opened ∧ Forall (files_opened (trace s')) opened
  | (Raise _, _) => True
  end.
Proof.
  intros Hp. revert s. induction Hp as [|mc mcs Hmc _ IH]; intros s.
  - cbn. split; constructor.
  - cbn [map_m]. unfold bind at 1.
    pose proof (mc_open_files fp lp mc s Hmc) as H1.
    destruct (mc_open E mc s) as [[mc'|e] s1]; [|exact I].
    destruct H1 as [P1 F1]. unfold bind. specialize (IH s1).
    pose proof (grows_map_m (mc_open E) mcs mc_open_grows s1) as G.
    destruct (map_m (mc_open E) mcs s1) as [[opened|e] s2]; [|exact I].
    destruct IH as [P2 F2]. cbn [snd] in G. cbn.
    split; constructor; auto.
    eapply files_opened_mono; [|exact F1]. intros ev. apply G.
Qed.

(** The descriptors of the two file objects of a handler. *)
Definition mc_fds (mc : MicroController) : list nat :=
  match metadata_file mc with Some a => [a] | None => [] end
  ++ match logger_file mc with Some b => [b] | None => [] end.

Definition handler_fds (l : list MicroController) : list nat :=
  flat_map mc_fds l.

(** [open] takes the next two descriptors. *)
Lemma mc_open_fresh mc s :
  match mc_open E mc s with
  | (Ret mc', s') =>
      mc_fds mc' = [next_fd s; S (next_fd s)]
      ∧ next_fd s' = S (S (next_fd s))
      ∧ next_fd s ∈ open_fds s' ∧ S (next_fd s) ∈ open_fds s'
  | (Raise _, _) => True
  end.
Proof.
  unfold mc_open, file_open, alloc_fd, bind, get_state, modify, emit, ret.
  destruct (can_open E (full_md_path mc)); cbn; [|exact I].
  destruct (can_open E (full_log_path mc)); cbn; [|exact I].
  destruct s as [tr nf ofd ds sb rh fp ml mm]; cbn.
  split; [reflexivity|]. split; [reflexivity|]. split.
  - apply elem_of_union_r, elem_of_union_l, elem_of_singleton. reflexivity.
  - apply elem_of_union_l, elem_of_singleton. reflexivity.
Qed.

(** The handlers that were opened hold descriptors that are all different,
    all new and all open. *)
Lemma open_loop_fresh mcs s :
  match map_m (mc_open E) mcs s with
  | (Ret opened, s') =>
      NoDup (handler_fds opened)
      ∧ ∀ fd, fd ∈ handler_fds opened →
              (next_fd s ≤ fd)%nat ∧ (fd < next_fd s')%nat
              ∧ fd ∈ open_fds s'
  | (Raise _, _) => True
  end.
Proof.
  revert s. induction mcs as [|mc mcs IH]; intros s.
  - cbn. split; [constructor|]. intros fd Hfd. inversion Hfd.
  - cbn [map_m]. unfold bind at 1.
    pose proof (mc_open_fresh mc s) as H1.
    destruct (mc_open E mc s) as [[mc'|e] s1]; [|exact I].
    destruct H1 as (Hfds & Hnext & Ha & Hb).
    unfold bind. specialize (IH s1).
    pose proof (open_loop_below E mcs s1) as [Hle _].
    pose proof (open_loop_only_opens mcs s1) as (_ & Hsub & _).
    destruct (map_m (mc_open E) mcs s1) as [[opened|e] s2]; [|exact I].
    destruct IH as (Hnd & Hin). cbn [fst snd ret] in *.
    apply elem_of_subseteq in Hsub.
    unfold handler_fds in *. cbn [flat_map]. rewrite Hfds. cbn [app].
    split.
    + constructor.
      { intros Hx. apply elem_of_cons in Hx as [Hx|Hx]; [lia|].
        apply Hin in Hx. lia. }
      constructor; [|exact Hnd].
      intros Hx. apply Hin in Hx. lia.
    + intros fd Hfd. apply elem_of_cons in Hfd as [->|Hfd];
        [|apply elem_of_cons in Hfd as [->|Hfd]].
      * split; [lia|]. split; [lia|]. apply Hsub, Ha.
      * split; [lia|]. split; [lia|]. apply Hsub, Hb.
      * destruct (Hin fd Hfd) as (H1 & H2 & H3). split; [lia|]. auto.
Qed.

(** Closing an open file object closes its descriptor once. *)
Lemma file_close_run fd s :
  fd ∈ open_fds s →
  file_close fd s
  = (Ret tt, set_trace (cons (EvClose fd))
               (set_open_fds (fun o => o ∖ {[fd]}) s)).
Proof.
  intros Hin. unfold file_close, bind, get_state, modify, emit.
  rewrite bool_decide_eq_true_2 by exact Hin. reflexivity.
Qed.

Lemma closes_cons_close fd n tr :
  closes fd (EvClose n :: tr)
  = if Nat.eqb n fd then S (closes fd tr) else closes fd tr.
Proof. unfold closes. cbn. destruct (Nat.eqb n fd); reflexivity. Qed.

(** The loop of the [finally] block over handlers whose descriptors are
    different and open closes each of them once and nothing else. *)
Lemma close_loop_counts (l : list MicroController) s :
  Forall mc_is_open l → NoDup (handler_fds l) →
  (∀ fd, fd ∈ handler_fds l → fd ∈ open_fds s) →
  ∀ fd, closes fd (trace (snd (for_each l mc_close s)))
        = if bool_decide (fd ∈ handler_fds l)
          then S (closes fd (trace s)) else closes fd (trace s).
Proof.
  intros Hopen. revert s.
  induction Hopen as [|mc l ([a Ha] & [b Hb]) _ IH]; intros s Hnd Hin fd.
  - cbn. rewrite bool_decide_eq_false_2 by (intros Hx; inversion Hx).
    reflexivity.
  - assert (Hfds : mc_fds mc = [a; b])
      by (unfold mc_fds; rewrite Ha, Hb; reflexivity).
    unfold handler_fds in *. cbn [flat_map] in *. rewrite Hfds in *.
    cbn [app] in *.
    apply NoDup_cons in Hnd as [Ha' Hnd]. apply NoDup_cons in Hnd as [Hb' Hnd].
    assert (Hab : a ≠ b).
    { intros ->. apply Ha'. apply elem_of_cons. auto. }
    assert (Hrun : mc_close mc s
                   = (Ret tt, set_trace (cons (EvClose b))
                                (set_open_fds (fun o => o ∖ {[b]})
                                   (set_trace (cons (EvClose a))
                                      (set_open_fds (fun o => o ∖ {[a]}) s))))).
    { unfold mc_close, get_mdfd, get_logfd. rewrite Ha, Hb.
      unfold bind at 1, ret at 1.
      rewrite (bind_ret_run _ _ _ _ _
                 (file_close_run a s (Hin a ltac:(apply elem_of_cons; auto)))).
      unfold bind at 1, ret at 1.
      apply file_close_run. destruct s; cbn.
      apply elem_of_difference. split.
      - apply (Hin b). apply elem_of_cons. right. apply elem_of_cons. auto.
      - intros Hx. apply elem_of_singleton in Hx. congruence. }
    cbn [for_each]. rewrite (bind_ret_run _ _ _ _ _ Hrun).
    set (s2 := set_trace _ _).
    rewrite (IH s2 Hnd).
    2:{ intros x Hx. subst s2. destruct s; cbn.
        apply elem_of_difference. split.
        - apply elem_of_difference. split.
          + apply (Hin x). apply elem_of_cons. right.
            apply elem_of_cons. right. exact Hx.
          + intros Hxa. apply elem_of_singleton in Hxa. subst x.
            apply Ha'. apply elem_of_cons. right. exact Hx.
        - intros Hxb. apply elem_of_singleton in Hxb. subst x.
          apply Hb'. exact Hx. }
    assert (Htr2 : closes fd (trace s2)
                   = if Nat.eqb b fd then S (closes fd (trace s))
                     else if Nat.eqb a fd then S (closes fd (trace s))
                          else closes fd (trace s)).
    { subst s2. destruct s as [tr nf ofd ds sb rh fp ml mm].
      cbn [trace set_trace set_open_fds].
      rewrite !closes_cons_close.
      destruct (Nat.eqb_spec b fd) as [->|Hbf];
        destruct (Nat.eqb_spec a fd) as [->|Haf]; congruence. }
    rewrite Htr2.
    destruct (Nat.eqb_spec b fd) as [->|Hbf].
    { rewrite bool_decide_eq_false_2 by exact Hb'.
      rewrite bool_decide_eq_true_2
        by (apply elem_of_cons; right; apply elem_of_cons; auto).
      reflexivity. }
    destruct (Nat.eqb_spec a fd) as [->|Haf].
    { rewrite bool_decide_eq_false_2
        by (intros Hx; apply Ha'; apply elem_of_cons; right; exact Hx).
      rewrite bool_decide_eq_true_2 by (apply elem_of_cons; auto).
      reflexivity. }
    case_bool_decide as Hrest.
    + rewrite bool_decide_eq_true_2
        by (apply elem_of_cons; right; apply elem_of_cons; right; exact Hrest).
      reflexivity.
    + rewrite bool_decide_eq_false_2; [reflexivity|].
      intros Hx. apply elem_of_cons in Hx as [Hx|Hx]; [congruence|].
      apply elem_of_cons in Hx as [Hx|Hx]; [congruence|contradiction].
Qed.

(** The whole [finally] block: the write end and the handler files are
    closed once each, no other descriptor is closed. *)
Lemma release_counts w self s :
  response_write_fd self = Some (S w) → S w ∈ open_fds s →
  Forall mc_is_open (micro_controllers self) →
  NoDup (handler_fds (micro_controllers self)) →
  (∀ fd, fd ∈ handler_fds (micro_controllers self) →
         fd ∈ open_fds s ∧ fd ≠ S w) →
  ∀ fd, closes fd (trace (snd (release self s)))
        = if bool_decide (fd = S w
                          ∨ fd ∈ handler_fds (micro_controllers self))
          then S (closes fd (trace s)) else closes fd (trace s).
Proof.
  intros Hw Hin Hopen Hnd Hfds fd.
  unfold release, _close_remote_side_descriptors. rewrite Hw. cbn [fd_truthy].
  assert (Hclose : os_close (Some (S w)) s
                   = (Ret tt, set_trace (cons (EvClose (S w)))
                                (set_open_fds (fun o => o ∖ {[S w]}) s))).
  { unfold os_close, bind, get_state, modify, emit.
    rewrite bool_decide_eq_true_2 by exact Hin. reflexivity. }
  rewrite (bind_ret_run _ _ _ _ _ Hclose).
  set (s1 := set_trace _ _).
  rewrite (close_loop_counts (micro_controllers self) s1 Hopen Hnd).
  2:{ intros x Hx. destruct (Hfds x Hx) as [Hxin Hxne].
      subst s1. destruct s; cbn. apply elem_of_difference.
      split; [exact Hxin|]. intros Hs. apply elem_of_singleton in Hs.
      contradiction. }
  assert (Htr1 : closes fd (trace s1)
                 = if Nat.eqb (S w) fd then S (closes fd (trace s))
                   else closes fd (trace s)).
  { subst s1. destruct s; cbn [trace set_trace set_open_fds].
    apply closes_cons_close. }
  rewrite Htr1.
  destruct (Nat.eqb_spec (S w) fd) as [<-|Hne].
  - rewrite bool_decide_eq_false_2 by (intros Hx; apply (Hfds _ Hx); reflexivity).
    rewrite bool_decide_eq_true_2 by (left; reflexivity). reflexivity.
  - case_bool_decide as Hrest.
    + rewrite bool_decide_eq_true_2 by (right; exact Hrest). reflexivity.
    + rewrite bool_decide_eq_false_2; [reflexivity|].
      intros [Hx|Hx]; [congruence|contradiction].
Qed.

(** The state in which the [finally] block starts. *)
Definition sent_state (self : MicroControllerInvocationProtocol)
    (s : state) : state :=
  set_trace (cons (EvSend (mc_pipe_path self) (fds self) (fdmd self)
                          SBUS_CMD_EXECUTE)) s.

(** A run of [communicate] up to the [try] statement.  Either it stops
    early, having opened descriptors but closed none; or the handler files
    and the two pipes are open and the descriptor list is the write end of
    the second pipe, the write end of the response pipe, the log files and
    the metadata files. *)
Lemma communicate_steps self s :
  fds self = [] → fdmd self = [] → micro_controllers self = [] →
  (∃ e, fst (communicate E self s) = Raise e ∧ stops_early E self e
        ∧ sent_sets (trace (snd (communicate E self s))) = sent_sets (trace s)
        ∧ only_opens s (snd (communicate E self s)))
  ∨ (∃ mcs self3 s2,
        communicate E self s
        = (try_finally (_invoke E self3) (release self3) ;;
           collect E self3) (after_pipes s2)
        ∧ only_opens s s2
        ∧ sent_sets (trace s2) = sent_sets (trace s)
        ∧ micro_controllers self3 = mcs
        ∧ Forall mc_is_open mcs
        ∧ Forall (fds_below (next_fd s2)) mcs
        ∧ fds self3
          = [Some (3 + next_fd s2)%nat; Some (1 + next_fd s2)%nat]
            ++ map logger_file mcs ++ map metadata_file mcs
        ∧ fdmd self3 = descriptor_metadata (req_md self) (file_md self) mcs
        ∧ response_read_fd self3 = Some (next_fd s2)
        ∧ response_write_fd self3 = Some (1 + next_fd s2)%nat
        ∧ mc_pipe_path self3 = mc_pipe_path self
        ∧ timeout self3 = timeout self
        ∧ task_id self3 = task_id self
        ∧ map micro_controller mcs = p_mc_list self
        ∧ Forall (placed (p_file_path self) (mc_logger_path self)) mcs
        ∧ Forall (files_opened (trace s2)) mcs
        ∧ NoDup (handler_fds mcs)
        ∧ (∀ fd, fd ∈ handler_fds mcs →
                 (fd < next_fd s2)%nat ∧ fd ∈ open_fds s2)).
Proof.
  intros Hfds Hfdmd Hmcs. rewrite communicate_phases.
  pose proof (create_loop_spec (p_mc_list self) self s) as H1.
  pose proof (create_loop_placed (p_mc_list self) self s) as P1.
  pose proof (create_keeps_sent self s) as K1.
  pose proof (create_only_opens self s) as O1.
  unfold create_micro_controllers in *.
  destruct (fold_m (p_mc_list self) create_micro_controller self s)
    as [[self1|e] s1] eqn:R1; cbn [fst snd] in *.
  2:{ left. exists e. rewrite (bind_raise_run _ _ _ _ _ R1). cbn.
      repeat split; auto; try apply O1. left. exact H1. }
  rewrite (bind_ret_run _ _ _ _ _ R1).
  specialize (P1 ltac:(rewrite Hmcs; constructor)).
  destruct H1 as (mcs0 & -> & Hnames & _ & _).
  rewrite Hmcs in *. cbn [app] in *.
  set (self1 := with_micro_controllers mcs0 self) in *.
  assert (Hp1 : Forall (placed (p_file_path self) (mc_logger_path self)) mcs0)
    by (destruct self; exact P1).
  clear P1.
  pose proof (open_loop_spec E mcs0 s1) as H2.
  pose proof (open_loop_files (p_file_path self) (mc_logger_path self)
                mcs0 s1 Hp1) as H2f.
  pose proof (open_loop_fresh mcs0 s1) as H2n.
  pose proof (open_loop_below E mcs0 s1) as [_ Hbelow].
  pose proof (open_loop_only_opens mcs0 s1) as O2.
  pose proof (open_keeps_sent E self1 s1) as K2.
  unfold open_micro_controllers in *.
  assert (Hm1 : micro_controllers self1 = mcs0)
    by (destruct self; reflexivity).
  rewrite Hm1 in *.
  destruct (map_m (mc_open E) mcs0 s1) as [[mcs|e] s2] eqn:R2.
  2:{ left. exists e.
      rewrite (bind_raise_run _ _ e s1 s2)
        by (apply bind_raise_run; exact R2).
      rewrite (bind_raise_run _ _ _ _ _ R2) in K2. cbn in *.
      split; [reflexivity|]. split; [right; exact H2|].
      split; [congruence|]. eapply only_opens_trans; eassumption. }
  rewrite (bind_ret_run _ _ (with_micro_controllers mcs self1) s1 s2)
    by (rewrite (bind_ret_run _ _ _ _ _ R2); reflexivity).
  rewrite (bind_ret_run _ _ _ _ _ R2) in K2. cbn [fst snd ret] in K2.
  destruct H2 as (Hsame & Hopen & _). destruct H2f as (Hplaced & Hfiles).
  destruct H2n as (Hnd & Hfresh). cbn [fst snd] in Hfresh.
  cbn [fst snd] in Hbelow, O2.
  set (self2 := with_micro_controllers mcs self1) in *.
  assert (Hm2 : micro_controllers self2 = mcs)
    by (destruct self; reflexivity).
  destruct (prepare_run self2 s2) as
      (self3 & R3 & F1 & F2 & F3 & F4 & F5 & F6 & F7 & F8).
  { rewrite Hm2. exact Hopen. }
  rewrite (bind_ret_run _ _ _ _ _ R3).
  right. exists mcs, self3, s2.
  split; [reflexivity|].
  split; [eapply only_opens_trans; eassumption|].
  split; [congruence|].
  split; [rewrite F3; exact Hm2|].
  split; [exact Hopen|]. split; [exact Hbelow|].
  split; [rewrite F2, Hm2; destruct self; cbn in *; subst; reflexivity|].
  split; [rewrite F1, Hm2; destruct self; cbn in *; subst; reflexivity|].
  split; [exact F4|]. split; [exact F5|].
  split; [rewrite F6; destruct self; reflexivity|].
  split; [rewrite F7; destruct self; reflexivity|].
  split; [rewrite F8; destruct self; reflexivity|].
  split; [rewrite (proj1 (same_handlers_names _ _ Hsame)); exact Hnames|].
  split; [exact Hplaced|]. split; [exact Hfiles|]. split; [exact Hnd|].
  intros fd Hfd. destruct (Hfresh fd Hfd) as (_ & Hlt & Hin). auto.
Qed.

(** The [try] statement and what follows it, when the [finally] block does
    not fail. *)
Lemma send_and_release self s :
  fst (release self (sent_state self s)) = Ret tt →
  (try_finally (_invoke E self) (release self) ;; collect E self) s
  = if (sbus_send E (mc_pipe_path self) (fds self) <? 0)%Z
    then (Raise send_failure, snd (release self (sent_state self s)))
    else collect E self (snd (release self (sent_state self s))).
Proof.
  intros Hrel. unfold bind, try_finally. rewrite _invoke_run.
  fold (sent_state self s).
  destruct (release self (sent_state self s)) as [[[]|e] s5];
    cbn [fst snd] in *; [|discriminate].
  destruct (sbus_send E (mc_pipe_path self) (fds self) <? 0)%Z; reflexivity.
Qed.

(** *** What the [finally] block closes and what it leaves open *)

Lemma release_leaves fd c w self s :
  response_write_fd self = Some (S w) → S w ≠ fd →
  Forall (fds_below fd) (micro_controllers self) →
  stays_open fd c s → stays_open fd c (snd (release self s)).
Proof.
  intros Hw Hne Hmcs Hopen.
  unfold release, _close_remote_side_descriptors. rewrite Hw. cbn [fd_truthy].
  unfold bind.
  pose proof (os_close_other fd c (S w) s Hne Hopen) as H1.
  destruct (os_close (Some (S w)) s) as [[[]|e] s1]; cbn [fst snd] in *;
    [|exact H1].
  apply close_loop_other; assumption.
Qed.

Lemma file_close_shrinks fd s : open_fds (snd (file_close fd s)) ⊆ open_fds s.
Proof.
  unfold file_close, bind, get_state, modify, emit, ret.
  destruct (bool_decide (fd ∈ open_fds s)); cbn; [|reflexivity].
  destruct s; cbn. apply subseteq_difference_l. reflexivity.
Qed.

Lemma file_close_gone fd s : fd ∉ open_fds (snd (file_close fd s)).
Proof.
  unfold file_close, bind, get_state, modify, emit, ret.
  case_bool_decide as Hin; cbn; [|exact Hin].
  destruct s; cbn. apply not_elem_of_difference. right.
  apply elem_of_singleton. reflexivity.
Qed.

(** [mc] holds the descriptor [fd]. *)
Definition file_of (mc : MicroController) (fd : nat) : Prop :=
  metadata_file mc = Some fd ∨ logger_file mc = Some fd.

Lemma mc_close_shrinks mc s : open_fds (snd (mc_close mc s)) ⊆ open_fds s.
Proof.
  unfold mc_close, get_mdfd, get_logfd.
  destruct (metadata_file mc) as [a|]; [|reflexivity].
  unfold bind at 1, ret at 1. unfold bind at 1.
  pose proof (file_close_shrinks a s) as H1.
  destruct (file_close a s) as [[[]|e] s1]; cbn [fst snd] in *; [|exact H1].
  destruct (logger_file mc) as [b|]; [|exact H1].
  unfold bind at 1, ret at 1.
  transitivity (open_fds s1); [apply file_close_shrinks|exact H1].
Qed.

Lemma mc_close_gone mc fd s :
  mc_is_open mc → file_of mc fd → fd ∉ open_fds (snd (mc_close mc s)).
Proof.
  intros ([a Ha] & [b Hb]) Hfile.
  unfold mc_close, get_mdfd, get_logfd. rewrite Ha, Hb.
  unfold bind at 1, ret at 1. unfold bind at 1.
  pose proof (file_close_gone a s) as H1.
  assert (Hret : fst (file_close a s) = Ret tt).
  { unfold file_close, bind, get_state, modify, emit, ret.
    destruct (bool_decide _); reflexivity. }
  destruct (file_close a s) as [[[]|e] s1]; cbn [fst snd] in *;
    [|discriminate].
  unfold bind at 1, ret at 1.
  pose proof (file_close_gone b s1) as H2.
  pose proof (file_close_shrinks b s1) as H3.
  destruct Hfile as [Hfd|Hfd]; rewrite Hfd in *.
  - injection Ha as <-. intros Hin. apply H1.
    apply elem_of_subseteq in H3. apply H3, Hin.
  - injection Hb as <-. exact H2.
Qed.

Lemma close_loop_shrinks (l : list MicroController) s :
  open_fds (snd (for_each l mc_close s)) ⊆ open_fds s.
Proof.
  revert s. induction l as [|mc l IH]; intros s; [reflexivity|].
  cbn [for_each]. unfold bind.
  pose proof (mc_close_shrinks mc s) as H1.
  destruct (mc_close mc s) as [[[]|e] s1]; cbn [fst snd] in *; [|exact H1].
  transitivity (open_fds s1); [apply IH|exact H1].
Qed.

Lemma close_loop_gone (l : list MicroController) mc fd s :
  Forall mc_is_open l → In mc l → file_of mc fd →
  fd ∉ open_fds (snd (for_each l mc_close s)).
Proof.
  intros Hopen. revert s.
  induction Hopen as [|mc0 l Hmc0 Hl IH]; intros s Hin Hfile; [destruct Hin|].
  cbn [for_each]. unfold bind.
  pose proof (close_loop_ok [mc0] s ltac:(constructor; [exact Hmc0|constructor]))
    as Hret.
  cbn [for_each] in Hret. unfold bind in Hret.
  pose proof (fun H => mc_close_gone mc0 fd s Hmc0 H) as Hgone.
  destruct (mc_close mc0 s) as [[[]|e] s1]; cbn [fst snd] in *;
    [|discriminate].
  destruct Hin as [->|Hin].
  - intros Hfd. apply (Hgone Hfile).
    pose proof (close_loop_shrinks l s1) as Hs.
    apply elem_of_subseteq in Hs. apply Hs, Hfd.
  - apply IH; assumption.
Qed.

Lemma release_closes w self s :
  response_write_fd self = Some (S w) → S w ∈ open_fds s →
  Forall mc_is_open (micro_controllers self) →
  (S w ∉ open_fds (snd (release self s)))
  ∧ ∀ mc fd, In mc (micro_controllers self) → file_of mc fd →
             fd ∉ open_fds (snd (release self s)).
Proof.
  intros Hw Hin Hopen.
  unfold release, _close_remote_side_descriptors. rewrite Hw. cbn [fd_truthy].
  assert (Hclose : os_close (Some (S w)) s
                   = (Ret tt, set_trace (cons (EvClose (S w)))
                                (set_open_fds (fun o => o ∖ {[S w]}) s))).
  { unfold os_close, bind, get_state, modify, emit.
    rewrite bool_decide_eq_true_2 by exact Hin. reflexivity. }
  rewrite (bind_ret_run _ _ _ _ _ Hclose).
  set (s1 := set_trace _ _).
  assert (Hgone : S w ∉ open_fds s1).
  { subst s1. destruct s; cbn. apply not_elem_of_difference. right.
    apply elem_of_singleton. reflexivity. }
  split.
  - intros Hfd. apply Hgone.
    pose proof (close_loop_shrinks (micro_controllers self) s1) as Hs.
    apply elem_of_subseteq in Hs. apply Hs, Hfd.
  - intros mc fd Hmc Hfile. apply close_loop_gone with mc; assumption.
Qed.

(** *** What follows the [try] statement *)

Lemma collect_shrinks self s :
  open_fds (snd (collect E self s)) ⊆ open_fds s.
Proof.
  unfold collect, _read_response, _wait_for_read_with_timeout, _cancel,
    os_read_1024, json_loads, os_close.
  destruct (response_read_fd self) as [rfd|]; [|reflexivity].
  unfold bind, get_state, modify, emit, ret, raise.
  destruct s as [tr nf ofd ds sb rh fp ml mm]; cbn.
  destruct (select_ready E rfd (timeout self)); cbn.
  - destruct (os_read E rfd =? "{}")%string; cbn.
    + destruct (bool_decide _); cbn; [|reflexivity].
      apply subseteq_difference_l. reflexivity.
    + destruct (json_valid E (os_read E rfd)); cbn; [|reflexivity].
      destruct (bool_decide _); cbn; [|reflexivity].
      apply subseteq_difference_l. reflexivity.
  - destruct (str_truthy (task_id self)); reflexivity.
Qed.

Lemma collect_leaves fd c rfd self s :
  response_read_fd self = Some rfd → fd ≠ rfd →
  stays_open fd c s → stays_open fd c (snd (collect E self s)).
Proof.
  intros Hrfd Hne [Hin Hc].
  unfold collect, _read_response, _wait_for_read_with_timeout, _cancel,
    os_read_1024, json_loads, os_close.
  rewrite Hrfd.
  unfold bind, get_state, modify, emit, ret, raise.
  destruct s as [tr nf ofd ds sb rh fp ml mm]; cbn in *.
  assert (Hkeep : fd ∈ ofd ∖ {[rfd]}).
  { apply elem_of_difference. split; [exact Hin|].
    intros Heq. apply elem_of_singleton in Heq. contradiction. }
  assert (Hcount : closes fd (EvClose rfd :: EvRead rfd 1024
                                :: EvSelect rfd (timeout self) :: tr) = c).
  { unfold closes in *. cbn.
    destruct (Nat.eqb_spec rfd fd); [congruence|exact Hc]. }
  destruct (select_ready E rfd (timeout self)); cbn.
  - destruct (os_read E rfd =? "{}")%string; cbn.
    + destruct (bool_decide _); cbn; split; assumption.
    + destruct (json_valid E (os_read E rfd)); cbn; [|split; assumption].
      destruct (bool_decide _); cbn; split; assumption.
  - destruct (str_truthy (task_id self)); cbn; split; assumption.
Qed.

Lemma collect_keeps_events ev self s :
  In ev (trace s) → In ev (trace (snd (collect E self s))).
Proof.
  intros Hin.
  unfold collect, _read_response, _wait_for_read_with_timeout, _cancel,
    os_read_1024, json_loads, os_close.
  destruct (response_read_fd self) as [rfd|]; [|exact Hin].
  unfold bind, get_state, modify, emit, ret, raise.
  destruct s as [tr nf ofd ds sb rh fp ml mm]; cbn in *.
  destruct (select_ready E rfd (timeout self)); cbn.
  - destruct (os_read E rfd =? "{}")%string; cbn.
    + destruct (bool_decide _); cbn; auto.
    + destruct (json_valid E (os_read E rfd)); cbn; [|auto].
      destruct (bool_decide _); cbn; auto.
  - destruct (str_truthy (task_id self)); cbn; auto.
Qed.

Lemma collect_counts fd rfd self s :
  response_read_fd self = Some rfd → fd ≠ rfd →
  closes fd (trace (snd (collect E self s))) = closes fd (trace s).
Proof.
  intros Hrfd Hne.
  unfold collect, _read_response, _wait_for_read_with_timeout, _cancel,
    os_read_1024, json_loads, os_close.
  rewrite Hrfd.
  unfold bind, get_state, modify, emit, ret, raise.
  destruct s as [tr nf ofd ds sb rh fp ml mm]; cbn in *.
  assert (Hcount : closes fd (EvClose rfd :: EvRead rfd 1024
                                :: EvSelect rfd (timeout self) :: tr)
                   = closes fd tr).
  { rewrite closes_cons_close.
    destruct (Nat.eqb_spec rfd fd); [congruence|reflexivity]. }
  destruct (select_ready E rfd (timeout self)); cbn.
  - destruct (os_read E rfd =? "{}")%string; cbn.
    + destruct (bool_decide _); cbn; [exact Hcount|reflexivity].
    + destruct (json_valid E (os_read E rfd)); cbn; [|reflexivity].
      destruct (bool_decide _); cbn; [exact Hcount|reflexivity].
  - destruct (str_truthy (task_id self)); reflexivity.
Qed.

Lemma file_of_handler_fds (mcs : list MicroController) mc fd :
  In mc mcs → file_of mc fd → fd ∈ handler_fds mcs.
Proof.
  intros Hmc Hfile. apply list_elem_of_In. unfold handler_fds.
  apply in_flat_map. exists mc. split; [exact Hmc|].
  unfold mc_fds. apply in_or_app.
  destruct Hfile as [-> | ->]; [left|right]; left; reflexivity.
Qed.



(** *** One call, from the first loop to the end *)

Lemma sent_state_open s self :
  (next_fd s ∈ open_fds (sent_state self (after_pipes s)))
  ∧ (S (next_fd s) ∈ open_fds (sent_state self (after_pipes s)))
  ∧ (S (S (next_fd s)) ∈ open_fds (sent_state self (after_pipes s)))
  ∧ (S (S (S (next_fd s))) ∈ open_fds (sent_state self (after_pipes s))).
Proof.
  destruct s. unfold sent_state, after_pipes. cbn.
  repeat split; set_solver.
Qed.

Lemma sent_state_keeps_open s self :
  open_fds s ⊆ open_fds (sent_state self (after_pipes s)).
Proof.
  destruct s. unfold sent_state, after_pipes. cbn.
  repeat (etransitivity; [|apply union_subseteq_r]). reflexivity.
Qed.

Lemma sent_state_trace s self :
  trace (sent_state self (after_pipes s))
  = EvSend (mc_pipe_path self) (fds self) (fdmd self) SBUS_CMD_EXECUTE
    :: EvPipe (2 + next_fd s) (3 + next_fd s)
    :: EvPipe (next_fd s) (1 + next_fd s) :: trace s.
Proof. destruct s. reflexivity. Qed.

(** A call of [communicate] on a protocol object as [__init__] leaves it.
    Either it stops before the [try] statement: nothing was sent, nothing
    was closed.  Or it sends one descriptor set; then [n] being the read
    end of the response pipe, the state [s5] after the [finally] block has
    the read end and both ends of the second pipe open and never closed,
    and the write end of the response pipe and the files of the handlers
    closed. *)
Lemma communicate_outcomes self s :
  fds self = [] → fdmd self = [] → micro_controllers self = [] →
  (∃ e, fst (communicate E self s) = Raise e ∧ stops_early E self e
        ∧ sent_sets (trace (snd (communicate E self s))) = sent_sets (trace s)
        ∧ only_opens s (snd (communicate E self s)))
  ∨ (∃ mcs self3 s5 n,
        communicate E self s
        = (if (sbus_send E (mc_pipe_path self) (fds self3) <? 0)%Z
           then (Raise send_failure, s5) else collect E self3 s5)
        ∧ sent_sets (trace (snd (communicate E self s)))
          = (fds self3, fdmd self3) :: sent_sets (trace s)
        ∧ fds self3
          = [Some (3 + n)%nat; Some (1 + n)%nat]
            ++ map logger_file mcs ++ map metadata_file mcs
        ∧ Forall mc_is_open mcs
        ∧ response_read_fd self3 = Some n
        ∧ timeout self3 = timeout self
        ∧ task_id self3 = task_id self
        ∧ stays_open n (closes n (trace s)) s5
        ∧ stays_open (2 + n) (closes (2 + n) (trace s)) s5
        ∧ stays_open (3 + n) (closes (3 + n) (trace s)) s5
        ∧ ((1 + n)%nat ∉ open_fds s5)
        ∧ (∀ mc fd, In mc mcs → file_of mc fd → fd ∉ open_fds s5)
        ∧ In (EvPipe n (1 + n)) (trace s5)
        ∧ In (EvPipe (2 + n) (3 + n)) (trace s5)
        ∧ fdmd self3 = descriptor_metadata (req_md self) (file_md self) mcs
        ∧ map micro_controller mcs = p_mc_list self
        ∧ Forall (placed (p_file_path self) (mc_logger_path self)) mcs
        ∧ Forall (files_opened (trace s5)) mcs
        ∧ (∀ fd, fd = (1 + n)%nat ∨ fd ∈ handler_fds mcs →
                 closes fd (trace s5) = S (closes fd (trace s)))
        ∧ (∀ fd, fd ∈ handler_fds mcs → (fd < n)%nat)).
Proof.
  intros Hfds Hfdmd Hmcs.
  destruct (communicate_steps self s Hfds Hfdmd Hmcs)
    as [Hearly|(mcs & self3 & s2 & Hrun & Honly & Hsent2 & Hm3 & Hopen
                & Hbelow & F2 & F1 & F4 & F5 & F6 & F7 & F8 & Hnames
                & Hplaced & Hfiles & Hnd & Hfresh)];
    [left; exact Hearly|].
  right. set (n := next_fd s2) in *.
  set (s4 := sent_state self3 (after_pipes s2)).
  destruct (sent_state_open s2 self3) as (I0 & I1 & I2 & I3).
  fold n s4 in I0, I1, I2, I3.
  pose proof (sent_state_trace s2 self3) as Htr4. fold n s4 in Htr4.
  assert (Hc4 : ∀ fd, closes fd (trace s4) = closes fd (trace s)).
  { intros fd. destruct Honly as (C & _). rewrite <- C, Htr4. reflexivity. }
  assert (Hrel : fst (release self3 s4) = Ret tt).
  { apply (release_ok self3 s4 n); [exact F5|exact I1|].
    rewrite Hm3. exact Hopen. }
  rewrite (send_and_release self3 (after_pipes s2) Hrel) in Hrun.
  fold s4 in Hrun. rewrite F6 in Hrun.
  set (s5 := snd (release self3 s4)) in *.
  assert (Hsent5 : sent_sets (trace s5)
                   = (fds self3, fdmd self3) :: sent_sets (trace s)).
  { unfold s5. rewrite (release_keeps_sent self3 s4), Htr4.
    transitivity ((fds self3, fdmd self3) :: sent_sets (trace s2));
      [reflexivity|]. rewrite Hsent2. reflexivity. }
  assert (Hbelow2 : Forall (fds_below (2 + n)) (micro_controllers self3)).
  { rewrite Hm3. eapply Forall_impl; [exact Hbelow|].
    intros mc Hmc. eapply fds_below_mono; [|exact Hmc]. lia. }
  assert (Hbelow3 : Forall (fds_below (3 + n)) (micro_controllers self3)).
  { rewrite Hm3. eapply Forall_impl; [exact Hbelow|].
    intros mc Hmc. eapply fds_below_mono; [|exact Hmc]. lia. }
  destruct (release_closes n self3 s4 F5 I1) as (Hw5 & Hfiles5).
  { rewrite Hm3. exact Hopen. }
  rewrite Hm3 in Hfiles5. fold s5 in Hw5, Hfiles5.
  exists mcs, self3, s5, n.
  split; [exact Hrun|].
  split.
  { rewrite Hrun.
    destruct (sbus_send E (mc_pipe_path self) (fds self3) <? 0)%Z;
      cbn [snd]; [exact Hsent5|].
    rewrite (collect_keeps_sent E self3 s5). exact Hsent5. }
  split; [exact F2|]. split; [exact Hopen|]. split; [exact F4|].
  split; [exact F7|]. split; [exact F8|].
  split.
  { apply (release_leaves n _ n self3 s4 F5); [lia| |].
    - rewrite Hm3. exact Hbelow.
    - split; [exact I0|apply Hc4]. }
  split.
  { apply (release_leaves (2 + n) _ n self3 s4 F5); [lia|exact Hbelow2|].
    split; [exact I2|apply Hc4]. }
  split.
  { apply (release_leaves (3 + n) _ n self3 s4 F5); [lia|exact Hbelow3|].
    split; [exact I3|apply Hc4]. }
  split; [exact Hw5|]. split; [exact Hfiles5|].
  split; [apply release_keeps_events; rewrite Htr4; right; right; left;
          reflexivity|].
  split; [apply release_keeps_events; rewrite Htr4; right; left;
          reflexivity|].
  split; [exact F1|]. split; [exact Hnames|]. split; [exact Hplaced|].
  split.
  { eapply Forall_impl; [exact Hfiles|].
    intros mc Hmc. eapply files_opened_mono; [|exact Hmc].
    intros ev Hev. apply release_keeps_events. rewrite Htr4.
    right. right. right. exact Hev. }
  split; [|intros fd Hfd; apply (Hfresh fd Hfd)].
  intros fd Hfd. unfold s5.
  rewrite (release_counts n self3 s4 F5 I1).
  - rewrite Hm3, bool_decide_eq_true_2 by exact Hfd. rewrite Hc4.
    reflexivity.
  - rewrite Hm3. exact Hopen.
  - rewrite Hm3. exact Hnd.
  - rewrite Hm3. intros x Hx. destruct (Hfresh x Hx) as [Hlt Hin].
    split; [|fold n in Hlt; lia].
    pose proof (sent_state_keeps_open s2 self3) as Hsub.
    apply elem_of_subseteq in Hsub. apply Hsub, Hin.
Qed.

End Descriptors.




(** X11.  The second pipe is never closed.  Its write end is the first
    descriptor of the set that is sent; when [communicate] ends, whether it
    returns or raises, both ends of that pipe are still open in the
    middleware and no close of either happened. *)
Theorem second_pipe_never_closed
    (E : environment) (file_path pipe_path logger_path : string)
    (req_headers file_headers : gmap string string) (chain : list string)
    (metadata : gmap string (gmap string string)) (timeout : Z) (s : state)
    (descriptors : list (option nat)) (set : list (gmap string mdval)) :
  sent_sets
    (trace (snd (communicate E
                   (MicroControllerInvocationProtocol_init
                      file_path pipe_path logger_path req_headers
                      file_headers chain metadata timeout) s)))
  = (descriptors, set) :: sent_sets (trace s) →
  ∃ nr,
    descriptors !! 0%nat = Some (Some (S nr))
    ∧ In (EvPipe nr (S nr))
         (trace (snd (communicate E
                        (MicroControllerInvocationProtocol_init
                           file_path pipe_path logger_path req_headers
                           file_headers chain metadata timeout) s)))
    ∧ stays_open nr (closes nr (trace s))
        (snd (communicate E
                (MicroControllerInvocationProtocol_init
                   file_path pipe_path logger_path req_headers
                   file_headers chain metadata timeout) s))
    ∧ stays_open (S nr) (closes (S nr) (trace s))
        (snd (communicate E
                (MicroControllerInvocationProtocol_init
                   file_path pipe_path logger_path req_headers
                   file_headers chain metadata timeout) s)).
Proof.
  intros Hsent.
  destruct (communicate_outcomes E
              (MicroControllerInvocationProtocol_init
                 file_path pipe_path logger_path req_headers
                 file_headers chain metadata timeout) s)
    as [(e & _ & _ & Hnone & _)
       |(mcs & self3 & s5 & n & Hrun & Hsent' & Hfds & _ & Hrfd & _ & _ & _
         & Hr & Hw & _ & _ & _ & Hpipe & _)]; try reflexivity.
  - rewrite Hsent in Hnone. symmetry in Hnone.
    apply cons_neq_self in Hnone. contradiction.
  - rewrite Hsent in Hsent'. injection Hsent' as -> _.
    exists (2 + n)%nat. split; [rewrite Hfds; reflexivity|].
    rewrite Hrun.
    destruct (sbus_send E _ (fds self3) <? 0)%Z; cbn [snd].
    + split; [exact Hpipe|]. split; [exact Hr|exact Hw].
    + split; [apply collect_keeps_events; exact Hpipe|].
      split; apply (collect_leaves E _ _ n); auto; lia.
Qed.

Lemma second_pipe_never_closed_witness :
  ∃ nr,
    [Some 8%nat; Some 6%nat; Some 4%nat; Some 3%nat] !! 0%nat
    = Some (Some (S nr))
    ∧ In (EvPipe nr (S nr))
         (trace (snd (communicate (Sample.env 0 0 true) sample_protocol
                        (Sample.start None))))
    ∧ stays_open nr (closes nr (trace (Sample.start None)))
        (snd (communicate (Sample.env 0 0 true) sample_protocol
                (Sample.start None)))
    ∧ stays_open (S nr) (closes (S nr) (trace (Sample.start None)))
        (snd (communicate (Sample.env 0 0 true) sample_protocol
                (Sample.start None))).
Proof.
  apply (second_pipe_never_closed (Sample.env 0 0 true)
           "/srv/node/sdb/objects/1/abc/hash" "/pipes/bd34c4073b654/mc_pipe"
           "/log/bd34c4073b654/" sample_request_headers
           sample_file_headers ["a.mc"] sample_metadata 20
           (Sample.start None)
           [Some 8%nat; Some 6%nat; Some 4%nat; Some 3%nat] sample_set).
  vm_compute. reflexivity.
Defined.

(** X12.  Every descriptor of the set after the first (the write end of
    the response pipe, the log files, the metadata files) is a descriptor
    that was handed over, and the middleware closes it exactly once: when
    [communicate] ends, whether it returns or raises, the descriptor is
    closed and one close of it has happened since the call began. *)
Theorem handed_over_descriptors_closed
    (E : environment) (file_path pipe_path logger_path : string)
    (req_headers file_headers : gmap string string) (chain : list string)
    (metadata : gmap string (gmap string string)) (timeout : Z) (s : state)
    (descriptors : list (option nat)) (set : list (gmap string mdval)) :
  sent_sets
    (trace (snd (communicate E
                   (MicroControllerInvocationProtocol_init
                      file_path pipe_path logger_path req_headers
                      file_headers chain metadata timeout) s)))
  = (descriptors, set) :: sent_sets (trace s) →
  Forall (fun d =>
            ∃ fd, d = Some fd
                  ∧ (fd ∉ open_fds
                            (snd (communicate E
                                    (MicroControllerInvocationProtocol_init
                                       file_path pipe_path logger_path
                                       req_headers file_headers chain
                                       metadata timeout) s)))
                  ∧ closes fd
                      (trace (snd (communicate E
                                     (MicroControllerInvocationProtocol_init
                                        file_path pipe_path logger_path
                                        req_headers file_headers chain
                                        metadata timeout) s)))
                    = S (closes fd (trace s)))
         (tail descriptors).
Proof.
  intros Hsent.
  destruct (communicate_outcomes E
              (MicroControllerInvocationProtocol_init
                 file_path pipe_path logger_path req_headers
                 file_headers chain metadata timeout) s)
    as [(e & _ & _ & Hnone & _)
       |(mcs & self3 & s5 & n & Hrun & Hsent' & Hfds & Hopen & Hrfd & _ & _
         & _ & _ & _ & Hw5 & Hfiles5 & _ & _ & _ & _ & _ & _ & Hcount
         & Hlt)]; try reflexivity.
  - rewrite Hsent in Hnone. symmetry in Hnone.
    apply cons_neq_self in Hnone. contradiction.
  - rewrite Hsent in Hsent'. injection Hsent' as -> _.
    rewrite Hrun, Hfds. cbn [app tail].
    assert (Hgone : ∀ (b : bool) fd,
               fd ≠ n → fd ∉ open_fds s5 →
               closes fd (trace s5) = S (closes fd (trace s)) →
               (fd ∉ open_fds (snd (if b then (Raise send_failure, s5)
                                    else collect E self3 s5)))
               ∧ closes fd (trace (snd (if b then (Raise send_failure, s5)
                                        else collect E self3 s5)))
                 = S (closes fd (trace s))).
    { intros b fd Hne Hfd Hc. destruct b; cbn [snd]; [auto|]. split.
      - intros Hin. apply Hfd.
        pose proof (collect_shrinks E self3 s5) as Hs.
        apply elem_of_subseteq in Hs. apply Hs, Hin.
      - rewrite (collect_counts E fd n self3 s5 Hrfd Hne). exact Hc. }
    constructor.
    { exists (1 + n)%nat. split; [reflexivity|].
      apply Hgone; [lia|exact Hw5|]. apply Hcount. left. reflexivity. }
    apply Forall_app. split; apply List.Forall_forall; intros d Hd;
      apply in_map_iff in Hd as (mc & <- & Hmc);
      destruct (proj1 (List.Forall_forall _ _) Hopen mc Hmc)
        as ([a Ha] & [b Hb]).
    + exists b. split; [exact Hb|].
      assert (Hfile : file_of mc b) by (right; exact Hb).
      pose proof (file_of_handler_fds mcs mc b Hmc Hfile) as Hin.
      apply Hgone; [specialize (Hlt b Hin); lia|exact (Hfiles5 mc b Hmc Hfile)|].
      apply Hcount. right. exact Hin.
    + exists a. split; [exact Ha|].
      assert (Hfile : file_of mc a) by (left; exact Ha).
      pose proof (file_of_handler_fds mcs mc a Hmc Hfile) as Hin.
      apply Hgone; [specialize (Hlt a Hin); lia|exact (Hfiles5 mc a Hmc Hfile)|].
      apply Hcount. right. exact Hin.
Qed.

Lemma handed_over_descriptors_closed_witness :
  Forall (fun d =>
            ∃ fd, d = Some fd
                  ∧ (fd ∉ open_fds
                            (snd (communicate (Sample.env 0 0 false)
                                    sample_protocol (Sample.start None))))
                  ∧ closes fd
                      (trace (snd (communicate (Sample.env 0 0 false)
                                     sample_protocol (Sample.start None))))
                    = S (closes fd (trace (Sample.start None))))
         (tail [Some 8%nat; Some 6%nat; Some 4%nat; Some 3%nat]).
Proof.
  apply (handed_over_descriptors_closed (Sample.env 0 0 false)
           "/srv/node/sdb/objects/1/abc/hash" "/pipes/bd34c4073b654/mc_pipe"
           "/log/bd34c4073b654/" sample_request_headers
           sample_file_headers ["a.mc"] sample_metadata 20
           (Sample.start None)
           [Some 8%nat; Some 6%nat; Some 4%nat; Some 3%nat] sample_set).
  vm_compute. reflexivity.
Defined.

(** X13.  A call of [communicate] that sends nothing has raised before the
    [try] statement, on a handler without a complete entry in the handler
    metadata or on a file that cannot be opened, and it has closed
    nothing: every descriptor that was open before is still open, and so
    is every file the call itself had opened for the handlers before the
    one that failed. *)
Theorem unsent_invocation_closes_nothing
    (E : environment) (file_path pipe_path logger_path : string)
    (req_headers file_headers : gmap string string) (chain : list string)
    (metadata : gmap string (gmap string string)) (timeout : Z) (s : state) :
  sent_sets
    (trace (snd (communicate E
                   (MicroControllerInvocationProtocol_init
                      file_path pipe_path logger_path req_headers
                      file_headers chain metadata timeout) s)))
  = sent_sets (trace s) →
  ∃ e,
    fst (communicate E
           (MicroControllerInvocationProtocol_init
              file_path pipe_path logger_path req_headers
              file_headers chain metadata timeout) s) = Raise e
    ∧ stops_early E
        (MicroControllerInvocationProtocol_init
           file_path pipe_path logger_path req_headers
           file_headers chain metadata timeout) e
    ∧ only_opens s
        (snd (communicate E
                (MicroControllerInvocationProtocol_init
                   file_path pipe_path logger_path req_headers
                   file_headers chain metadata timeout) s)).
Proof.
  intros Hsent.
  destruct (communicate_outcomes E
              (MicroControllerInvocationProtocol_init
                 file_path pipe_path logger_path req_headers
                 file_headers chain metadata timeout) s)
    as [(e & He & Hearly & _ & Honly)
       |(mcs & self3 & s5 & n & _ & Hsent' & _)]; try reflexivity.
  - exists e. auto.
  - rewrite Hsent in Hsent'. apply cons_neq_self in Hsent'. contradiction.
Qed.

(** The sample deployment on a host where the files next to the object can
    be opened but the log files cannot. *)
Definition env_without_logs : environment :=
  Environment Sample.store (fun _ => Some DEFAULT_MD_STRING) "" 0%Z
    (fun _ => 0%Z) (String.prefix "/srv") (fun _ _ => 0%Z) (fun _ _ => true)
    (fun _ => "{}") (fun _ => true).

(** The metadata file of [a.mc] is opened as descriptor 3, the log file
    cannot be opened: the call raises with descriptor 3 left open. *)
Lemma unsent_invocation_closes_nothing_witness :
  ∃ e,
    fst (communicate env_without_logs sample_protocol (Sample.start None))
    = Raise e
    ∧ stops_early env_without_logs sample_protocol e
    ∧ only_opens (Sample.start None)
        (snd (communicate env_without_logs sample_protocol
                (Sample.start None))).
Proof.
  apply (unsent_invocation_closes_nothing env_without_logs
           "/srv/node/sdb/objects/1/abc/hash" "/pipes/bd34c4073b654/mc_pipe"
           "/log/bd34c4073b654/" sample_request_headers
           sample_file_headers ["a.mc"] sample_metadata 20
           (Sample.start None)).
  vm_compute. reflexivity.
Defined.

(** In that run the metadata file is the one descriptor opened, and it is
    open at the end. *)
Lemma metadata_file_left_open :
  fst (communicate env_without_logs sample_protocol (Sample.start None))
  = Raise (IOError "/log/bd34c4073b654/com.A/a.log")
  ∧ opened (trace (snd (communicate env_without_logs sample_protocol
                          (Sample.start None)))) = [3%nat]
  ∧ bool_decide (3%nat ∈ open_fds (snd (communicate env_without_logs
                                           sample_protocol
                                           (Sample.start None)))) = true
  ∧ closes 3 (trace (snd (communicate env_without_logs sample_protocol
                            (Sample.start None)))) = 0%nat.
Proof. vm_compute. repeat split; reflexivity. Qed.

(** X14.  Descriptors and their metadata are paired by position, handler
    by handler.  The set that is sent is built from one list of handler
    objects, one per name of the chain and in its order: after the two pipe
    ends come the log descriptors, then the metadata descriptors, and the
    metadata list carries at the same positions the entries tagged with
    these handlers.  The log descriptor of a handler is its log file
    [logger_path/main/stem.log] opened for appending, its metadata
    descriptor is the file [file_path/stem.md] next to the object, opened
    for reading and appending. *)
Theorem descriptors_paired_with_handlers
    (E : environment) (file_path pipe_path logger_path : string)
    (req_headers file_headers : gmap string string) (chain : list string)
    (metadata : gmap string (gmap string string)) (timeout : Z) (s : state)
    (descriptors : list (option nat)) (set : list (gmap string mdval)) :
  sent_sets
    (trace (snd (communicate E
                   (MicroControllerInvocationProtocol_init
                      file_path pipe_path logger_path req_headers
                      file_headers chain metadata timeout) s)))
  = (descriptors, set) :: sent_sets (trace s) →
  ∃ nw rw mcs,
    map micro_controller mcs = chain
    ∧ descriptors
      = Some nw :: Some rw
        :: map logger_file mcs ++ map metadata_file mcs
    ∧ set
      = input_md (delete "Cookie" (delete "X-Service-Catalog" req_headers))
          file_headers
        :: output_md
        :: map logger_md mcs ++ map metadata_md mcs
    ∧ Forall (placed file_path logger_path) mcs
    ∧ Forall (files_opened
                (trace (snd (communicate E
                               (MicroControllerInvocationProtocol_init
                                  file_path pipe_path logger_path req_headers
                                  file_headers chain metadata timeout) s))))
             mcs.
Proof.
  intros Hsent.
  destruct (communicate_outcomes E
              (MicroControllerInvocationProtocol_init
                 file_path pipe_path logger_path req_headers
                 file_headers chain metadata timeout) s)
    as [(e & _ & _ & Hnone & _)
       |(mcs & self3 & s5 & n & Hrun & Hsent' & Hfds & _ & _ & _ & _ & _
         & _ & _ & _ & _ & _ & _ & Hfdmd & Hnames & Hplaced & Hfiles & _)];
    try reflexivity.
  - rewrite Hsent in Hnone. symmetry in Hnone.
    apply cons_neq_self in Hnone. contradiction.
  - rewrite Hsent in Hsent'. injection Hsent' as -> ->.
    exists (3 + n)%nat, (1 + n)%nat, mcs.
    split; [exact Hnames|]. split; [exact Hfds|]. split; [exact Hfdmd|].
    split; [exact Hplaced|].
    rewrite Hrun.
    destruct (sbus_send E _ (fds self3) <? 0)%Z; cbn [snd]; [exact Hfiles|].
    eapply Forall_impl; [exact Hfiles|].
    intros mc Hmc. eapply files_opened_mono; [|exact Hmc].
    intros ev. apply collect_keeps_events.
Qed.

Lemma descriptors_paired_with_handlers_witness :
  ∃ nw rw mcs,
    map micro_controller mcs = ["a.mc"]
    ∧ [Some 8%nat; Some 6%nat; Some 4%nat; Some 3%nat]
      = Some nw :: Some rw
        :: map logger_file mcs ++ map metadata_file mcs
    ∧ sample_set
      = input_md
          (delete "Cookie" (delete "X-Service-Catalog" sample_request_headers))
          sample_file_headers
        :: output_md
        :: map logger_md mcs ++ map metadata_md mcs
    ∧ Forall (placed "/srv/node/sdb/objects/1/abc/hash" "/log/bd34c4073b654/")
             mcs
    ∧ Forall (files_opened
                (trace (snd (communicate (Sample.env 0 0 true)
                               sample_protocol (Sample.start None)))))
             mcs.
Proof.
  apply (descriptors_paired_with_handlers (Sample.env 0 0 true)
           "/srv/node/sdb/objects/1/abc/hash" "/pipes/bd34c4073b654/mc_pipe"
           "/log/bd34c4073b654/" sample_request_headers
           sample_file_headers ["a.mc"] sample_metadata 20
           (Sample.start None)
           [Some 8%nat; Some 6%nat; Some 4%nat; Some 3%nat] sample_set).
  vm_compute. reflexivity.
Defined.

(** * From the assignment to the invocation: the parameters file *)

Section ParametersFile.

Variable E : environment.
Variable self : VertigoGatewayDocker.

(** [self.file_path]: the directory of the data file of the object. *)
Definition object_dir (resp : response) : string :=
  default "" (head (PyStr.rsplit "/" 1 (app_iter_data_file resp))).

Lemma verify_sets_file_path s :
  file_path (snd (verify_and_update_cache E self s))
  = head (PyStr.rsplit "/" 1 (app_iter_data_file (orig_resp self))).
Proof.
  unfold verify_and_update_cache.
  rewrite (bind_ret_run _ _ tt s _
             (run_ret _ _ _ (start_internal_client_daemon_ok E self s))).
  set (s1 := snd (start_internal_client_daemon E self s)).
  rewrite (bind_ret_run _ _ tt s1 _
             (run_ret _ _ _ (proj1 (start_container_run E self s1)))).
  set (s2 := snd (start_container E self s1)).
  assert (Hkeep : keeps file_path
                    (mcs <- iter_mc_list ;;
                     for_each mcs (verify_microcontroller E self)))
    by keeps_method.
  unfold bind at 1. unfold modify at 1. rewrite Hkeep. reflexivity.
Qed.

(** A chain that passes the verification is handed to [communicate] with
    the directory of the object as [file_path]. *)
Lemma execute_resolved_run s chain :
  mc_list s = Some chain → check_chain E self chain = None →
  ∃ s2 md,
    execute_microcontrollers E self s
    = communicate E
        (MicroControllerInvocationProtocol_init
           (object_dir (orig_resp self))
           (pipes_dir (conf self) +:+ "/" +:+ scope self +:+ "/"
            +:+ mc_pipe (conf self))
           (log_dir (conf self) +:+ "/" +:+ scope self +:+ "/")
           (<["X-Current-Server" := current_server self]> (req_headers s))
           (headers (orig_resp self)) chain md (mc_timeout self)) s2
    ∧ sent_sets (trace s2) = sent_sets (trace s)
    ∧ (∀ h, h ∈ chain → md !! h = Some (headers_of E self h)).
Proof.
  intros Hlist Hnone.
  destruct (verify_and_update_cache_run E self chain s Hlist) as (Hfst & Hrec).
  rewrite Hnone in Hfst. cbn in Hfst. specialize (Hrec Hnone).
  rewrite execute_microcontrollers_run.
  pose proof (verify_keeps_sent E self s) as Ksent.
  pose proof (verify_keeps_req_headers E self s) as Kreq.
  pose proof (verify_keeps_mc_list E self s) as Klist.
  pose proof (verify_sets_file_path s) as Kfile.
  destruct (verify_and_update_cache E self s) as [[[]|e'] s1];
    cbn [fst snd] in *; [|discriminate].
  rewrite Hlist in Klist.
  rewrite (bind_ret_run _ _ _ _ _ (build_protocol_run self chain s1 Klist)).
  rewrite Kfile, Kreq. eexists _, _.
  split; [reflexivity|]. split; [|exact Hrec].
  destruct s1; exact Ksent.
Qed.

End ParametersFile.

(** X15.  The parameters file of a handler reaches the sandbox.  When a
    single handler [mc] is assigned to an object, [set_microcontroller]
    writes the body of the request to the file [stem.md] in the directory
    of the object; an invocation of the chain [mc] on the same object opens
    exactly that file for reading and appending and sends its descriptor
    as the last descriptor of the set, the metadata stream of the
    handler. *)
Theorem parameters_file_is_sent_as_metadata_stream
    (E : environment) (self : VertigoGatewayDocker) (s : state)
    (get_resp : response) (body header mc t : string) (w : md_world) :
  PyStr.rsplit "-" 1 header !! 1%nat = Some t →
  (∀ c, In c (list_ascii_of_string mc) → c ≠ ","%char) →
  app_iter_data_file get_resp = app_iter_data_file (orig_resp self) →
  mc_list s = Some (PyStr.split "," mc) →
  resolved_handler E self mc →
  (∀ path, can_open E path = true) →
  ∃ path fd descriptors set,
    In (EvWrite path body)
       (md_trace (snd (set_microcontroller get_resp body header mc w)))
    ∧ In (EvOpen path "a+" fd)
         (trace (snd (execute_microcontrollers E self s)))
    ∧ sent_sets (trace (snd (execute_microcontrollers E self s)))
      = (descriptors, set) :: sent_sets (trace s)
    ∧ last descriptors = Some (Some fd).
Proof.
  intros Ht Hsingle Hfile Hlist Hres Hopen.
  rewrite (split_without_separator _ _ Hsingle) in Hlist.
  assert (Hall : ∀ h, h ∈ [mc] → resolved_handler E self h).
  { intros h Hh. apply list_elem_of_singleton in Hh as ->. exact Hres. }
  pose proof (check_chain_resolved E self [mc] Hall) as Hcheck.
  destruct (execute_resolved_run E self s [mc] Hlist Hcheck)
    as (s2 & md & Hrun & Hsent2 & Hmd).
  set (p := MicroControllerInvocationProtocol_init _ _ _ _ _ _ _ _) in Hrun.
  assert (Hposs : ∃ descriptors set,
             sent_sets (trace (snd (communicate E p s2)))
             = (descriptors, set) :: sent_sets (trace s2)).
  { destruct (communicate_sends_when_possible E (p_file_path p)
                (mc_pipe_path p) (mc_logger_path p)
                (<["X-Current-Server" := current_server self]> (req_headers s))
                (headers (orig_resp self)) [mc] md (mc_timeout self) s2)
      as (ds & st & Hone & _); [|exact Hopen|exists ds, st; exact Hone].
    intros h Hh. destruct (Hall h Hh) as (_ & main & deps & Hm & Hd & _).
    exists (headers_of E self h). rewrite Hm, Hd. split; [auto|]. eauto. }
  destruct Hposs as (ds & st & Hone).
  destruct (communicate_outcomes E p s2)
    as [(e & _ & _ & Hnone & _)
       |(mcs & self3 & s5 & n & Hrun3 & Hsent' & Hfds & _ & _ & _ & _ & _
         & _ & _ & _ & _ & _ & _ & _ & Hnames & Hplaced & Hfiles & _)];
    try reflexivity.
  { rewrite Hone in Hnone. symmetry in Hnone.
    apply cons_neq_self in Hnone. contradiction. }
  cbn [p_mc_list p MicroControllerInvocationProtocol_init] in Hnames.
  destruct mcs as [|m0 [|m1 mcs]]; try discriminate.
  injection Hnames as Hname.
  apply Forall_inv in Hplaced as [Hmdpath _].
  apply Forall_inv in Hfiles as (a & b & Ha & Hb & Hma & _).
  cbn [p_file_path p MicroControllerInvocationProtocol_init] in Hmdpath.
  rewrite Hname in Hmdpath.
  exists (full_md_path m0), a, (fds self3), (fdmd self3).
  split; [|split; [|split]].
  - unfold set_microcontroller. rewrite Ht. cbn.
    rewrite Hmdpath. unfold object_dir. rewrite Hfile.
    destruct (ref_setitem _ _ _ _) as [r w1]. cbn. auto.
  - rewrite Hrun.
    assert (Hend : In (EvOpen (full_md_path m0) "a+" a)
                      (trace (snd (communicate E p s2)))).
    { rewrite Hrun3.
      destruct (sbus_send E _ (fds self3) <? 0)%Z; cbn [snd]; [exact Hma|].
      apply collect_keeps_events. exact Hma. }
    exact Hend.
  - rewrite Hrun, Hsent', Hsent2. reflexivity.
  - rewrite Hfds. cbn. rewrite Ha. reflexivity.
Qed.

Lemma parameters_file_is_sent_as_metadata_stream_witness :
  ∃ path fd descriptors set,
    In (EvWrite path "params")
       (md_trace (snd (set_microcontroller (orig_resp Sample.gw) "params"
                         "X-Vertigo-Onget" "a.mc" fresh_world)))
    ∧ In (EvOpen path "a+" fd)
         (trace (snd (execute_microcontrollers (Sample.env 0 0 true)
                        Sample.gw (Sample.start (Some ["a.mc"])))))
    ∧ sent_sets (trace (snd (execute_microcontrollers (Sample.env 0 0 true)
                               Sample.gw (Sample.start (Some ["a.mc"])))))
      = (descriptors, set) :: sent_sets (trace (Sample.start (Some ["a.mc"])))
    ∧ last descriptors = Some (Some fd).
Proof.
  apply (parameters_file_is_sent_as_metadata_stream (Sample.env 0 0 true)
           Sample.gw (Sample.start (Some ["a.mc"])) (orig_resp Sample.gw)
           "params" "X-Vertigo-Onget" "a.mc" "Onget" fresh_world).
  - reflexivity.
  - intros c Hc. cbn in Hc.
    repeat (destruct Hc as [<-|Hc]; [discriminate|]). destruct Hc.
  - reflexivity.
  - reflexivity.
  - apply sample_handler_resolved. apply list_elem_of_singleton. reflexivity.
  - intros path. reflexivity.
Defined.

(** The hypothesis of a single handler is needed.  For the handler list
    [a.mc,a.mc] the parameters are written to a file named after the whole
    list, which no invocation opens: the invocation of the chain opens
    [a.md], once for each of its two handlers. *)
Lemma parameters_of_a_handler_list_are_not_opened :
  md_trace (snd (set_microcontroller (orig_resp Sample.gw) "params"
                   "X-Vertigo-Onget" "a.mc,a.mc" fresh_world))
  = [EvLog "info" "Vertigo - File path: /srv/node/sdb/objects/1/abc/hash";
     EvWrite "/srv/node/sdb/objects/1/abc/hash/a.mc,a.md" "params";
     EvLog "info" "Vertigo - File path: /srv/node/sdb/objects/1/abc/hash"]
  ∧ List.filter
      (fun e => match e with EvOpen _ "a+" _ => true | _ => false end)
      (trace (snd (execute_microcontrollers (Sample.env 0 0 true) Sample.gw
                     (Sample.start (Some (PyStr.split "," "a.mc,a.mc"))))))
    = [EvOpen "/srv/node/sdb/objects/1/abc/hash/a.md" "a+" 5;
       EvOpen "/srv/node/sdb/objects/1/abc/hash/a.md" "a+" 3].
Proof. vm_compute. split; reflexivity. Qed.

(** * More of [get_microcontrollers] and [execute_microcontrollers]: the
      requests that have no chain *)

(** X16.  [get_microcontrollers] without a handler list.  It returns
    [False] exactly when the object carries no trigger record or an empty
    one, and then [self.mc_list] is not assigned.  On a record that is not
    empty but has no entry for the trigger of the request method (the
    method decides the key: ["on"] followed by the lower-cased method) it
    raises [KeyError] of that key; it raises nothing else. *)
Theorem get_microcontrollers_without_trigger
    (E : environment) (self : VertigoGatewayDocker) (s : state) :
  (fst (get_microcontrollers E self s) = Ret false
   ↔ read_metadata E (app_iter_fp (orig_resp self)) = None
     ∨ read_metadata E (app_iter_fp (orig_resp self)) = Some ∅)
  ∧ (fst (get_microcontrollers E self s) = Ret false →
     snd (get_microcontrollers E self s) = s)
  ∧ (∀ e, fst (get_microcontrollers E self s) = Raise e
          ↔ e = KeyError ("on" +:+ PyStr.lower (REQUEST_METHOD (orig_resp self)))
            ∧ ∃ md, read_metadata E (app_iter_fp (orig_resp self)) = Some md
                    ∧ md ≠ ∅
                    ∧ md !! ("on" +:+ PyStr.lower
                                        (REQUEST_METHOD (orig_resp self)))
                      = None)
  ∧ (∀ e, fst (get_microcontrollers E self s) = Raise e →
          snd (get_microcontrollers E self s) = s).
Proof.
  destruct (read_metadata E (app_iter_fp (orig_resp self))) as [md|] eqn:Hmd.
  2:{ assert (Hrun : get_microcontrollers E self s = (Ret false, s))
        by (unfold get_microcontrollers; rewrite Hmd; reflexivity).
      rewrite Hrun. cbn [fst snd].
      split; [split; auto|]. split; [auto|].
      split; [|discriminate].
      intros e. split; [discriminate|].
      intros [_ [md [Hno _]]]. discriminate. }
  destruct (decide (md = ∅)) as [->|Hne].
  { assert (Hrun : get_microcontrollers E self s = (Ret false, s)).
    { unfold get_microcontrollers. rewrite Hmd. unfold md_truthy.
      rewrite bool_decide_eq_true_2 by reflexivity. reflexivity. }
    rewrite Hrun. cbn [fst snd].
    split; [split; auto|]. split; [auto|].
    split; [|discriminate].
    intros e. split; [discriminate|].
    intros [_ [md [Hsome [Hne _]]]]. injection Hsome as <-. contradiction. }
  destruct (md !! ("on" +:+ PyStr.lower (REQUEST_METHOD (orig_resp self))))
    as [v|] eqn:Hv.
  - rewrite (get_microcontrollers_run E self s md v Hmd Hv). cbn [fst snd].
    split; [split; [discriminate|]|].
    { intros [Hnone|Hsome]; [discriminate|]. injection Hsome as ->.
      contradiction. }
    split; [discriminate|]. split; [|discriminate].
    intros e. split; [discriminate|].
    intros [_ [md' [Hsome [_ Hno]]]]. injection Hsome as <-. congruence.
  - assert (Hrun : get_microcontrollers E self s
                   = (Raise (KeyError
                               ("on" +:+ PyStr.lower
                                           (REQUEST_METHOD (orig_resp self)))),
                      s)).
    { unfold get_microcontrollers. rewrite Hmd. unfold md_truthy.
      rewrite bool_decide_eq_false_2 by exact Hne.
      unfold bind, getitem, modify, ret, raise. simpl. rewrite Hv.
      reflexivity. }
    rewrite Hrun. cbn [fst snd].
    split; [split; [discriminate|]|].
    { intros [Hnone|Hsome]; [discriminate|]. injection Hsome as ->.
      contradiction. }
    split; [discriminate|]. split; [|reflexivity].
    intros e. split.
    + intros [= <-]. split; [reflexivity|]. exists md. auto.
    + intros [-> _]. reflexivity.
Qed.

(** The sample object carries the four default triggers; a HEAD request
    looks up the key [onhead]. *)
Definition head_request : VertigoGatewayDocker :=
  Gateway (Response "HEAD" 7 "/srv/node/sdb/objects/1/abc/hash/1.data" ∅)
          Sample.cfg "AUTH_bd34c4073b65426894545b36f0d8dcce".

Lemma head_request_raises_key_error :
  get_microcontrollers (Sample.env 0 0 true) head_request (Sample.start None)
  = (Raise (KeyError "onhead"), Sample.start None).
Proof. reflexivity. Qed.

(** X17.  [execute_microcontrollers] before any handler list was set.
    [self.mc_list] is still the [None] of [__init__]: the internal client
    and the container are started first, then the loop over [None] raises
    [TypeError]; no request reaches the store, nothing is written, opened
    or sent, and the request object is not touched. *)
Theorem execute_without_chain_raises_type_error
    (E : environment) (self : VertigoGatewayDocker) (s : state) :
  mc_list s = None →
  fst (execute_microcontrollers E self s)
  = Raise (TypeError "'NoneType' object is not iterable")
  ∧ In (EvLog "info" ("Vertigo - Starting container "
                      +:+ docker_container_name self +:+ " ..."))
       (trace (snd (execute_microcontrollers E self s)))
  ∧ cache_traffic (trace (snd (execute_microcontrollers E self s)))
    = cache_traffic (trace s)
  ∧ opened (trace (snd (execute_microcontrollers E self s)))
    = opened (trace s)
  ∧ sent_sets (trace (snd (execute_microcontrollers E self s)))
    = sent_sets (trace s)
  ∧ req_headers (snd (execute_microcontrollers E self s)) = req_headers s.
Proof.
  intros Hlist.
  assert (Hrun : ∃ s2,
             verify_and_update_cache E self s
             = (Raise (TypeError "'NoneType' object is not iterable"), s2)
             ∧ cache_traffic (trace s2) = cache_traffic (trace s)
             ∧ In (EvLog "info" ("Vertigo - Starting container "
                                 +:+ docker_container_name self +:+ " ..."))
                  (trace s2)).
  { unfold verify_and_update_cache.
    rewrite (bind_ret_run _ _ tt s _
               (run_ret _ _ _ (start_internal_client_daemon_ok E self s))).
    set (s1 := snd (start_internal_client_daemon E self s)).
    assert (Hl1 : mc_list s1 = None)
      by (unfold s1; rewrite daemon_keeps_mc_list; exact Hlist).
    rewrite (bind_ret_run _ _ tt s1 _
               (run_ret _ _ _ (proj1 (start_container_run E self s1)))).
    set (s2 := snd (start_container E self s1)).
    assert (Hl2 : mc_list s2 = None)
      by (unfold s2; rewrite container_keeps_mc_list; exact Hl1).
    eexists. split; [|split].
    - unfold bind, modify, iter_mc_list, get_state. cbn. rewrite Hl2.
      reflexivity.
    - change (cache_traffic (trace s2) = cache_traffic (trace s)).
      unfold s2. rewrite container_keeps_traffic.
      unfold s1. apply daemon_keeps_traffic.
    - change (In (EvLog "info" ("Vertigo - Starting container "
                                +:+ docker_container_name self +:+ " ..."))
                 (trace s2)).
      unfold s2, start_container, subprocess_call_docker_run, time_sleep,
        logger_info, bind, emit, modify, get_state, ret.
      cbn. destruct (bool_decide _); cbn; [auto|].
      destruct (docker_launch_rc E (docker_image_name self) =? 0)%Z eqn:Hrc;
        cbn; [auto 6|].
      rewrite Hrc. cbn. auto. }
  destruct Hrun as (s2 & Hrun & Htraffic & Hshell).
  pose proof (verify_keeps_opened E self s) as Kopen.
  pose proof (verify_keeps_sent E self s) as Ksent.
  pose proof (verify_keeps_req_headers E self s) as Kreq.
  rewrite execute_microcontrollers_run. rewrite Hrun in *.
  cbn [fst snd] in *. auto 8.
Qed.

Lemma execute_without_chain_raises_type_error_witness :
  fst (execute_microcontrollers (Sample.env 0 0 true) Sample.gw
         (Sample.start None))
  = Raise (TypeError "'NoneType' object is not iterable")
  ∧ In (EvLog "info" ("Vertigo - Starting container "
                      +:+ docker_container_name Sample.gw +:+ " ..."))
       (trace (snd (execute_microcontrollers (Sample.env 0 0 true) Sample.gw
                      (Sample.start None))))
  ∧ cache_traffic
      (trace (snd (execute_microcontrollers (Sample.env 0 0 true) Sample.gw
                     (Sample.start None))))
    = cache_traffic (trace (Sample.start None))
  ∧ opened (trace (snd (execute_microcontrollers (Sample.env 0 0 true)
                          Sample.gw (Sample.start None))))
    = opened (trace (Sample.start None))
  ∧ sent_sets (trace (snd (execute_microcontrollers (Sample.env 0 0 true)
                             Sample.gw (Sample.start None))))
    = sent_sets (trace (Sample.start None))
  ∧ req_headers (snd (execute_microcontrollers (Sample.env 0 0 true)
                        Sample.gw (Sample.start None)))
    = req_headers (Sample.start None).
Proof.
  apply (execute_without_chain_raises_type_error (Sample.env 0 0 true)
           Sample.gw (Sample.start None)).
  reflexivity.
Defined.

(** * The scope of a tenant *)

Lemma substring_full s : String.substring 0 (String.length s) s = s.
Proof. induction s as [|c s IH]; cbn; [reflexivity|]. rewrite IH. reflexivity. Qed.

Lemma prefix_substring_0 m s :
  String.prefix (String.substring 0 m s) s = true.
Proof.
  revert m. induction s as [|c s IH]; intros [|m]; cbn; try reflexivity.
  destruct (Ascii.ascii_dec c c); [apply IH|contradiction].
Qed.

Lemma prefix_substring n m s :
  String.prefix (String.substring n m s)
                (String.substring n (String.length s - n) s) = true.
Proof.
  revert n. induction s as [|c s IH]; intros [|n].
  - destruct m; reflexivity.
  - reflexivity.
  - rewrite Nat.sub_0_r, substring_full. apply prefix_substring_0.
  - cbn. apply IH.
Qed.

Lemma substring_of_tail n m s :
  String.substring n m s
  = String.substring 0 m (String.substring n (String.length s - n) s).
Proof.
  revert n. induction s as [|c s IH]; intros [|n].
  - destruct m; reflexivity.
  - destruct m; reflexivity.
  - rewrite Nat.sub_0_r, substring_full. reflexivity.
  - cbn. apply IH.
Qed.

(** X18.  The scope of a gateway, which names the directories of the
    pipes, of the cache and of the logs, is cut out of the account name at
    fixed positions.  For an account with the [auth_] prefix (in any case)
    it is a prefix of the account id after which the container is named.
    The first five characters are never looked at: two accounts that agree
    from the sixth character on have the same scope. *)
Theorem scope_is_cut_from_account_tail (self self' : VertigoGatewayDocker) :
  (PyStr.startswith "auth_" (PyStr.lower (account self)) = true →
   String.prefix (scope self) (account_id self) = true)
  ∧ (PyStr.slice_from 5 (account self) = PyStr.slice_from 5 (account self') →
     scope self = scope self').
Proof.
  unfold scope, account_id, PyStr.slice, PyStr.slice_from. split.
  - intros ->. apply (prefix_substring 5 13).
  - intros Htail. cbn [Nat.sub].
    rewrite (substring_of_tail 5 13 (account self)),
      (substring_of_tail 5 13 (account self')), Htail.
    reflexivity.
Qed.

(** Two accounts of different resellers with the same scope; their
    containers have different names. *)
Lemma same_scope_different_containers :
  scope (Gateway (orig_resp Sample.gw) Sample.cfg "AUTH_bd34c4073b654268")
  = scope (Gateway (orig_resp Sample.gw) Sample.cfg "LDAP_bd34c4073b654268")
  ∧ docker_container_name
      (Gateway (orig_resp Sample.gw) Sample.cfg "AUTH_bd34c4073b654268")
    ≠ docker_container_name
        (Gateway (orig_resp Sample.gw) Sample.cfg "LDAP_bd34c4073b654268").
Proof. split; [reflexivity|]. vm_compute. discriminate. Qed.

(** * More of base.py: the [request] property of a handler *)

Module RequestProperty.

(** [class NotVertigoRequest(Exception): pass] and the built-in
    [NotImplementedError]: exception classes without payload, represented
    by their names. *)
Definition NotVertigoRequest : exn := PyException "NotVertigoRequest".
Definition NotImplementedError : exn := PyException "NotImplementedError".

Section Handler.

(** The request objects, and [_parse_vaco] of the handler class at hand:
    the version, account, container and object of a request path, or the
    exception it raises. *)
Variable request : Type.
Variable _parse_vaco : request → outcome (string * string * string * string).

(** The attributes behind the property; [None] before the first
    assignment. *)
Record handler := Handler {
  _request : option request;
  _vaco : option (string * string * string * string)
}.

(** [_extract_vaco]: assigns the four variables from [_parse_vaco], whose
    [ValueError] it lets through. *)
Definition _extract_vaco (self : handler) : outcome unit * handler :=
  match _request self with
  | None => (Raise (AttributeError "_request"), self)
  | Some r =>
      match _parse_vaco r with
      | Ret v => (Ret tt, Handler (_request self) (Some v))
      | Raise e => (Raise e, self)
      end
  end.

(** The setter of the property. *)
Definition setter (self : handler) (r : request) : outcome unit * handler :=
  let self := Handler (Some r) (_vaco self) in
  match _extract_vaco self with
  | (Raise (ValueError _), self) => (Raise NotVertigoRequest, self)
  | res => res
  end.

(** The variables are those of the request. *)
Definition tied (self : handler) : Prop :=
  match _request self, _vaco self with
  | Some r, Some v => _parse_vaco r = Ret v
  | None, None => True
  | _, _ => False
  end.

End Handler.

(** [VertigoBaseHandler._parse_vaco]: left to the subclasses. *)
Definition base_parse_vaco {request : Type} (r : request)
    : outcome (string * string * string * string) :=
  Raise NotImplementedError.

End RequestProperty.

(** X19.  Assigning the [request] of a handler.  The request is replaced
    first.  When its path parses, the four variables follow and are those
    of the new request.  When parsing raises, the assignment raises
    ([NotVertigoRequest] in place of [ValueError], any other exception
    unchanged) and leaves the handler with the new request and the
    variables it had before: they are no longer those of its request. *)
Theorem request_setter_replaces_request_first
    (request : Type)
    (parse : request → outcome (string * string * string * string))
    (self : RequestProperty.handler request) (r : request) :
  RequestProperty._request request
    (snd (RequestProperty.setter request parse self r)) = Some r
  ∧ (∀ v, parse r = Ret v →
          fst (RequestProperty.setter request parse self r) = Ret tt
          ∧ RequestProperty._vaco request
              (snd (RequestProperty.setter request parse self r)) = Some v
          ∧ RequestProperty.tied request parse
              (snd (RequestProperty.setter request parse self r)))
  ∧ (∀ e, parse r = Raise e →
          fst (RequestProperty.setter request parse self r)
          = Raise (match e with
                   | ValueError _ => RequestProperty.NotVertigoRequest
                   | _ => e
                   end)
          ∧ RequestProperty._vaco request
              (snd (RequestProperty.setter request parse self r))
            = RequestProperty._vaco request self
          ∧ ¬ RequestProperty.tied request parse
                (snd (RequestProperty.setter request parse self r))).
Proof.
  unfold RequestProperty.setter, RequestProperty._extract_vaco. cbn.
  destruct (parse r) as [v|e] eqn:Hparse.
  - cbn. split; [reflexivity|]. split; [|intros e [=]].
    intros v' [= <-]. repeat split.
    unfold RequestProperty.tied. cbn. exact Hparse.
  - destruct e; cbn;
      (split; [reflexivity|]; split; [intros v [=]|];
       intros e' [= <-]; repeat split;
       unfold RequestProperty.tied; cbn;
       destruct (RequestProperty._vaco request self); [congruence|tauto]).
Qed.

(** Requests as paths, with a parser that accepts the paths of four
    segments: a handler on [v1/AUTH_x/c/o] is assigned the request
    [info]. *)
Definition sample_parse (path : string)
    : outcome (string * string * string * string) :=
  match PyStr.split "/" path with
  | [v; a; c; o] => Ret (v, a, c, o)
  | _ => Raise (ValueError "Invalid path")
  end.

Definition sample_handler : RequestProperty.handler string :=
  RequestProperty.Handler string (Some "v1/AUTH_x/c/o")
    (Some ("v1", "AUTH_x", "c", "o")).

Lemma failed_assignment_leaves_stale_variables :
  RequestProperty.tied string sample_parse sample_handler
  ∧ RequestProperty.setter string sample_parse sample_handler "info"
    = (Raise RequestProperty.NotVertigoRequest,
       RequestProperty.Handler string (Some "info")
         (Some ("v1", "AUTH_x", "c", "o"))).
Proof. split; reflexivity. Qed.

(** On the base class itself every assignment, the one of [__init__]
    included, fails with [NotImplementedError]. *)
Lemma base_handler_request_not_implemented (r : string) :
  fst (RequestProperty.setter string RequestProperty.base_parse_vaco
         (RequestProperty.Handler string None None) r)
  = Raise RequestProperty.NotImplementedError.
Proof. reflexivity. Qed.
